(** * MCP gateway: proxy sessions, backend supervision and port allocation

    A shallow embedding of the gateway core (packages [service] and
    [router]) together with the properties stated for it.

    Conventions of the embedding:
    - Go [int] and [int64] are [Z] with the two's-complement wrap-around
      written out ([wrap64]); [atomic.Int32] likewise ([wrap32]).
    - Go maps are [gmap]s; a [range] over a map is a fold over
      [map_to_list], whose order is fixed but unspecified, like Go's.
    - nil pointers, nil channels and nil files are [None].
    - the collaborators the code calls but does not define (clock, HTTP
      client, JSON libraries, process spawning) are explicit parameters.
    - mutexes and wait groups are not represented: every function is the
      sequential effect of one call.  The one exception is a tick of the
      session GC, which may lock a mutex it holds already: its result
      says whether it returns. *)

From Stdlib Require Import ZArith Lia Ascii String.
From stdpp Require Import gmap strings list fin_maps pretty.

Open Scope Z_scope.

(** ** Machine integers *)

Definition wrap64 (z : Z) : Z := (z + 2 ^ 63) mod 2 ^ 64 - 2 ^ 63.
Definition wrap32 (z : Z) : Z := (z + 2 ^ 31) mod 2 ^ 32 - 2 ^ 31.
Definition int_max : Z := 2 ^ 63 - 1.
Definition int_min : Z := - 2 ^ 63.

(** ** Port allocator (ServiceManager.usedPorts / nextPort) *)

Module PortManager.

Record t := mk {
  usedPorts : gmap Z bool;
  nextPort  : Z
}.

(** The port fields as [NewServiceManager] initialises them. *)
Definition init : t := {| usedPorts := ∅; nextPort := 10000 |}.

(** [m.usedPorts[p]]: a missing key reads as [false]. *)
Definition used (m : t) (p : Z) : bool := default false (usedPorts m !! p).

(** [for m.usedPorts[m.nextPort] { m.nextPort++ }], at most [fuel]
    increments. *)
Fixpoint skipUsed (fuel : nat) (u : gmap Z bool) (p : Z) : Z :=
  match fuel with
  | O => p
  | S fuel' =>
      if default false (u !! p) then skipUsed fuel' u (wrap64 (p + 1)) else p
  end.

(** The loop leaves a used port behind at every step, so it performs at
    most [size usedPorts] increments (see [skipUsed_least]). *)
Definition GetNextAvailablePort (m : t) : Z * t :=
  let port := skipUsed (size (usedPorts m)) (usedPorts m) (nextPort m) in
  (port, {| usedPorts := <[port := true]> (usedPorts m);
            nextPort := wrap64 (port + 1) |}).

Definition ReleasePort (port : Z) (m : t) : t :=
  {| usedPorts := delete port (usedPorts m); nextPort := nextPort m |}.

(** A client of the allocator: a sequence of calls.  Next to the
    allocator we keep two ghost lists: the ports currently held
    (allocated and not released since) and every port ever returned. *)
Inductive call := Alloc | Release (port : Z).

Record run_state := mkRun {
  mgr      : t;
  held     : list Z;
  returned : list Z
}.

Definition start : run_state := {| mgr := init; held := []; returned := [] |}.

Definition step (st : run_state) (c : call) : run_state :=
  match c with
  | Alloc =>
      let '(p, m') := GetNextAvailablePort (mgr st) in
      {| mgr := m'; held := p :: held st; returned := p :: returned st |}
  | Release q =>
      {| mgr := ReleasePort q (mgr st);
         held := filter (λ p, p ≠ q) (held st);
         returned := returned st |}
  end.

Definition run (calls : list call) : run_state := foldl step start calls.

Definition is_alloc (c : call) : bool :=
  match c with Alloc => true | Release _ => false end.

(** Number of allocations in a call sequence. *)
Definition allocs (calls : list call) : Z :=
  Z.of_nat (length (List.filter is_alloc calls)).

(** The invariant of a run: the cursor has moved once per allocation,
    every held port lies below it, and the held ports are exactly the
    used ones. *)
Record run_inv (calls : list call) (st : run_state) : Prop := {
  inv_cursor : nextPort (mgr st) = 10000 + allocs calls;
  inv_below  : ∀ p, p ∈ held st → 10000 ≤ p < nextPort (mgr st);
  inv_used   : ∀ p, used (mgr st) p = true ↔ p ∈ held st;
  inv_nodup  : NoDup (held st);
  inv_ret    : ∀ p, p ∈ returned st → 10000 ≤ p
}.

End PortManager.

(** ** Strings and formatting used by the code *)

(** The double-quote character, for the JSON fragments the code builds. *)
Definition dquote : string := String (Ascii.ascii_of_nat 34) EmptyString.

(** [fmt.Sprintf("%d", n)]. *)
Definition fmt_d (n : Z) : string := pretty n.

(** [strings.Join(l, sep)]. *)
Fixpoint Join (l : list string) (sep : string) : string :=
  match l with
  | [] => EmptyString
  | [x] => x
  | x :: rest => x +:+ sep +:+ Join rest sep
  end.

(** [strings.Split(s, sep)] for a one-character separator. *)
Fixpoint Split (s : string) (sep : ascii) : list string :=
  match s with
  | EmptyString => [EmptyString]
  | String c s' =>
      if decide (c = sep) then EmptyString :: Split s' sep
      else match Split s' sep with
           | h :: t => String c h :: t
           | [] => [String c EmptyString]
           end
  end.

Definition underscore : ascii := Ascii.ascii_of_nat 95.

(** Whether the character [c] occurs in [s]. *)
Fixpoint has_char (c : ascii) (s : string) : bool :=
  match s with
  | EmptyString => false
  | String c' s' => if decide (c' = c) then true else has_char c s'
  end.

(** [strings.HasPrefix] and [strings.TrimPrefix]. *)
Definition HasPrefix (s pre : string) : bool := String.prefix pre s.

Definition TrimPrefix (s pre : string) : string :=
  if HasPrefix s pre
  then String.substring (String.length pre) (String.length s - String.length pre) s
  else s.

(** [strings.Replace(s, old, new, 1)]: the leftmost occurrence of [old]
    is replaced; an empty [old] matches at the beginning. *)
Fixpoint Replace1 (s old new : string) : string :=
  if String.prefix old s
  then new +:+ String.substring (String.length old) (String.length s - String.length old) s
  else match s with
       | EmptyString => EmptyString
       | String c s' => String c (Replace1 s' old new)
       end.

(** [strings.Contains(s, sub)]. *)
Fixpoint Contains (s sub : string) : bool :=
  if String.prefix sub s then true
  else match s with
       | EmptyString => false
       | String _ s' => Contains s' sub
       end.

(** ** Configuration (package [config], declarations only)

    Modelled from the spec: package [config] is not among the sources;
    the fields below are the ones the code reads. *)

Record MCPServerConfig := mkServerConfig {
  Command   : string;
  Args      : list string;
  Env       : gmap string string;
  URL       : string;
  Workspace : string
}.

Record Config := mkConfig {
  ConfigDirPath         : string;
  McpServiceRetryCount  : Z;   (* cfg.McpServiceMgrConfig.GetMcpServiceRetryCount() *)
  SessionGCInterval     : Z;
  ProxySessionTimeout   : Z;
  COMMAND_SUPERGATEWA   : string
}.

(** ** The clock and the network

    [Now n] is what [time.Now()] shows (nanoseconds since the epoch) the
    [n]-th time the clock is read; [Post n url body] is the outcome of the
    [n]-th [http.Post]: [None] for a transport error, otherwise the status
    code of the response. *)

Record Oracle := mkOracle {
  Now  : nat → Z;
  Post : nat → string → string → option Z
}.

(** Clock readings made and requests posted so far. *)
Record Net := mkNet {
  clockReads : nat;
  posts      : list (string * string)     (* url, body *)
}.

Definition readClock (env : Oracle) (n : Net) : Z * Net :=
  (Now env (clockReads n), mkNet (S (clockReads n)) (posts n)).

(** [Time.UnixMilli()] *)
Definition UnixMilli (t : Z) : Z := t / 1000000.

(** [Time.Sub]: the difference, saturated to the range of a [Duration]. *)
Definition time_Sub (t u : Z) : Z := Z.max int_min (Z.min int_max (t - u)).

Definition doPost (env : Oracle) (url body : string) (n : Net) : option Z * Net :=
  (Post env (length (posts n)) url body,
   mkNet (clockReads n) (posts n ++ [(url, body)])).

(** ** Backend supervisor (service.go) *)

Module Service.

(** A spawned [*exec.Cmd]. *)
Record Cmd := mkCmd {
  cmd_line : string;          (* the argument of [/bin/sh -c] *)
  cmd_env  : list string;
  cmd_pid  : nat
}.

(** What a call does to the world outside the [McpService] value. *)
Inductive effect :=
| CloseChan (ch : nat)            (* close(s.StopSignal) *)
| CloseFile (f : string)          (* LogFile.Close() *)
| Kill (pid : nat)                (* Cmd.Process.Kill() *)
| GoMonitor (pid : nat).          (* go s.monitorProcess() *)

(** The shared world of a supervisor: the port manager it was given,
    the channels made so far, and the effects performed. *)
Record World := mkWorld {
  ports    : PortManager.t;
  chans    : nat;                 (* channels made so far *)
  closed   : gset nat;            (* channels closed so far *)
  trace    : list effect
}.

Record McpService := mkService {
  Name       : string;
  Config_    : MCPServerConfig;
  Cmd_       : option Cmd;
  LogFile    : option string;
  StopSignal : option nat;
  Port       : Z;
  cfg        : Config;
  Status     : string;
  RetryCount : Z
}.

Definition set_Status (v : string) (s : McpService) : McpService :=
  mkService (Name s) (Config_ s) (Cmd_ s) (LogFile s) (StopSignal s) (Port s)
            (cfg s) v (RetryCount s).
Definition set_Port (v : Z) (s : McpService) : McpService :=
  mkService (Name s) (Config_ s) (Cmd_ s) (LogFile s) (StopSignal s) v
            (cfg s) (Status s) (RetryCount s).
Definition set_Cmd (v : option Cmd) (s : McpService) : McpService :=
  mkService (Name s) (Config_ s) v (LogFile s) (StopSignal s) (Port s)
            (cfg s) (Status s) (RetryCount s).
Definition set_LogFile (v : option string) (s : McpService) : McpService :=
  mkService (Name s) (Config_ s) (Cmd_ s) v (StopSignal s) (Port s)
            (cfg s) (Status s) (RetryCount s).
Definition set_StopSignal (v : option nat) (s : McpService) : McpService :=
  mkService (Name s) (Config_ s) (Cmd_ s) (LogFile s) v (Port s)
            (cfg s) (Status s) (RetryCount s).
Definition set_RetryCount (v : Z) (s : McpService) : McpService :=
  mkService (Name s) (Config_ s) (Cmd_ s) (LogFile s) (StopSignal s) (Port s)
            (cfg s) (Status s) v.
Definition set_Config (v : MCPServerConfig) (s : McpService) : McpService :=
  mkService (Name s) v (Cmd_ s) (LogFile s) (StopSignal s) (Port s)
            (cfg s) (Status s) (RetryCount s).

Definition emit (e : effect) (w : World) : World :=
  mkWorld (ports w) (chans w) (closed w) (trace w ++ [e]).

Definition NewMcpService (name : string) (config : MCPServerConfig)
    (cfg : Config) : McpService :=
  {| Name := name; Config_ := config; Cmd_ := None; LogFile := None;
     StopSignal := None; Port := 0; cfg := cfg; Status := "stopped";
     RetryCount := McpServiceRetryCount cfg |}.

(** [IsSSE]: the query also sets [Status]. *)
Definition IsSSE (s : McpService) : bool * McpService :=
  if decide (Command (Config_ s) = "" ∧ URL (Config_ s) ≠ "")
  then (true, set_Status "running" s)
  else (false, s).

Definition Stop (s : McpService) (w : World) : McpService * World :=
  let '(sse, s) := IsSSE s in
  if sse then (s, w)
  else if decide (Status s ≠ "running") then (s, w)
  else match Cmd_ s with
  | None => (s, w)
  | Some cmd =>
      let '(s, w) :=
        match StopSignal s with
        | Some ch =>
            (set_StopSignal None s,
             mkWorld (ports w) (chans w) ({[ch]} ∪ closed w)
                     (trace w ++ [CloseChan ch]))
        | None => (s, w)
        end in
      let w :=
        match LogFile s with
        | Some f => emit (CloseFile f) w
        | None => w
        end in
      let '(s, w) := (set_Cmd None s, emit (Kill (cmd_pid cmd)) w) in
      let '(s, w) :=
        if decide (Port s ≠ 0)
        then (set_Port 0 s,
              mkWorld (PortManager.ReleasePort (Port s) (ports w))
                      (chans w) (closed w) (trace w))
        else (s, w) in
      (set_Status "stopped" s, w)
  end.

(** What [Start] asks of the operating system. *)
Record OS := mkOS {
  CreateLogFile : string → string → option string;   (* dir, name ↦ file *)
  cmdStart      : string → list string → option nat; (* sh -c line, env ↦ pid *)
  Environ       : list string
}.

Inductive start_error :=
| ErrNotCommand (name : string)      (* not a command backend *)
| ErrAlreadyRunning (name : string)
| ErrCreateLogFile
| ErrStartCommand.

Definition commandLine (s : McpService) : string :=
  let mcpRunner :=
    dquote +:+ Command (Config_ s) +:+ " " +:+ Join (Args (Config_ s)) " "
           +:+ dquote in
  COMMAND_SUPERGATEWA (cfg s) +:+ " --stdio " +:+ mcpRunner +:+ " --port "
    +:+ fmt_d (Port s).

Definition commandEnv (os : OS) (s : McpService) : list string :=
  if decide (0 < size (Env (Config_ s)))%nat
  then Environ os ++ ((λ kv : string * string, kv.1 +:+ "=" +:+ kv.2)
                        <$> map_to_list (Env (Config_ s)))
  else [].

Definition Start (os : OS) (s : McpService) (w : World)
    : option start_error * McpService * World :=
  let '(sse, s) := IsSSE s in
  if sse then (Some (ErrNotCommand (Name s)), s, w)
  else if decide (Status s = "running")
  then (Some (ErrAlreadyRunning (Name s)), s, w)
  else
    let s := set_Status "starting" s in
    let '(s, w) :=
      if decide (Port s = 0)
      then let '(p, pm) := PortManager.GetNextAvailablePort (ports w) in
           (set_Port p s, mkWorld pm (chans w) (closed w) (trace w))
      else (s, w) in
    match CreateLogFile os (ConfigDirPath (cfg s)) (Name s +:+ ".log") with
    | None => (Some ErrCreateLogFile, s, w)
    | Some logFile =>
        let s := set_LogFile (Some logFile) s in
        match cmdStart os (commandLine s) (commandEnv os s) with
        | None => (Some ErrStartCommand, s, emit (CloseFile logFile) w)
        | Some pid =>
            let cmd := mkCmd (commandLine s) (commandEnv os s) pid in
            let s := set_Cmd (Some cmd) s in
            let s := set_StopSignal (Some (chans w)) s in
            let w := mkWorld (ports w) (S (chans w)) (closed w)
                             (trace w ++ [GoMonitor pid]) in
            (None, set_Status "running" s, w)
        end
    end.

Definition Restart (os : OS) (s : McpService) (w : World)
    : McpService * World :=
  let '(sse, s) := IsSSE s in
  if sse then (s, w)
  else let '(s, w) := Stop s w in
       let '(_, s, w) := Start os s w in (s, w).

(** One turn of the [for { select { ... } }] loop of [monitorProcess].
    [waitErr] tells whether [s.Cmd.Wait()] returned an error. *)
Inductive monitor_outcome :=
| Terminated      (* the monitor returned *)
| Looping         (* the loop goes round again *)
| NilCmd.         (* s.Cmd is nil: Wait dereferences a nil pointer *)

Definition monitorTurn (os : OS) (waitErr : bool) (s : McpService) (w : World)
    : monitor_outcome * McpService * World :=
  if match StopSignal s with
     | Some ch => bool_decide (ch ∈ closed w)
     | None => false
     end
  then (Terminated, s, w)
  else match Cmd_ s with
  | None => (NilCmd, s, w)
  | Some _ =>
      if waitErr then
        if decide (RetryCount s > McpServiceRetryCount (cfg s))
        then let '(s, w) := Stop s w in (Terminated, s, w)
        else
          let s := set_RetryCount (wrap64 (RetryCount s + 1)) s in
          let '(s, w) := Stop s w in
          let '(_, s, w) := Start os s w in
          (Looping, s, w)
      else (Looping, s, w)
  end.

Definition GetStatus (s : McpService) : string := Status s.

Definition GetUrl (s : McpService) : string :=
  if decide (GetStatus s ≠ "running") then ""
  else if decide (URL (Config_ s) ≠ "") then URL (Config_ s)
  else if decide (Port s = 0) then ""
  else "http://localhost:" +:+ fmt_d (Port s).

Definition GetSSEUrl (s : McpService) : string :=
  if decide (GetStatus s ≠ "running") then "" else GetUrl s +:+ "/sse".

Definition GetMessageUrl (s : McpService) : string :=
  if decide (GetStatus s ≠ "running") then "" else GetUrl s +:+ "/message".

Inductive send_error :=
| ErrPost
| ErrStatusCode (code : Z).

(** [McpService.SendMessage]: only status 200 counts as success. *)
Definition SendMessage (env : Oracle) (message : string) (s : McpService)
    (n : Net) : option send_error * Net :=
  let '(resp, n) := doPost env (GetMessageUrl s) message n in
  match resp with
  | None => (Some ErrPost, n)
  | Some code =>
      if decide (code ≠ 200) then (Some (ErrStatusCode code), n) else (None, n)
  end.

(** [setConfig]: the new configuration takes effect at the next start. *)
Definition setConfig (c : MCPServerConfig) (s : McpService) : McpService :=
  set_Config c s.

Definition GetPort (s : McpService) : Z := Port s.

Record McpServiceInfo := mkInfo {
  info_Name   : string;
  info_Status : string;
  info_Config : MCPServerConfig
}.

Definition Info (s : McpService) : McpServiceInfo :=
  {| info_Name := Name s; info_Status := Status s; info_Config := Config_ s |}.

(** The [err != nil] branch of the loop body of [monitorProcess]: what
    the monitor does once [s.Cmd.Wait()] has returned an error.  The
    backend is read afresh, as the monitor reads it through its pointer
    after the wait. *)
Definition onWaitError (os : OS) (s : McpService) (w : World)
    : monitor_outcome * McpService * World :=
  if decide (RetryCount s > McpServiceRetryCount (cfg s))
  then let '(s, w) := Stop s w in (Terminated, s, w)
  else
    let s := set_RetryCount (wrap64 (RetryCount s + 1)) s in
    let '(s, w) := Stop s w in
    let '(_, s, w) := Start os s w in
    (Looping, s, w).

(** The [for] loop of [monitorProcess], given the outcomes of the
    successive calls of [s.Cmd.Wait()].  When the list runs out the
    monitor is blocked in the next [Wait]. *)
Fixpoint monitorLoop (os : OS) (waits : list bool) (s : McpService) (w : World)
    : monitor_outcome * McpService * World :=
  match waits with
  | [] => (Looping, s, w)
  | waitErr :: rest =>
      match monitorTurn os waitErr s w with
      | (Looping, s, w) => monitorLoop os rest s w
      | r => r
      end
  end.

Definition monitorProcess (os : OS) (waits : list bool) (s : McpService)
    (w : World) : monitor_outcome * McpService * World :=
  let '(sse, s) := IsSSE s in
  if sse then (Terminated, s, w) else monitorLoop os waits s w.

(** [Write], the [io.Writer] the child's output goes to.  The result is
    the count returned (the error is always nil), what was written to the
    log file, if anything, and the backend and the world afterwards. *)
Definition Write (p : string) (s : McpService) (w : World)
    : Z * option (string * string) * McpService * World :=
  let '(sse, s) := IsSSE s in
  if sse then (0, None, s, w)
  else
    let logged :=
      match LogFile s with
      | Some f => Some (f, p)
      | None => None
      end in
    let '(s, w) := if Contains p "exited" then Stop s w else (s, w) in
    (Z.of_nat (String.length p), logged, s, w).

(** The monitors started so far. *)
Definition monitors (w : World) : list nat :=
  omap (λ e, match e with GoMonitor pid => Some pid | _ => None end) (trace w).

(** The processes killed so far. *)
Definition kills (w : World) : list nat :=
  omap (λ e, match e with Kill pid => Some pid | _ => None end) (trace w).

(** A benign operating system: log files can be created and commands
    started. *)
Definition os_ok (os : OS) : Prop :=
  (∀ dir name, is_Some (CreateLogFile os dir name))
  ∧ (∀ line env, is_Some (cmdStart os line env)).

(** Channels are named in the order they are made: none that is yet to
    be made has been closed. *)
Definition chans_ok (w : World) : Prop :=
  ∀ ch, ch ∈ closed w → (ch < chans w)%nat.

(** A process-backed backend that is up: it runs a command, and its
    stop signal has been made and is open. *)
Record up (s : McpService) (w : World) : Prop := {
  up_command : ¬ (Command (Config_ s) = "" ∧ URL (Config_ s) ≠ "");
  up_status  : Status s = "running";
  up_cmd     : is_Some (Cmd_ s);
  up_signal  : ∃ ch, StopSignal s = Some ch ∧ (ch < chans w)%nat ∧ ch ∉ closed w
}.

End Service.

(** ** Package [types] and the JSON libraries (declarations only) *)

(** A decoded JSON value, as [encoding/json] stores it in an [any]. *)
#[warnings="-register-all"]
Inductive any :=
| ANil
| ABool (b : bool)
| ANum (raw : string)
| AStr (s : string)
| AArr (l : list any)
| AObj (m : gmap string any).

(** Modelled from the spec: [types.McpRequest] is declared in package
    [types], which is not among the sources; these are the fields
    session.go reads and writes. *)
Record McpRequest := mkRequest {
  req_Jsonrpc : string;
  req_Id      : option Z;       (* *int64 *)
  req_Method  : string;
  req_Params  : any
}.

(** Modelled from the spec: [types.McpTool], [{ name, realName,
    description?, inputSchema? }]. *)
Record McpTool := mkTool {
  tool_Name        : string;
  tool_RealName    : string;
  tool_Description : string;
  tool_InputSchema : string
}.

(** Modelled from the spec: the value [types.CreateMcpResult(jsonrpc, id,
    {"tools": allTools})] builds. *)
Record McpResult := mkResult {
  res_Jsonrpc : string;
  res_Id      : Z;
  res_tools   : list McpTool
}.

(** The JSON collaborators ([encoding/json], [gjson], the [ToJson]
    methods of package [types]) as the code calls them. *)
Record Json := mkJson {
  Unmarshal_request     : string → option McpRequest;
  request_ToJson        : McpRequest → string;
  gjson_id              : string → option Z;      (* Get(data,"id"): Exists, Int *)
  gjson_result_tools    : string → list string;   (* Raw of Get(data,"result.tools").Array() *)
  Unmarshal_tool        : string → option McpTool;
  gjson_serverInfo_name : string → option string; (* Get(data,"result.serverInfo.name") *)
  gjson_jsonrpc         : string → string;        (* Get(data,"jsonrpc").String() *)
  result_ToJson         : McpResult → string
}.

(** ** Proxy session (session.go) *)

Module Session.

Record McpMessage := mkMessage {
  msg_McpName : string;
  msg_Content : string;
  msg_Type    : string;         (* "send" or "receive" *)
  msg_Time    : Z
}.

Record SessionMsg := mkMsg {
  Event : string;
  Data  : string
}.

Inductive chan_state := NilChan | OpenChan | ClosedChan.

(** The polling buffers ([Results], [Receives] and their offsets) are
    kept in a record of their own, [buffers], further down. *)
Record t := mk {
  Id              : string;
  LastReceiveTime : Z;
  messages        : list McpMessage;
  eventChan       : list SessionMsg;          (* buffered, capacity 100 *)
  doneChan        : chan_state;
  sseConns        : gmap string string;       (* backend ↦ URL of the open response *)
  sseCount        : Z;
  mcpMessageUrl   : gmap string string;
  messageIds      : gmap Z Z;
  mcpToolsMap     : gmap string (gmap string McpTool);
  waitToolsCount  : Z
}.

Definition set_messages (v : list McpMessage) (s : t) : t :=
  mk (Id s) (LastReceiveTime s) v (eventChan s) (doneChan s) (sseConns s)
     (sseCount s) (mcpMessageUrl s) (messageIds s) (mcpToolsMap s)
     (waitToolsCount s).
Definition set_eventChan (v : list SessionMsg) (s : t) : t :=
  mk (Id s) (LastReceiveTime s) (messages s) v (doneChan s) (sseConns s)
     (sseCount s) (mcpMessageUrl s) (messageIds s) (mcpToolsMap s)
     (waitToolsCount s).
Definition set_sseConns (v : gmap string string) (s : t) : t :=
  mk (Id s) (LastReceiveTime s) (messages s) (eventChan s) (doneChan s) v
     (sseCount s) (mcpMessageUrl s) (messageIds s) (mcpToolsMap s)
     (waitToolsCount s).
Definition set_sseCount (v : Z) (s : t) : t :=
  mk (Id s) (LastReceiveTime s) (messages s) (eventChan s) (doneChan s)
     (sseConns s) v (mcpMessageUrl s) (messageIds s) (mcpToolsMap s)
     (waitToolsCount s).
Definition set_mcpMessageUrl (v : gmap string string) (s : t) : t :=
  mk (Id s) (LastReceiveTime s) (messages s) (eventChan s) (doneChan s)
     (sseConns s) (sseCount s) v (messageIds s) (mcpToolsMap s)
     (waitToolsCount s).
Definition set_messageIds (v : gmap Z Z) (s : t) : t :=
  mk (Id s) (LastReceiveTime s) (messages s) (eventChan s) (doneChan s)
     (sseConns s) (sseCount s) (mcpMessageUrl s) v (mcpToolsMap s)
     (waitToolsCount s).
Definition set_mcpToolsMap (v : gmap string (gmap string McpTool)) (s : t) : t :=
  mk (Id s) (LastReceiveTime s) (messages s) (eventChan s) (doneChan s)
     (sseConns s) (sseCount s) (mcpMessageUrl s) (messageIds s) v
     (waitToolsCount s).
Definition set_waitToolsCount (v : Z) (s : t) : t :=
  mk (Id s) (LastReceiveTime s) (messages s) (eventChan s) (doneChan s)
     (sseConns s) (sseCount s) (mcpMessageUrl s) (messageIds s)
     (mcpToolsMap s) v.

Definition eventChanCap : nat := 100.

(** [NewSession]; [doneChan] is not made. *)
Definition NewSession (id : string) (now : Z) : t :=
  {| Id := id; LastReceiveTime := now; messages := []; eventChan := [];
     doneChan := NilChan; sseConns := ∅; sseCount := 0; mcpMessageUrl := ∅;
     messageIds := ∅; mcpToolsMap := ∅; waitToolsCount := 0 |}.

Definition AddMessage (env : Oracle) (mcpName content msgType : string)
    (s : t) (n : Net) : t * Net :=
  let '(now, n) := readClock env n in
  (set_messages (messages s ++ [mkMessage mcpName content msgType now]) s, n).

Definition IsReady (s : t) : bool :=
  bool_decide (sseCount s = Z.of_nat (size (mcpMessageUrl s))).

(** [select { case s.eventChan <- event: default: }] *)
Definition SendEvent (event : SessionMsg) (s : t) : t :=
  if decide (length (eventChan s) < eventChanCap)%nat
  then set_eventChan (eventChan s ++ [event]) s
  else s.

Definition generateMessageId (env : Oracle) (realMessageId : Z) (s : t) (n : Net)
    : Z * t * Net :=
  let '(t, n) := readClock env n in
  let now := UnixMilli t in
  (now, set_messageIds (<[now := realMessageId]> (messageIds s)) s, n).

Definition getRealMessageId (messageId : Z) (s : t) : option Z :=
  messageIds s !! messageId.

Definition removeMessageId (messageId : Z) (s : t) : t :=
  set_messageIds (delete messageId (messageIds s)) s.

Inductive error :=
| ErrUnmarshal
| ErrNotReady
| ErrGetParams
| ErrGetName
| ErrNoMessageUrl (mcpName : string)
| ErrPost
| ErrStatusCode (code : Z).

Definition sendToMcp (json : Json) (env : Oracle) (mcpName : string)
    (request : McpRequest) (s : t) (n : Net) : option error * t * Net :=
  let '(request, s, n) :=
    match req_Id request with
    | Some id =>
        let '(g, s, n) := generateMessageId env id s n in
        (mkRequest (req_Jsonrpc request) (Some g) (req_Method request)
                   (req_Params request), s, n)
    | None => (request, s, n)
    end in
  match mcpMessageUrl s !! mcpName with
  | None => (Some (ErrNoMessageUrl mcpName), s, n)
  | Some url =>
      let '(resp, n) := doPost env url (request_ToJson json request) n in
      match resp with
      | None => (Some ErrPost, s, n)
      | Some code =>
          if decide (code < 200 ∨ code > 299)
          then (Some (ErrStatusCode code), s, n)
          else let '(s, n) :=
                 AddMessage env mcpName (request_ToJson json request) "send" s n in
               (None, s, n)
      end
  end.

(** [for !s.IsReady() { if try < 0 { return err }; Sleep; try-- }].
    [sleep] is what the reader goroutines do to the session during one
    [time.Sleep(time.Second)].  The result is the session as the loop
    leaves it and whether it is ready; [false] is the error [service not
    ready].  Starting from [try = 3] the loop sleeps at most four times
    (see [waitReady_fuel]). *)
Fixpoint waitReady (sleep : t → t) (fuel : nat) (try : Z) (s : t) : t * bool :=
  if IsReady s then (s, true)
  else if decide (try < 0) then (s, false)
  else match fuel with
       | O => (s, false)
       | S fuel' => waitReady sleep fuel' (try - 1) (sleep s)
       end.

(** The body of [for mcpName := range s.mcpMessageUrl]. *)
Definition broadcastTo (json : Json) (env : Oracle) (request : McpRequest)
    (acc : t * Net) (mcpName : string) : t * Net :=
  let '(err, s, n) := sendToMcp json env mcpName request acc.1 acc.2 in
  match err with
  | Some _ => (s, n)
  | None =>
      if decide (req_Method request = "tools/list")
      then (set_waitToolsCount (wrap32 (waitToolsCount s + 1)) s, n)
      else (s, n)
  end.

(** The [tools/call] branch: the target backend ([""] for none) and the
    request with its [params] rewritten. *)
Definition routeToolsCall (request : McpRequest)
    : error + (string * McpRequest) :=
  match req_Params request with
  | AObj params =>
      match params !! "name" with
      | Some (AStr name) =>
          let names := Split name underscore in
          let '(singleMcp, params) :=
            if decide (1 < length names)%nat
            then (hd "" names,
                  <["name" := AStr (Join (tl names) "_")]> params)
            else ("", params) in
          inr (singleMcp,
               mkRequest (req_Jsonrpc request) (req_Id request)
                         (req_Method request) (AObj params))
      | _ => inl ErrGetName
      end
  | _ => inl ErrGetParams
  end.

Definition SendMessage (json : Json) (env : Oracle) (sleep : t → t)
    (content : string) (s : t) (n : Net) : option error * t * Net :=
  match Unmarshal_request json content with
  | None => (Some ErrUnmarshal, s, n)
  | Some request =>
      match waitReady sleep 4 3 s with
      | (s, false) => (Some ErrNotReady, s, n)
      | (s, true) =>
          match (if decide (req_Method request = "tools/call")
                 then routeToolsCall request
                 else inr ("", request)) with
          | inl e => (Some e, s, n)
          | inr (singleMcp, request) =>
              if decide (singleMcp = "")
              then
                let '(s, n) :=
                  foldl (broadcastTo json env request) (s, n)
                        (map_to_list (mcpMessageUrl s)).*1 in
                let '(s, n) :=
                  AddMessage env singleMcp (request_ToJson json request) "send" s n in
                (None, s, n)
              else
                let '(err, s, n) := sendToMcp json env singleMcp request s n in
                match err with
                | Some e => (Some e, s, n)
                | None =>
                    let '(s, n) :=
                      AddMessage env singleMcp (request_ToJson json request)
                                 "send" s n in
                    (None, s, n)
                end
          end
      end
  end.

(** [fmt.Sprintf(`"id":%d`, id)] *)
Definition idField (id : Z) : string :=
  dquote +:+ "id" +:+ dquote +:+ ":" +:+ fmt_d id.

(** [for _, toolJ := range tools { ... }]: the map filled so far, and
    whether every tool was decoded. *)
Fixpoint fillTools (json : Json) (mcpName : string) (tools : list string)
    (m : gmap string McpTool) : gmap string McpTool * bool :=
  match tools with
  | [] => (m, true)
  | toolJ :: rest =>
      match Unmarshal_tool json toolJ with
      | None => (m, false)
      | Some tool =>
          let realName := tool_Name tool in
          let tool := mkTool (mcpName +:+ "_" +:+ tool_Name tool) realName
                             (tool_Description tool) (tool_InputSchema tool) in
          fillTools json mcpName rest (<[realName := tool]> m)
      end
  end.

(** The two nested [range] loops that flatten [mcpToolsMap]. *)
Definition allTools (m : gmap string (gmap string McpTool)) : list McpTool :=
  flat_map (λ kv : string * gmap string McpTool, (map_to_list kv.2).*2)
           (map_to_list m).

(** The closure run when [result.tools] is a non-empty array; its
    [return]s leave only the closure. *)
Definition onTools (json : Json) (mcpName : string) (realMessage : Z)
    (tools : list string) (data : string) (s : t) : t * string :=
  let '(m, ok) := fillTools json mcpName tools ∅ in
  let s := set_mcpToolsMap (<[mcpName := m]> (mcpToolsMap s)) s in
  if negb ok then (s, data)
  else
    let c := wrap32 (waitToolsCount s - 1) in
    let s := set_waitToolsCount c s in
    if decide (c > 0) then (s, data)
    else (s, result_ToJson json
               (mkResult (gjson_jsonrpc json data) realMessage
                         (allTools (mcpToolsMap s)))).

(** The [data: ] branch of the reader, for the backend [mcpName] whose
    SSE response came from [scheme://host]. *)
Definition onData (json : Json) (mcpName scheme host : string)
    (currentEvent data : string) (s : t) : t :=
  let s :=
    if decide (currentEvent = "endpoint"
               ∧ default "" (mcpMessageUrl s !! mcpName) = "")
    then set_mcpMessageUrl
           (<[mcpName := scheme +:+ "://" +:+ host +:+ data]> (mcpMessageUrl s)) s
    else s in
  match gjson_id json data with
  | None => s
  | Some messageId =>
      match getRealMessageId messageId s with
      | None => s
      | Some realMessage =>
          let s := removeMessageId messageId s in
          let data := Replace1 data (idField messageId) (idField realMessage) in
          let '(s, data) :=
            let tools := gjson_result_tools json data in
            if decide (0 < length tools)%nat
            then onTools json mcpName realMessage tools data s
            else match gjson_serverInfo_name json data with
                 | Some name => (s, Replace1 data name "mcp-gateway")
                 | None => (s, data)
                 end in
          if decide (currentEvent ≠ "endpoint")
          then SendEvent (mkMsg currentEvent data) s
          else s
      end
  end.

(** One line of the stream, after [strings.TrimSpace]; the reader's
    local [currentEvent] travels with the session. *)
Definition onLine (json : Json) (mcpName scheme host : string)
    (st : string * t) (line : string) : string * t :=
  if decide (line = "") then st
  else if HasPrefix line "event: " then (TrimPrefix line "event: ", st.2)
  else if HasPrefix line "data: "
  then (st.1, onData json mcpName scheme host st.1 (TrimPrefix line "data: ") st.2)
  else st.

(** The reader loop over the lines read before the first read error. *)
Fixpoint readLoop (json : Json) (mcpName scheme host : string)
    (lines : list string) (st : string * t) : string * t :=
  match doneChan st.2 with
  | ClosedChan => st
  | _ =>
      match lines with
      | [] => st
      | line :: rest =>
          readLoop json mcpName scheme host rest
                   (onLine json mcpName scheme host st line)
      end
  end.

(** The request as a backend receives it: the same but for its id. *)
Definition with_id (request : McpRequest) (id : option Z) : McpRequest :=
  mkRequest (req_Jsonrpc request) id (req_Method request) (req_Params request).

(** A POST that carries [request] under some id, a gateway id exactly
    when the request has an id of its own. *)
Definition carries (json : Json) (request : McpRequest) (p : string * string)
    : Prop :=
  ∃ id, p.2 = request_ToJson json (with_id request id)
        ∧ (is_Some id ↔ is_Some (req_Id request)).

(** [Close] closes every recorded SSE response and returns once
    [sseWaitGroup.Wait()] does, that is when every reader has run its
    deferred clean-up (its [sseConns] entry deleted, [sseCount]
    decremented).  The result carries the URLs of the closed responses. *)
Definition Close (s : t) : t * list string :=
  (set_sseCount 0 (set_sseConns ∅ s), (map_to_list (sseConns s)).*2).

(** The fields of a session that neither the reader nor the sender
    writes. *)
Definition same_core (s s' : t) : Prop :=
  Id s' = Id s ∧ LastReceiveTime s' = LastReceiveTime s
  ∧ doneChan s' = doneChan s ∧ sseConns s' = sseConns s
  ∧ sseCount s' = sseCount s.

(** What the reader of the backend [mcpName] may do to a session: it
    appends to the event channel without overfilling it, removes
    gateway ids, records an endpoint for its own backend where there was
    none (or an empty one), and leaves the history alone. *)
Record reads (mcpName : string) (s s' : t) : Prop := {
  rd_core    : same_core s s';
  rd_history : messages s' = messages s;
  rd_prefix  : eventChan s `prefix_of` eventChan s';
  rd_cap     : (length (eventChan s) ≤ eventChanCap)%nat →
               (length (eventChan s') ≤ eventChanCap)%nat;
  rd_ids     : messageIds s' ⊆ messageIds s;
  rd_others  : ∀ b, b ≠ mcpName → mcpMessageUrl s' !! b = mcpMessageUrl s !! b;
  rd_first   : ∀ url, mcpMessageUrl s !! mcpName = Some url → url ≠ "" →
                      mcpMessageUrl s' !! mcpName = Some url;
  rd_size    : (size (mcpMessageUrl s) ≤ size (mcpMessageUrl s'))%nat
}.

Definition set_LastReceiveTime (v : Z) (s : t) : t :=
  mk (Id s) v (messages s) (eventChan s) (doneChan s) (sseConns s)
     (sseCount s) (mcpMessageUrl s) (messageIds s) (mcpToolsMap s)
     (waitToolsCount s).

(** [SubscribeSSE] up to its [go] statement: the reader is counted
    before it has connected. *)
Definition SubscribeSSE (mcpName sseUrl : string) (s : t) : t :=
  set_sseCount (wrap32 (sseCount s + 1)) s.

(** The steps of the reader goroutine around its loop: [http.Get] fails
    and the first deferred function runs; [http.Get] succeeds and the
    response is recorded; the loop is left and both deferred functions
    run. *)
Definition readerGetFailed (s : t) : t :=
  set_sseCount (wrap32 (sseCount s - 1)) s.

Definition readerConnected (mcpName sseUrl : string) (s : t) : t :=
  set_sseConns (<[mcpName := sseUrl]> (sseConns s)) s.

Definition readerExit (mcpName : string) (s : t) : t :=
  set_sseCount (wrap32 (sseCount s - 1))
    (set_sseConns (delete mcpName (sseConns s)) s).

(** The reader goroutine run to its end.  [resp] is [None] when
    [http.Get] fails, otherwise the scheme and host of the request and the
    lines read before the first read error. *)
Definition reader (json : Json) (mcpName sseUrl : string)
    (resp : option (string * string * list string)) (s : t) : t :=
  match resp with
  | None => readerGetFailed s
  | Some (scheme, host, lines) =>
      let s := readerConnected mcpName sseUrl s in
      let '(_, s) := readLoop json mcpName scheme host lines ("", s) in
      readerExit mcpName s
  end.

(** [for k, v := range tools { result[k] = v }] *)
Definition copyTools (tools : gmap string McpTool) : gmap string McpTool :=
  foldl (λ result kv, <[kv.1 := kv.2]> result) ∅ (map_to_list tools).

(** [GetMcpTools]: a copy of the backend's tools, [None] for nil. *)
Definition GetMcpTools (mcpName : string) (s : t)
    : option (gmap string McpTool) :=
  match mcpToolsMap s !! mcpName with
  | Some tools => Some (copyTools tools)
  | None => None
  end.

Definition GetMcpTool (mcpName toolName : string) (s : t) : McpTool * bool :=
  match mcpToolsMap s !! mcpName with
  | Some tools =>
      match tools !! toolName with
      | Some tool => (tool, true)
      | None => (mkTool "" "" "" "", false)
      end
  | None => (mkTool "" "" "" "", false)
  end.

(** The gateway ids a broadcast to [k] backends records when every POST
    is answered with success and the clock has been read [c] times
    before: each send reads the clock twice, once for the id and once for
    the history. *)
Fixpoint broadcastIds (env : Oracle) (c k : nat) : list Z :=
  match k with
  | O => []
  | S k' => UnixMilli (Now env c) :: broadcastIds env (S (S c)) k'
  end.

(** What the reader forwards for a reply without tools that answers the
    request [orig] under the gateway id [g]. *)
Definition forwardedData (json : Json) (orig g : Z) (data : string) : string :=
  let d1 := Replace1 data (idField g) (idField orig) in
  default d1 ((λ name, Replace1 d1 name "mcp-gateway")
                <$> gjson_serverInfo_name json d1).

(** The polling buffers of [Session]: [Results] with its read offset and
    [Receives] with its own.  They are kept in a record of their own,
    beside [t]; [NewSession] leaves them at their zero values. *)
Record buffers := mkBuffers {
  Results       : list string;
  Offset        : Z;
  Receives      : list string;
  ReceiveOffset : Z
}.

Definition newBuffers : buffers := mkBuffers [] 0 [] 0.

(** [len] of a slice, as an [int]. *)
Definition len (l : list string) : Z := Z.of_nat (length l).

Definition AddReceive (env : Oracle) (receive : string) (b : buffers) (s : t)
    (n : Net) : buffers * t * Net :=
  let b := mkBuffers (Results b) (Offset b) (Receives b ++ [receive])
                     (ReceiveOffset b) in
  let '(now, n) := readClock env n in
  (b, set_LastReceiveTime now s, n).

Definition AddResult (result : string) (b : buffers) : buffers :=
  mkBuffers (Results b ++ [result]) (Offset b) (Receives b) (ReceiveOffset b).

Definition GetResults (b : buffers) : list string := Results b.
Definition GetReceives (b : buffers) : list string := Receives b.
Definition GetOffset (b : buffers) : Z := Offset b.

Definition SetOffset (offset : Z) (b : buffers) : buffers :=
  mkBuffers (Results b) offset (Receives b) (ReceiveOffset b).

(** [GetUnprocessedReceives].  A nil slice is the empty list; [None] is
    the run-time panic of [s.Receives[s.ReceiveOffset:]] (or of [make])
    at a negative offset. *)
Definition GetUnprocessedReceives (b : buffers)
    : option (list string * buffers) :=
  if decide (ReceiveOffset b >= len (Receives b)) then Some ([], b)
  else if decide (ReceiveOffset b < 0) then None
  else Some (drop (Z.to_nat (ReceiveOffset b)) (Receives b),
             mkBuffers (Results b) (Offset b) (Receives b) (len (Receives b))).

(** [GetUnreadResults], likewise. *)
Definition GetUnreadResults (b : buffers) : option (list string * buffers) :=
  if decide (Offset b >= len (Results b)) then Some ([], b)
  else if decide (Offset b < 0) then None
  else Some (drop (Z.to_nat (Offset b)) (Results b),
             mkBuffers (Results b) (len (Results b)) (Receives b)
                       (ReceiveOffset b)).

(** A client of the buffers: producers append, consumers poll. *)
Inductive poll :=
| DoAddResult (result : string)
| DoAddReceive (receive : string)
| DoGetUnreadResults
| DoGetUnprocessedReceives.

(** The state of such a client: the buffers and the session, and what the
    two kinds of poll have returned so far, batch after batch. *)
Record polled := mkPolled {
  p_buffers  : buffers;
  p_session  : t;
  p_net      : Net;
  p_results  : list string;
  p_receives : list string
}.

Definition pollStep (env : Oracle) (st : option polled) (c : poll)
    : option polled :=
  match st with
  | None => None
  | Some st =>
      match c with
      | DoAddResult r =>
          Some (mkPolled (AddResult r (p_buffers st)) (p_session st) (p_net st)
                         (p_results st) (p_receives st))
      | DoAddReceive r =>
          let '(b, s, n) :=
            AddReceive env r (p_buffers st) (p_session st) (p_net st) in
          Some (mkPolled b s n (p_results st) (p_receives st))
      | DoGetUnreadResults =>
          match GetUnreadResults (p_buffers st) with
          | None => None
          | Some (batch, b) =>
              Some (mkPolled b (p_session st) (p_net st)
                             (p_results st ++ batch) (p_receives st))
          end
      | DoGetUnprocessedReceives =>
          match GetUnprocessedReceives (p_buffers st) with
          | None => None
          | Some (batch, b) =>
              Some (mkPolled b (p_session st) (p_net st)
                             (p_results st) (p_receives st ++ batch))
          end
      end
  end.

Definition pollRun (env : Oracle) (s : t) (n : Net) (calls : list poll)
    : option polled :=
  foldl (pollStep env) (Some (mkPolled newBuffers s n [] [])) calls.

(** The results and the receives a call sequence appends, in order. *)
Definition addedResults (calls : list poll) : list string :=
  omap (λ c, match c with DoAddResult r => Some r | _ => None end) calls.

Definition addedReceives (calls : list poll) : list string :=
  omap (λ c, match c with DoAddReceive r => Some r | _ => None end) calls.

End Session.

(** ** Session manager (ServiceManager) *)

Module Manager.

Record t := mk {
  servers       : gmap string Service.McpService;
  world         : Service.World;      (* usedPorts, nextPort and the processes *)
  proxySessions : gmap string (option Session.t);   (* [None]: a nil *Session *)
  cfg           : Config
}.

Definition set_proxySessions (v : gmap string (option Session.t)) (m : t) : t :=
  mk (servers m) (world m) v (cfg m).

Definition five_minutes : Z := 5 * 60 * 1000000000.

Definition NewServiceManager (cfg : Config) : t :=
  let cfg :=
    if decide (SessionGCInterval cfg = 0)
    then mkConfig (ConfigDirPath cfg) (McpServiceRetryCount cfg) five_minutes
                  (ProxySessionTimeout cfg) (COMMAND_SUPERGATEWA cfg)
    else cfg in
  {| servers := ∅;
     world := Service.mkWorld PortManager.init 0 ∅ [];
     proxySessions := ∅;
     cfg := cfg |}.

(** A session leaving the map: its id, its state when it left ([None]
    for a nil entry) and the SSE responses closed on the way. *)
Record removal := mkRemoval {
  rm_id      : string;
  rm_session : option Session.t;
  rm_closed  : list string
}.

(** A call either returns or dereferences a nil pointer. *)
Inductive go (A : Type) :=
| Ret (a : A)
| NilDeref.
Arguments Ret {A} a.
Arguments NilDeref {A}.

Definition GetProxySession (id : string) (m : t) : option Session.t * bool :=
  match proxySessions m !! id with
  | None => (None, false)
  | Some session => (session, true)
  end.

Definition CloseProxySession (id : string) (m : t) : go (t * list removal) :=
  match proxySessions m !! id with
  | None => Ret (m, [])
  | Some None => NilDeref
  | Some (Some session) =>
      let '(session, conns) := Session.Close session in
      Ret (set_proxySessions (delete id (proxySessions m)) m,
           [mkRemoval id (Some session) conns])
  end.

(** The func literal that one tick of [loopGC] runs, while it ranges
    over the map.  A removal locks [proxySessionsMutex] and defers the
    unlock, so the mutex stays locked until the func literal returns:
    [gc_locked] tells whether an earlier visit of this tick locked it. *)
Record gc := mkGc {
  gc_manager : t;
  gc_removed : list removal;
  gc_locked  : bool
}.

(** How a tick ends: the func literal returns (and the deferred unlocks
    run), or its goroutine stays for ever in [proxySessionsMutex.Lock()],
    on the mutex it locked itself at an earlier removal.  [pending] is
    the entry it was about to delete. *)
Inductive tick :=
| Returned (m : t) (out : list removal)
| Blocked (m : t) (out : list removal) (pending : removal).

Definition tick_manager (r : tick) : t :=
  match r with Returned m _ | Blocked m _ _ => m end.

Definition tick_removed (r : tick) : list removal :=
  match r with Returned _ out | Blocked _ out _ => out end.

(** The body of [for id, session := range m.proxySessions] in [loopGC].
    [session.Close()] comes before [Lock()], and acts on the session
    through its pointer: a session at which the tick blocks is closed
    and still in the map. *)
Definition gcVisit (now : Z) (st : gc) (kv : string * option Session.t)
    : gc + tick :=
  let m := gc_manager st in
  match kv.2 with
  | None =>
      if gc_locked st
      then inr (Blocked m (gc_removed st) (mkRemoval kv.1 None []))
      else inl (mkGc (set_proxySessions (delete kv.1 (proxySessions m)) m)
                     (gc_removed st ++ [mkRemoval kv.1 None []]) true)
  | Some session =>
      if decide (time_Sub now (Session.LastReceiveTime session)
                 > ProxySessionTimeout (cfg m))
      then let '(session, conns) := Session.Close session in
           if gc_locked st
           then inr (Blocked
                       (set_proxySessions
                          (<[kv.1 := Some session]> (proxySessions m)) m)
                       (gc_removed st)
                       (mkRemoval kv.1 (Some session) conns))
           else inl (mkGc (set_proxySessions (delete kv.1 (proxySessions m)) m)
                          (gc_removed st
                             ++ [mkRemoval kv.1 (Some session) conns])
                          true)
      else inl st
  end.

(** The range loop over the entries [l], in the order it visits them. *)
Fixpoint gcRange (now : Z) (l : list (string * option Session.t)) (st : gc)
    : tick :=
  match l with
  | [] => Returned (gc_manager st) (gc_removed st)
  | kv :: l =>
      match gcVisit now st kv with
      | inl st => gcRange now l st
      | inr blocked => blocked
      end
  end.

(** What a visit of [kv] removes, or sets out to remove, if anything:
    a nil entry, or a session idle for longer than [timeout], the latter
    once [Session.Close] has run on it. *)
Definition gcRemoval (now timeout : Z) (kv : string * option Session.t)
    : option removal :=
  match kv.2 with
  | None => Some (mkRemoval kv.1 None [])
  | Some session =>
      if decide (time_Sub now (Session.LastReceiveTime session) > timeout)
      then Some (mkRemoval kv.1 (Some (Session.Close session).1)
                           (Session.Close session).2)
      else None
  end.

(** The map while the tick is blocked before deleting [r]: a session
    that went through [Session.Close] is still there, closed. *)
Definition stuckAt (r : removal) (ps : gmap string (option Session.t))
    : gmap string (option Session.t) :=
  match rm_session r with
  | Some session => <[rm_id r := Some session]> ps
  | None => ps
  end.

(** An entry that is due at time [now]: the GC removes it, as [r], when
    it reaches it with the mutex free. *)
Definition due (now : Z) (m : t) (id : string) (r : removal) : Prop :=
  ∃ v, proxySessions m !! id = Some v
       ∧ gcRemoval now (ProxySessionTimeout (cfg m)) (id, v) = Some r.

(** One tick of [loopGC], at time [now], the mutex being free when it
    starts.  The order in which [range] visits a map is not specified;
    [gcRange] takes any. *)
Definition gcTick (now : Z) (m : t) : tick :=
  gcRange now (map_to_list (proxySessions m)) (mkGc m [] false).

Definition closeVisit (acc : t * list removal)
    (kv : string * option Session.t) : t * list removal :=
  let '(m, out) := acc in
  match kv.2 with
  | None =>
      (set_proxySessions (delete kv.1 (proxySessions m)) m,
       out ++ [mkRemoval kv.1 None []])
  | Some session =>
      let '(session, conns) := Session.Close session in
      (set_proxySessions (delete kv.1 (proxySessions m)) m,
       out ++ [mkRemoval kv.1 (Some session) conns])
  end.

(** What [closeVisit] removes when it visits [kv]. *)
Definition closeRemoval (kv : string * option Session.t) : removal :=
  match kv.2 with
  | None => mkRemoval kv.1 None []
  | Some session =>
      mkRemoval kv.1 (Some (Session.Close session).1) (Session.Close session).2
  end.

Definition stopVisit (m : t) (kv : string * Service.McpService) : t :=
  let '(_, w) := Service.Stop kv.2 (world m) in
  mk (delete kv.1 (servers m)) w (proxySessions m) (cfg m).

Definition Close (m : t) : t * list removal :=
  let '(m, out) := foldl closeVisit (m, []) (map_to_list (proxySessions m)) in
  (foldl stopVisit m (map_to_list (servers m)), out).

Definition set_servers (v : gmap string Service.McpService)
    (w : Service.World) (m : t) : t :=
  mk v w (proxySessions m) (cfg m).

(** [for server, instance := range m.servers { config[server] =
    instance.Config }], the loop of [ListServerConfig] and [saveConfig]. *)
Definition serverConfigs (m : t) : gmap string MCPServerConfig :=
  foldl (λ config kv, <[kv.1 := Service.Config_ kv.2]> config) ∅
        (map_to_list (servers m)).

Definition ListServerConfig (m : t) : gmap string MCPServerConfig :=
  serverConfigs m.

(** [saveConfig]: the map that is marshalled and written to the MCP
    configuration file. *)
Definition saveConfig (m : t) : gmap string MCPServerConfig :=
  serverConfigs m.

(** [GetMcpServices]: the registry copied entry by entry. *)
Definition GetMcpServices (m : t) : gmap string Service.McpService :=
  foldl (λ exportServices kv, <[kv.1 := kv.2]> exportServices) ∅
        (map_to_list (servers m)).

Inductive error :=
| ErrNoService (name : string)             (* the service does not exist *)
| ErrStart (e : Service.start_error).

Definition getMcpService (name : string) (m : t)
    : error + Service.McpService :=
  match servers m !! name with
  | Some instance => inr instance
  | None => inl (ErrNoService name)
  end.

Definition GetMcpService (name : string) (m : t)
    : error + Service.McpService :=
  getMcpService name m.

(** [StopServer]: the instance is stopped through its pointer, so the
    registry sees it stopped. *)
Definition StopServer (name : string) (m : t) : t :=
  match getMcpService name m with
  | inl _ => m
  | inr mcp =>
      let '(mcp, w) := Service.Stop mcp (world m) in
      set_servers (<[name := mcp]> (servers m)) w m
  end.

(** [DeployServer].  The last component is what [saveConfig] wrote, if
    it was called.  [NewMcpService] is given the manager's [cfg]. *)
Definition DeployServer (os : Service.OS) (name : string)
    (mcpCfg : MCPServerConfig) (m : t)
    : option error * t * option (gmap string MCPServerConfig) :=
  match servers m !! name with
  | Some mcpService =>
      let mcpService := Service.setConfig mcpCfg mcpService in
      let '(mcpService, w) := Service.Restart os mcpService (world m) in
      (None, set_servers (<[name := mcpService]> (servers m)) w m, None)
  | None =>
      let instance := Service.NewMcpService name mcpCfg (cfg m) in
      match Service.Start os instance (world m) with
      | (Some err, _, w) => (Some (ErrStart err), set_servers (servers m) w m, None)
      | (None, instance, w) =>
          let m := set_servers (<[name := instance]> (servers m)) w m in
          (None, m, Some (saveConfig m))
      end
  end.

Definition DeleteServer (name : string) (m : t)
    : option error * t * option (gmap string MCPServerConfig) :=
  match servers m !! name with
  | Some mcpService =>
      let '(_, w) := Service.Stop mcpService (world m) in
      let m := set_servers (delete name (servers m)) w m in
      (None, m, Some (saveConfig m))
  | None => (Some (ErrNoService name), m, None)
  end.

(** Modelled from the spec: the constant [Running] is declared outside
    the sources; it is the status of a running backend. *)
Definition Running : string := "running".

(** The retry loop of [CreateProxySession] for one backend: up to three
    looks at its status, a [time.Sleep(retryDelay)] after each of the
    first two that finds it not running.  [sleep] is what happens to the
    backend during one such delay.  The result is the backend as the loop
    leaves it, the session, and the subscription made, if any. *)
Fixpoint subscribeRetry (sleep : Service.McpService → Service.McpService)
    (retries : nat) (server : string) (instance : Service.McpService)
    (session : Session.t)
    : Service.McpService * Session.t * option (string * string) :=
  if decide (Service.GetStatus instance = Running)
  then (instance,
        Session.SubscribeSSE server (Service.GetSSEUrl instance) session,
        Some (server, Service.GetSSEUrl instance))
  else match retries with
       | O => (instance, session, None)
       | S retries' =>
           subscribeRetry sleep retries' server (sleep instance) session
       end.

(** The body of [for server, instance := range m.servers]. *)
Definition subscribeVisit (sleep : Service.McpService → Service.McpService)
    (acc : gmap string Service.McpService * Session.t * list (string * string))
    (kv : string * Service.McpService)
    : gmap string Service.McpService * Session.t * list (string * string) :=
  let '(servers, session, subs) := acc in
  let '(instance, session, sub) := subscribeRetry sleep 2 kv.1 kv.2 session in
  (<[kv.1 := instance]> servers, session,
   subs ++ match sub with Some p => [p] | None => [] end).

(** The subscription the retry loop makes for a backend, if any; it
    does not depend on the session. *)
Definition subscriptionOf (sleep : Service.McpService → Service.McpService)
    (kv : string * Service.McpService) : option (string * string) :=
  (subscribeRetry sleep 2 kv.1 kv.2 (Session.NewSession "" 0)).2.

(** [CreateProxySession].  [id] is the fresh UUID and [now] the time
    [NewSession] reads; the last component lists the readers started, each
    with the URL it subscribes to. *)
Definition CreateProxySession
    (sleep : Service.McpService → Service.McpService) (id : string) (now : Z)
    (m : t) : Session.t * t * list (string * string) :=
  let session := Session.NewSession id now in
  let '(servers, session, subs) :=
    foldl (subscribeVisit sleep) (servers m, session, [])
          (map_to_list (servers m)) in
  (session,
   mk servers (world m) (<[Session.Id session := Some session]> (proxySessions m))
      (cfg m),
   subs).

End Manager.

(** ** HTTP front-end: the [/message] handler (router/message.go) *)

Module Router.

Record request := mkReq {
  sessionId : string;             (* the query parameter, [""] when absent *)
  body      : option string       (* [None]: io.ReadAll fails *)
}.

Inductive response :=
| BadRequest (msg : string)
| NotFound (msg : string)
| ReadError
| ReturnNil
| NilSession.                     (* session.Id read through a nil pointer *)

(** The message history of a session without its time stamps. *)
Definition history (s : Session.t) : list (string * string * string) :=
  (λ m, (Session.msg_McpName m, Session.msg_Content m, Session.msg_Type m))
    <$> Session.messages s.

(** The body of [for name, instance := range mcpServices]. *)
Definition forwardTo (env : Oracle) (body : string) (acc : Session.t * Net)
    (kv : string * Service.McpService) : Session.t * Net :=
  let '(s, n) := Session.AddMessage env kv.1 body "send" acc.1 acc.2 in
  let '(_, n) := Service.SendMessage env body kv.2 n in
  (s, n).

Definition handleGlobalMessage (env : Oracle) (req : request) (m : Manager.t)
    (n : Net) : response * Manager.t * Net :=
  if decide (sessionId req = "") then (BadRequest "missing sessionId", m, n)
  else match Manager.GetProxySession (sessionId req) m with
  | (_, false) => (NotFound "session not found", m, n)
  | (session, true) =>
      match body req with
      | None => (ReadError, m, n)
      | Some body =>
          match session with
          | None => (NilSession, m, n)
          | Some session =>
              let '(session, n) :=
                foldl (forwardTo env body) (session, n)
                      (map_to_list (Manager.servers m)) in
              (ReturnNil,
               Manager.set_proxySessions
                 (<[sessionId req := Some session]> (Manager.proxySessions m)) m,
               n)
          end
      end
  end.

Definition DefaultWorkspace : string := "default".

Inductive deploy_error :=
| ErrNeedUrlOrCommand          (* the configuration has neither *)
| ErrUrlAndCommand             (* the configuration has both *)
| ErrManager (e : Manager.error).

(** [ServerManager.DeployServer] (mcp_manager.go): the configuration is
    checked, its workspace defaulted, and the session manager called. *)
Definition DeployServer (os : Service.OS) (name : string)
    (config : MCPServerConfig) (m : Manager.t)
    : option deploy_error * Manager.t * option (gmap string MCPServerConfig) :=
  if decide (Command config = "" ∧ URL config = "")
  then (Some ErrNeedUrlOrCommand, m, None)
  else if decide (Command config ≠ "" ∧ URL config ≠ "")
  then (Some ErrUrlAndCommand, m, None)
  else
    let config :=
      if decide (Workspace config = "")
      then mkServerConfig (Command config) (Args config) (Env config)
                          (URL config) DefaultWorkspace
      else config in
    let '(err, m, saved) := Manager.DeployServer os name config m in
    (ErrManager <$> err, m, saved).

End Router.

(** ** Concrete inputs for the examples *)

Module Ex.

Definition q (s : string) : string := dquote +:+ s +:+ dquote.

(** The text after the first occurrence of [key] in [s]. *)
Fixpoint after (key s : string) : option string :=
  if String.prefix key s
  then Some (String.substring (String.length key)
                              (String.length s - String.length key) s)
  else match s with
       | EmptyString => None
       | String _ s' => after key s'
       end.

Definition digit (c : ascii) : option Z :=
  let n := Z.of_nat (nat_of_ascii c) in
  if decide (48 ≤ n ≤ 57) then Some (n - 48) else None.

Fixpoint digits (s : string) (acc : option Z) : option Z :=
  match s with
  | EmptyString => acc
  | String c s' =>
      match digit c with
      | Some d => digits s' (Some (10 * default 0 acc + d))
      | None => acc
      end
  end.

Fixpoint upto_quote (s : string) : string :=
  match s with
  | EmptyString => EmptyString
  | String c s' =>
      if decide (c = ascii_of_nat 34) then EmptyString
      else String c (upto_quote s')
  end.

Definition int_field (key data : string) : option Z :=
  s ← after (q key +:+ ":") data; digits s None.

Definition string_field (key data : string) : option string :=
  upto_quote <$> after (q key +:+ ":" +:+ dquote) data.

(** The one tool object of the examples, [{"name":"t"}]. *)
Definition tool_t_raw : string := "{" +:+ q "name" +:+ ":" +:+ q "t" +:+ "}".

Definition print_tool (t : McpTool) : string :=
  "{" +:+ q "name" +:+ ":" +:+ q (tool_Name t) +:+ ","
      +:+ q "realName" +:+ ":" +:+ q (tool_RealName t) +:+ "}".

Definition print_leaf (v : any) : string :=
  match v with
  | ANil => "null"
  | ABool true => "true"
  | ABool false => "false"
  | ANum raw => raw
  | AStr s => q s
  | AArr _ => "[]"
  | AObj _ => "{}"
  end.

Definition print_params (v : any) : string :=
  match v with
  | AObj m =>
      "{" +:+ Join ((λ kv : string * any, q kv.1 +:+ ":" +:+ print_leaf kv.2)
                      <$> map_to_list m) ","
          +:+ "}"
  | _ => print_leaf v
  end.

Definition print_request (r : McpRequest) : string :=
  "{" +:+ q "jsonrpc" +:+ ":" +:+ q (req_Jsonrpc r)
      +:+ match req_Id r with
          | Some id => "," +:+ q "id" +:+ ":" +:+ fmt_d id
          | None => ""
          end
      +:+ "," +:+ q "method" +:+ ":" +:+ q (req_Method r)
      +:+ "," +:+ q "params" +:+ ":" +:+ print_params (req_Params r) +:+ "}".

Definition print_result (r : McpResult) : string :=
  "{" +:+ q "jsonrpc" +:+ ":" +:+ q (res_Jsonrpc r) +:+ ","
      +:+ q "id" +:+ ":" +:+ fmt_d (res_Id r) +:+ ","
      +:+ q "result" +:+ ":{" +:+ q "tools" +:+ ":["
      +:+ Join (print_tool <$> res_tools r) "," +:+ "]}}".

(** The client requests of the examples, with their decoded form. *)
Definition tools_list : McpRequest := mkRequest "2.0" (Some 7) "tools/list" ANil.

Definition params_x_t : gmap string any :=
  <["name" := AStr "x_t"]> (<["arguments" := AObj ∅]> ∅).

Definition call_x_t : McpRequest :=
  mkRequest "2.0" (Some 9) "tools/call" (AObj params_x_t).

Definition call_no_name : McpRequest :=
  mkRequest "2.0" (Some 9) "tools/call" (AObj (<["arguments" := AObj ∅]> ∅)).

Definition call_underscore_foo : McpRequest :=
  mkRequest "2.0" (Some 9) "tools/call"
            (AObj (<["name" := AStr "_foo"]> (<["arguments" := AObj ∅]> ∅))).

Definition requests : list McpRequest :=
  [tools_list; call_x_t; call_no_name; call_underscore_foo].

(** A JSON collaborator for the examples.  It decodes the requests
    above from their printed form and reads the compact backend payloads
    used below by searching for their (unique) keys. *)
Definition json : Json :=
  {| Unmarshal_request := λ content,
       List.find (λ r, bool_decide (print_request r = content)) requests;
     request_ToJson := print_request;
     gjson_id := int_field "id";
     gjson_result_tools := λ data,
       match after (q "tools" +:+ ":[" +:+ tool_t_raw +:+ "]") data with
       | Some _ => [tool_t_raw]
       | None => []
       end;
     Unmarshal_tool := λ raw,
       if decide (raw = tool_t_raw) then Some (mkTool "t" "" "" "") else None;
     gjson_serverInfo_name := λ data,
       upto_quote <$> after (q "serverInfo" +:+ ":{" +:+ q "name" +:+ ":" +:+ dquote) data;
     gjson_jsonrpc := λ data, default "" (string_field "jsonrpc" data);
     result_ToJson := print_result |}.

(** A backend's reply to tools/list under the gateway id [g]. *)
Definition tools_reply (g : Z) : string :=
  "{" +:+ q "jsonrpc" +:+ ":" +:+ q "2.0" +:+ "," +:+ q "id" +:+ ":" +:+ fmt_d g
      +:+ "," +:+ q "result" +:+ ":{" +:+ q "tools" +:+ ":[" +:+ tool_t_raw
      +:+ "]}}".

(** A plain reply under the gateway id [g]. *)
Definition plain_reply (g : Z) : string :=
  "{" +:+ q "jsonrpc" +:+ ":" +:+ q "2.0" +:+ "," +:+ q "id" +:+ ":" +:+ fmt_d g
      +:+ "," +:+ q "result" +:+ ":{}}".

(** An initialize reply naming the backend. *)
Definition serverInfo_reply (g : Z) : string :=
  "{" +:+ q "jsonrpc" +:+ ":" +:+ q "2.0" +:+ "," +:+ q "id" +:+ ":" +:+ fmt_d g
      +:+ "," +:+ q "result" +:+ ":{" +:+ q "serverInfo" +:+ ":{" +:+ q "name"
      +:+ ":" +:+ q "backend-x" +:+ "}}}".

(** A clock that advances 1.5 ms between readings, and one that
    advances 0.4 ms; every POST is answered 200. *)
Definition t0 : Z := 1700000000000000000.
Definition slow_clock : Oracle :=
  {| Now := λ n, t0 + 1500000 * Z.of_nat n; Post := λ _ _ _, Some 200 |}.
Definition fast_clock : Oracle :=
  {| Now := λ n, t0 + 400000 * Z.of_nat n; Post := λ _ _ _, Some 200 |}.

Definition net0 : Net := mkNet 0 [].

(** A session subscribed to the backends [x] and [y], both of which have
    announced their endpoint. *)
Definition session_xy : Session.t :=
  Session.set_sseCount 2
    (Session.set_mcpMessageUrl
       (<["x" := "http://localhost:10000/message"]>
          (<["y" := "http://localhost:10001/message"]> ∅))
       (Session.NewSession "s1" t0)).

Definition no_sleep (s : Session.t) : Session.t := s.

(** A process-backed backend, a remote one, and a benign OS. *)
Definition cfg : Config := mkConfig "/etc/gw" 3 0 100000000 "supergateway".

Definition os : Service.OS :=
  {| Service.CreateLogFile := λ dir name, Some (dir +:+ "/" +:+ name);
     Service.cmdStart := λ _ _, Some 4242%nat;
     Service.Environ := [] |}.

Definition world0 : Service.World := Service.mkWorld PortManager.init 0 ∅ [].

Definition echo_config : MCPServerConfig := mkServerConfig "echo" ["ok"] ∅ "" "default".
Definition remote_config : MCPServerConfig := mkServerConfig "" [] ∅ "http://remote:8080" "default".

Definition backend_a : Service.McpService := Service.NewMcpService "a" echo_config cfg.
Definition backend_r : Service.McpService := Service.NewMcpService "r" remote_config cfg.

(** A manager holding one session, fresh from [NewSession] but for one
    open SSE response. *)
Definition session_live : Session.t :=
  Session.set_sseCount 1
    (Session.set_sseConns (<["x" := "http://localhost:10000/sse"]> ∅)
       (Session.NewSession "s1" t0)).

Definition manager1 : Manager.t :=
  Manager.set_proxySessions (<["s1" := Some session_live]> ∅)
    (Manager.NewServiceManager cfg).

(** A manager holding three sessions: [s1] and [s2], last heard of at
    [t0], and [s3], heard of 150 ms later. *)
Definition manager3 : Manager.t :=
  Manager.set_proxySessions
    (<["s1" := Some session_live]>
       (<["s2" := Some (Session.NewSession "s2" t0)]>
          (<["s3" := Some (Session.NewSession "s3" (t0 + 150000000))]> ∅)))
    (Manager.NewServiceManager cfg).

(** The backends [x] and [y], started one after the other, and a
    manager that holds them together with the session [session_xy]. *)
Definition started_x :=
  Service.Start os (Service.NewMcpService "x" echo_config cfg) world0.
Definition started_y :=
  Service.Start os (Service.NewMcpService "y" echo_config cfg) started_x.2.

Definition manager_xy : Manager.t :=
  {| Manager.servers := <["x" := started_x.1.2]> (<["y" := started_y.1.2]> ∅);
     Manager.world := started_y.2;
     Manager.proxySessions := <["s1" := Some session_xy]> ∅;
     Manager.cfg := cfg |}.

(** [backend_a] once started, and the world it then runs in. *)
Definition a_running : Service.McpService :=
  (Service.Start os backend_a world0).1.2.
Definition a_world : Service.World := (Service.Start os backend_a world0).2.

(** An operating system on which no log file can be created. *)
Definition os_nolog : Service.OS :=
  {| Service.CreateLogFile := λ _ _, None;
     Service.cmdStart := λ _ _, Some 4242%nat;
     Service.Environ := [] |}.

(** Backends that answer every POST with 202 Accepted. *)
Definition accepting : Oracle :=
  {| Now := Now slow_clock; Post := λ _ _ _, Some 202 |}.

(** The plain replies of the backends [x] and [y] to a broadcast sent
    when the clock had not been read, each with its gateway id. *)
Definition replies_xy : list (Z * (string * string)) :=
  [(1700000000000, ("x", plain_reply 1700000000000));
   (1700000000003, ("y", plain_reply 1700000000003))].

(** The session [session_xy] while one of its two readers is still to be
    counted, and the sleep during which it is. *)
Definition session_waiting : Session.t := Session.set_sseCount 1 session_xy.
Definition wake (s : Session.t) : Session.t := Session.set_sseCount 2 s.

End Ex.

(** * Properties *)

(** ** Machine integers *)

Lemma wrap64_id z : int_min ≤ z ≤ int_max → wrap64 z = z.
Proof.
  unfold wrap64, int_min, int_max. intros Hz.
  rewrite Z.mod_small; lia.
Qed.

Lemma wrap32_id z : - 2 ^ 31 ≤ z < 2 ^ 31 → wrap32 z = z.
Proof.
  unfold wrap32. intros Hz.
  rewrite Z.mod_small; lia.
Qed.

(** ** Port allocator *)

Section PortManagerFacts.
Import PortManager.

Lemma run_snoc calls c : run (calls ++ [c]) = step (run calls) c.
Proof. unfold run. by rewrite foldl_app. Qed.

Lemma allocs_app l1 l2 : allocs (l1 ++ l2) = allocs l1 + allocs l2.
Proof. unfold allocs. rewrite List.filter_app, length_app. lia. Qed.

Lemma allocs_nonneg l : 0 ≤ allocs l.
Proof. unfold allocs. lia. Qed.

Lemma skipUsed_stop fuel u p :
  default false (u !! p) = false → skipUsed fuel u p = p.
Proof. intros Hp. destruct fuel as [|fuel]; simpl; [done | by rewrite Hp]. Qed.

Lemma used_insert m p q :
  default false (<[p := true]> (usedPorts m) !! q)
  = if decide (q = p) then true else used m q.
Proof.
  unfold used. case_decide as Hq.
  - subst q. by rewrite lookup_insert_eq.
  - by rewrite lookup_insert_ne.
Qed.

Lemma used_delete m p q :
  used (ReleasePort p m) q = if decide (q = p) then false else used m q.
Proof.
  unfold used, ReleasePort; simpl. case_decide as Hq.
  - subst q. by rewrite lookup_delete_eq.
  - by rewrite lookup_delete_ne.
Qed.

Lemma run_inv_free calls st :
  run_inv calls st → used (mgr st) (nextPort (mgr st)) = false.
Proof.
  intros Hinv. destruct (used (mgr st) (nextPort (mgr st))) eqn:E; [|done].
  apply (inv_used _ _ Hinv), (inv_below _ _ Hinv) in E. lia.
Qed.

Lemma run_invariant calls :
  10000 + allocs calls ≤ int_max → run_inv calls (run calls).
Proof.
  induction calls as [|c calls IH] using rev_ind; intros Hb.
  - split; simpl; try done.
    + intros p Hp. by apply elem_of_nil in Hp.
    + intros p. unfold used; simpl. rewrite lookup_empty; simpl.
      split; [done | intros Hp; by apply elem_of_nil in Hp].
    + constructor.
    + intros p Hp. by apply elem_of_nil in Hp.
  - rewrite allocs_app in Hb. rewrite run_snoc.
    pose proof (allocs_nonneg calls) as Hnn.
    destruct c as [|q].
    + assert (Hb' : 10000 + allocs calls ≤ int_max)
        by (unfold allocs in *; simpl in *; lia).
      specialize (IH Hb'). pose proof (run_inv_free _ _ IH) as Hfree.
      destruct IH as [Hc Hbel Hu Hnd Hret].
      unfold step, GetNextAvailablePort.
      rewrite (skipUsed_stop _ _ _ Hfree).
      assert (Hw : wrap64 (nextPort (mgr (run calls)) + 1)
                   = nextPort (mgr (run calls)) + 1).
      { apply wrap64_id. unfold allocs, int_min, int_max in *; simpl in *. lia. }
      split; simpl.
      * rewrite Hw, Hc, allocs_app. unfold allocs; simpl. lia.
      * intros p Hp. rewrite Hw. apply elem_of_cons in Hp as [->|Hp].
        -- unfold allocs in *; simpl in *; lia.
        -- apply Hbel in Hp. lia.
      * intros p. unfold used at 1; simpl. rewrite used_insert.
        rewrite elem_of_cons, <- Hu. case_decide; intuition congruence.
      * constructor; [|done]. intros Hin. apply Hbel in Hin. lia.
      * intros p Hp. apply elem_of_cons in Hp as [->|Hp]; [|by apply Hret].
        rewrite Hc. lia.
    + assert (Hb' : 10000 + allocs calls ≤ int_max)
        by (unfold allocs in *; simpl in *; lia).
      specialize (IH Hb'). destruct IH as [Hc Hbel Hu Hnd Hret].
      split; simpl.
      * rewrite Hc, allocs_app. unfold allocs; simpl. lia.
      * intros p Hp. apply list_elem_of_filter in Hp as [_ Hp]. by apply Hbel.
      * intros p. rewrite used_delete, list_elem_of_filter, <- Hu.
        case_decide; intuition congruence.
      * by apply NoDup_filter.
      * done.
Qed.

(** The scan needs no more increments than there are used ports at or
    above the cursor: it stops at the least free port. *)
Lemma skipUsed_least fuel (u : gmap Z bool) (p : Z) :
  (size (filter (λ kv : Z * bool, (p ≤ kv.1)%Z) u) ≤ fuel)%nat →
  int_min ≤ p → p + Z.of_nat fuel ≤ int_max →
  let r := skipUsed fuel u p in
  default false (u !! r) = false ∧ p ≤ r
  ∧ ∀ q, p ≤ q < r → default false (u !! q) = true.
Proof.
  revert p. induction fuel as [|fuel IH]; intros p Hsz Hlo Hhi; simpl.
  - assert (Hnone : u !! p = None).
    { destruct (u !! p) as [v|] eqn:E; [|done].
      assert (Hin : filter (λ kv : Z * bool, (p ≤ kv.1)%Z) u !! p = Some v)
        by (apply map_lookup_filter_Some; simpl; split; [done | lia]).
      assert (Hz : size (filter (λ kv : Z * bool, (p ≤ kv.1)%Z) u) = 0%nat) by lia.
      apply map_size_empty_iff in Hz. rewrite Hz, lookup_empty in Hin. done. }
    rewrite Hnone; simpl. split; [done|]. split; [lia|]. intros q Hq; lia.
  - destruct (default false (u !! p)) eqn:E.
    + assert (Hw : wrap64 (p + 1) = p + 1).
      { apply wrap64_id. unfold int_min, int_max in *. lia. }
      rewrite Hw.
      assert (Hp : ∃ v, u !! p = Some v).
      { destruct (u !! p) as [v|]; [by exists v | done]. }
      destruct Hp as [v Hv].
      assert (Hlt : (size (filter (λ kv : Z * bool, (p + 1 ≤ kv.1)%Z) u)
                     < size (filter (λ kv : Z * bool, (p ≤ kv.1)%Z) u))%nat).
      { apply map_subset_size. split.
        - apply map_subseteq_spec. intros i x Hi.
          apply map_lookup_filter_Some in Hi as [Hi Hle]; simpl in Hle.
          apply map_lookup_filter_Some; simpl. split; [done | lia].
        - intros Hsub.
          assert (Hin : filter (λ kv : Z * bool, (p ≤ kv.1)%Z) u !! p = Some v)
            by (apply map_lookup_filter_Some; simpl; split; [done | lia]).
          eapply (proj1 (map_subseteq_spec _ _) Hsub) in Hin.
          apply map_lookup_filter_Some in Hin as [_ Hle]; simpl in Hle. lia. }
      destruct (IH (p + 1)) as (Hfree & Hle & Hused); [lia | lia | lia |].
      split; [done|]. split; [lia|].
      intros q Hq. destruct (decide (q = p)) as [->|Hne]; [done|].
      apply Hused. lia.
    + split; [done|]. split; [lia|]. intros q Hq; lia.
Qed.

Lemma size_filter_le (u : gmap Z bool) (p : Z) :
  (size (filter (λ kv : Z * bool, (p ≤ kv.1)%Z) u) ≤ size u)%nat.
Proof. apply map_subseteq_size, map_filter_subseteq. Qed.

(** [GetNextAvailablePort] on any allocator state whose scan cannot
    overflow: the port returned is the least free port from the cursor
    on. *)
Lemma GetNextAvailablePort_least m :
  int_min ≤ nextPort m →
  nextPort m + Z.of_nat (size (usedPorts m)) ≤ int_max →
  let p := (GetNextAvailablePort m).1 in
  nextPort m ≤ p ∧ used m p = false
  ∧ ∀ q, nextPort m ≤ q < p → used m q = true.
Proof.
  intros Hlo Hhi. unfold GetNextAvailablePort, used; simpl.
  destruct (skipUsed_least (size (usedPorts m)) (usedPorts m) (nextPort m))
    as (Hfree & Hle & Hused); auto using size_filter_le.
Qed.

(** C9.  From the initial allocator (cursor 10000, nothing used) and for
    every sequence of GetNextAvailablePort / ReleasePort calls that stays
    inside the range of a Go int: the cursor is never a used port; the
    ports held are exactly the used ones, they are pairwise distinct and
    every port ever returned is at least 10000; each allocation returns
    the least free port from the cursor on, marks it used and moves the
    cursor past it; each release removes its port and leaves the cursor
    where it is. *)
Theorem port_allocator_contract (calls : list call) :
  10000 + allocs calls ≤ int_max →
  let st := run calls in
  used (mgr st) (nextPort (mgr st)) = false
  ∧ (∀ p, p ∈ held st ↔ used (mgr st) p = true)
  ∧ NoDup (held st)
  ∧ (∀ p, p ∈ returned st → 10000 ≤ p)
  ∧ (∀ pre post, calls = pre ++ Alloc :: post →
       let m := mgr (run pre) in
       let p := (GetNextAvailablePort m).1 in
       let m' := (GetNextAvailablePort m).2 in
       mgr (run (pre ++ [Alloc])) = m'
       ∧ nextPort m ≤ p ∧ used m p = false
       ∧ (∀ q, nextPort m ≤ q < p → used m q = true)
       ∧ (∀ q, used m' q = if decide (q = p) then true else used m q)
       ∧ p < nextPort m')
  ∧ (∀ pre q post, calls = pre ++ Release q :: post →
       let m := mgr (run pre) in
       let m' := ReleasePort q m in
       mgr (run (pre ++ [Release q])) = m'
       ∧ (∀ r, used m' r = if decide (r = q) then false else used m r)
       ∧ nextPort m' = nextPort m).
Proof.
  intros Hb st. pose proof (run_invariant calls Hb) as Hinv.
  split; [by eapply run_inv_free|].
  split; [intros p; symmetry; apply (inv_used _ _ Hinv)|].
  split; [apply (inv_nodup _ _ Hinv)|].
  split; [apply (inv_ret _ _ Hinv)|].
  split.
  - intros pre post -> m p m'.
    rewrite !allocs_app in Hb.
    pose proof (allocs_nonneg post) as Hpost.
    assert (Ha : allocs (Alloc :: post) = 1 + allocs post).
    { unfold allocs; simpl. lia. }
    assert (Hpre : 10000 + allocs pre ≤ int_max) by lia.
    pose proof (run_invariant pre Hpre) as Hi.
    pose proof (run_inv_free _ _ Hi) as Hfree.
    assert (Hp : p = nextPort m).
    { subst p m. unfold GetNextAvailablePort; simpl.
      by apply skipUsed_stop. }
    assert (Hw : wrap64 (nextPort m + 1) = nextPort m + 1).
    { apply wrap64_id. subst m. rewrite (inv_cursor _ _ Hi).
      pose proof (allocs_nonneg pre). unfold int_min, int_max in *. lia. }
    split; [rewrite run_snoc; unfold step; subst m m';
            by destruct (GetNextAvailablePort (mgr (run pre)))|].
    split; [lia|]. split; [by rewrite Hp|]. split; [intros q Hq; lia|].
    assert (Hm' : m' = {| usedPorts := <[p := true]> (usedPorts m);
                          nextPort := wrap64 (p + 1) |}) by reflexivity.
    split.
    + intros q. rewrite Hm'. unfold used at 1; simpl. apply used_insert.
    + rewrite Hm'; simpl. rewrite Hp, Hw. lia.
  - intros pre q post -> m m'.
    split; [by rewrite run_snoc|].
    split; [intros r; apply used_delete | done].
Qed.

(** The contract at a run of four calls. *)
Lemma port_allocator_contract_witness :
  10000 + allocs [Alloc; Alloc; Release 10000; Alloc] ≤ int_max
  ∧ returned (run [Alloc; Alloc; Release 10000; Alloc]) = [10002; 10001; 10000]
  ∧ held (run [Alloc; Alloc; Release 10000; Alloc]) = [10002; 10001]
  ∧ NoDup (held (run [Alloc; Alloc; Release 10000; Alloc])).
Proof.
  split; [vm_compute; discriminate|].
  split; [reflexivity|]. split; [reflexivity|].
  apply (port_allocator_contract [Alloc; Alloc; Release 10000; Alloc]).
  vm_compute; discriminate.
Defined.

End PortManagerFacts.

(** ** Backend supervisor *)

Section ServiceFacts.
Import Service.

Lemma IsSSE_remote s :
  Command (Config_ s) = "" → URL (Config_ s) ≠ "" →
  IsSSE s = (true, set_Status "running" s).
Proof. intros Hc Hu. unfold IsSSE. by rewrite decide_True. Qed.

Lemma IsSSE_local s :
  ¬ (Command (Config_ s) = "" ∧ URL (Config_ s) ≠ "") → IsSSE s = (false, s).
Proof. intros H. unfold IsSSE. by rewrite decide_False. Qed.

Lemma used_released p m : PortManager.used (PortManager.ReleasePort p m) p = false.
Proof. rewrite used_delete. by rewrite decide_True. Qed.

(** [Stop] on a running, process-backed backend. *)
Lemma Stop_running s w cmd :
  ¬ (Command (Config_ s) = "" ∧ URL (Config_ s) ≠ "") →
  Status s = "running" → Cmd_ s = Some cmd →
  let '(s', w') := Stop s w in
  Status s' = "stopped" ∧ Port s' = 0 ∧ Cmd_ s' = None ∧ StopSignal s' = None
  ∧ RetryCount s' = RetryCount s ∧ Config_ s' = Config_ s ∧ cfg s' = cfg s
  ∧ (Port s ≠ 0 → PortManager.used (ports w') (Port s) = false)
  ∧ (∀ ch, StopSignal s = Some ch → ch ∈ closed w')
  ∧ Kill (cmd_pid cmd) ∈ trace w'.
Proof.
  intros Hl Hs Hc. unfold Stop. rewrite (IsSSE_local _ Hl).
  rewrite decide_False by (intros H; by apply H).
  rewrite Hc.
  destruct (StopSignal s) as [ch|] eqn:Hch,
           (LogFile s) as [f|] eqn:Hf; simpl; rewrite ?Hf; simpl;
    destruct (decide (Port s ≠ 0)) as [Hp|Hp]; simpl.
  all: repeat split; try done.
  all: try (intros _; apply used_released).
  all: try (intros ch' [= <-]; set_solver).
  all: try (unfold emit; simpl; set_solver).
  all: lia.
Qed.

Lemma Stop_not_running s w :
  ¬ (Command (Config_ s) = "" ∧ URL (Config_ s) ≠ "") →
  Status s ≠ "running" → Stop s w = (s, w).
Proof.
  intros Hl Hs. unfold Stop. rewrite (IsSSE_local _ Hl).
  by rewrite decide_True.
Qed.

(** C8 (amended).  On a URL-only backend [Stop] changes nothing but
    [Status], which the [IsSSE] query sets to "running"; and on every
    backend a second [Stop] changes nothing at all: neither the backend,
    nor the port manager, nor the effects performed. *)
Theorem Stop_remote_and_idempotent s w :
  (Command (Config_ s) = "" → URL (Config_ s) ≠ "" →
   Stop s w = (set_Status "running" s, w))
  ∧ Stop (Stop s w).1 (Stop s w).2 = Stop s w.
Proof.
  split.
  - intros Hc Hu. unfold Stop. by rewrite (IsSSE_remote _ Hc Hu).
  - destruct (decide (Command (Config_ s) = "" ∧ URL (Config_ s) ≠ ""))
      as [[Hc Hu]|Hl].
    + unfold Stop at 2 3 4. rewrite (IsSSE_remote _ Hc Hu); simpl.
      unfold Stop. by rewrite IsSSE_remote.
    + destruct (decide (Status s = "running")) as [Hs|Hs].
      * destruct (Cmd_ s) as [cmd|] eqn:Hcmd.
        -- pose proof (Stop_running s w cmd Hl Hs Hcmd) as H.
           destruct (Stop s w) as [s' w'] eqn:E; simpl.
           destruct H as (Hst & _ & _ & _ & _ & Hcfg & _).
           apply Stop_not_running.
           ++ by rewrite Hcfg.
           ++ by rewrite Hst.
        -- assert (E : Stop s w = (s, w)).
           { unfold Stop. rewrite (IsSSE_local _ Hl).
             rewrite decide_False by (intros H; by apply H).
             by rewrite Hcmd. }
           by rewrite !E.
      * rewrite !(Stop_not_running s w Hl Hs); simpl.
        by apply Stop_not_running.
Qed.

(** The amended C8 at a remote backend that is already "running". *)
Lemma Stop_remote_and_idempotent_witness :
  Command (Config_ (set_Status "running" Ex.backend_r)) = ""
  ∧ URL (Config_ (set_Status "running" Ex.backend_r)) ≠ ""
  ∧ Stop (set_Status "running" Ex.backend_r) Ex.world0
    = (set_Status "running" Ex.backend_r, Ex.world0).
Proof.
  split; [reflexivity|]. split; [discriminate|].
  apply (proj1 (Stop_remote_and_idempotent
                  (set_Status "running" Ex.backend_r) Ex.world0));
    [reflexivity | discriminate].
Defined.

(** C8 as stated fails: a freshly created URL-only backend is "stopped",
    and [Stop] leaves it "running". *)
Lemma Stop_remote_counterexample :
  Command (Config_ Ex.backend_r) = "" ∧ URL (Config_ Ex.backend_r) ≠ ""
  ∧ Status Ex.backend_r = "stopped"
  ∧ Status (Stop Ex.backend_r Ex.world0).1 = "running"
  ∧ (Stop Ex.backend_r Ex.world0).1 ≠ Ex.backend_r.
Proof.
  split; [reflexivity|]. split; [discriminate|].
  split; [reflexivity|]. split; [reflexivity|].
  intros H. apply (f_equal Status) in H. discriminate H.
Qed.

Lemma Start_RetryCount os s w :
  RetryCount (Start os s w).1.2 = RetryCount s.
Proof.
  unfold Start, IsSSE.
  repeat (case_decide || case_match || simplify_eq/= || done).
Qed.

(** [Stop] on a running, process-backed backend kills its process, once. *)
Lemma Stop_running_kills s w cmd :
  ¬ (Command (Config_ s) = "" ∧ URL (Config_ s) ≠ "") →
  Status s = "running" → Cmd_ s = Some cmd →
  kills (Stop s w).2 = kills w ++ [cmd_pid cmd].
Proof.
  intros Hl Hs Hc. unfold Stop. rewrite (IsSSE_local _ Hl).
  rewrite decide_False by (intros H; by apply H).
  rewrite Hc.
  destruct (StopSignal s) as [ch|] eqn:Hch,
           (LogFile s) as [f|] eqn:Hf; simpl; rewrite ?Hf; simpl;
    destruct (decide (Port s ≠ 0)) as [Hp|Hp]; simpl;
    unfold kills, emit; simpl; rewrite ?omap_app; simpl;
    by rewrite ?app_nil_r.
Qed.

(** C6 (amended).  When [Cmd.Wait] returns an error and the stop signal
    is not closed, the monitor compares [RetryCount] with the configured
    maximum before touching it.  Above the maximum it calls [Stop] and
    returns, the count unchanged; on a running process-backed backend
    that leaves the status "stopped", the process killed (one more kill,
    of its pid) and the port released.  Otherwise it increments
    [RetryCount], calls [Stop] and then [Start], and goes round the loop
    again. *)
Theorem monitor_retry_or_stop os s w cmd :
  Cmd_ s = Some cmd →
  (∀ ch, StopSignal s = Some ch → ch ∉ closed w) →
  (RetryCount s > McpServiceRetryCount (cfg s) →
   monitorTurn os true s w = (Terminated, (Stop s w).1, (Stop s w).2)
   ∧ RetryCount (Stop s w).1 = RetryCount s
   ∧ (¬ (Command (Config_ s) = "" ∧ URL (Config_ s) ≠ "") →
      Status s = "running" →
      Status (Stop s w).1 = "stopped" ∧ Port (Stop s w).1 = 0
      ∧ Cmd_ (Stop s w).1 = None
      ∧ kills (Stop s w).2 = kills w ++ [cmd_pid cmd]
      ∧ (Port s ≠ 0 → PortManager.used (ports (Stop s w).2) (Port s) = false)))
  ∧ (RetryCount s ≤ McpServiceRetryCount (cfg s) →
     let s1 := set_RetryCount (wrap64 (RetryCount s + 1)) s in
     let stopped := Stop s1 w in
     let started := Start os stopped.1 stopped.2 in
     monitorTurn os true s w = (Looping, started.1.2, started.2)
     ∧ RetryCount started.1.2 = wrap64 (RetryCount s + 1)).
Proof.
  intros Hcmd Hsig.
  assert (Hsel : match StopSignal s with
                 | Some ch => bool_decide (ch ∈ closed w)
                 | None => false
                 end = false).
  { destruct (StopSignal s) as [ch|] eqn:E; [|done].
    apply bool_decide_eq_false. by apply Hsig. }
  split.
  - intros Hgt. split; [|split].
    + unfold monitorTurn. rewrite Hsel, Hcmd, decide_True by done.
      by destruct (Stop s w).
    + unfold Stop, IsSSE.
      repeat (case_decide || case_match || simplify_eq/= || done).
    + intros Hl Hs. pose proof (Stop_running s w cmd Hl Hs Hcmd) as H.
      pose proof (Stop_running_kills s w cmd Hl Hs Hcmd) as Hk.
      destruct (Stop s w) as [s' w']; simpl in *.
      destruct H as (H1 & H2 & H3 & _ & _ & _ & _ & H8 & _). auto.
  - intros Hle s1 stopped started. split.
    + unfold monitorTurn. rewrite Hsel, Hcmd, decide_False by lia.
      subst started stopped s1.
      destruct (Stop _ w) as [s' w']; simpl.
      by destruct (Start os s' w') as [[e s''] w''].
    + subst started. rewrite Start_RetryCount. subst stopped s1.
      unfold Stop, IsSSE.
      repeat (case_decide || case_match || simplify_eq/= || done).
Qed.

(** The amended C6 at a backend that has just been started: its count
    equals the maximum, so the first failure restarts it. *)
Lemma monitor_retry_or_stop_witness :
  RetryCount Ex.a_running ≤ McpServiceRetryCount (cfg Ex.a_running)
  ∧ let s1 := set_RetryCount (wrap64 (RetryCount Ex.a_running + 1)) Ex.a_running in
    let stopped := Stop s1 Ex.a_world in
    let started := Start Ex.os stopped.1 stopped.2 in
    monitorTurn Ex.os true Ex.a_running Ex.a_world = (Looping, started.1.2, started.2)
    ∧ RetryCount started.1.2 = wrap64 (RetryCount Ex.a_running + 1).
Proof.
  assert (Hle : RetryCount Ex.a_running ≤ McpServiceRetryCount (cfg Ex.a_running))
    by (vm_compute; discriminate).
  assert (Hcmd : Cmd_ Ex.a_running
                 = Some (mkCmd (commandLine (set_Port 10000 Ex.backend_a)) [] 4242))
    by (vm_compute; reflexivity).
  assert (Hsig : ∀ ch, StopSignal Ex.a_running = Some ch → ch ∉ closed Ex.a_world)
    by (intros ch [= <-]; apply not_elem_of_empty).
  split; [exact Hle|].
  exact (proj2 (monitor_retry_or_stop Ex.os Ex.a_running Ex.a_world _ Hcmd Hsig) Hle).
Defined.

(** C6 as stated fails twice over.  A backend starts with its count at
    the maximum (3): the first failure makes it 4, which exceeds the
    maximum, yet the backend is restarted.  The second failure stops the
    monitor with the count still 4 and the status "stopped": no path sets
    "failed". *)
Lemma monitor_give_up_counterexample :
  let first := monitorTurn Ex.os true Ex.a_running Ex.a_world in
  let second := monitorTurn Ex.os true first.1.2 first.2 in
  RetryCount Ex.a_running = 3 ∧ McpServiceRetryCount (cfg Ex.a_running) = 3
  ∧ first.1.1 = Looping ∧ RetryCount first.1.2 = 4
  ∧ Status first.1.2 = "running"
  ∧ second.1.1 = Terminated ∧ RetryCount second.1.2 = 4
  ∧ Status second.1.2 = "stopped" ∧ Status second.1.2 ≠ "failed".
Proof. vm_compute. repeat split; discriminate. Qed.

End ServiceFacts.

(** ** Session manager *)

Section ManagerFacts.
Import Manager.

Lemma set_proxySessions_twice v v' m :
  set_proxySessions v (set_proxySessions v' m) = set_proxySessions v m.
Proof. done. Qed.

Lemma closeVisit_removal m out kv :
  closeVisit (m, out) kv =
  (set_proxySessions (delete kv.1 (proxySessions m)) m, out ++ [closeRemoval kv]).
Proof.
  unfold closeVisit, closeRemoval. destruct kv as [id [session|]]; simpl; [|done].
  by destruct (Session.Close session).
Qed.

Lemma close_fold l m out :
  foldl closeVisit (m, out) l =
  (set_proxySessions (foldr delete (proxySessions m) l.*1) m,
   out ++ (closeRemoval <$> l)).
Proof.
  revert m out. induction l as [|kv l IH]; intros m out.
  - simpl. rewrite app_nil_r. by destruct m.
  - change (foldl closeVisit (m, out) (kv :: l))
      with (foldl closeVisit (closeVisit (m, out) kv) l).
    rewrite closeVisit_removal, IH; simpl.
    rewrite set_proxySessions_twice, <- app_assoc; simpl.
    by rewrite delete_foldr_delete.
Qed.

Lemma stop_fold_sessions l m :
  proxySessions (foldl stopVisit m l) = proxySessions m.
Proof.
  revert m. induction l as [|kv l IH]; intros m; simpl; [done|].
  rewrite IH. unfold stopVisit. by destruct (Service.Stop kv.2 (world m)).
Qed.

Lemma Close_doneChan s : Session.doneChan (Session.Close s).1 = Session.doneChan s.
Proof. done. Qed.

Lemma set_proxySessions_id m : set_proxySessions (proxySessions m) m = m.
Proof. by destruct m. Qed.

Lemma gcRemoval_id now timeout kv r :
  gcRemoval now timeout kv = Some r → rm_id r = kv.1.
Proof.
  unfold gcRemoval. destruct kv as [id [session|]]; simpl.
  - case_decide; [|done]. by intros [= <-].
  - by intros [= <-].
Qed.

(** A removed session is the one the map held, after [Session.Close]. *)
Lemma gcRemoval_session now timeout id v r s' :
  gcRemoval now timeout (id, v) = Some r → rm_session r = Some s' →
  ∃ s, v = Some s ∧ s' = (Session.Close s).1.
Proof.
  unfold gcRemoval. destruct v as [session|]; simpl.
  - case_decide; [|done]. intros [= <-]; simpl. intros [= <-]. by exists session.
  - by intros [= <-].
Qed.

Lemma gcVisit_removal now m out locked kv :
  gcVisit now (mkGc m out locked) kv =
  match gcRemoval now (ProxySessionTimeout (cfg m)) kv with
  | None => inl (mkGc m out locked)
  | Some r =>
      if locked
      then inr (Blocked (set_proxySessions (stuckAt r (proxySessions m)) m) out r)
      else inl (mkGc (set_proxySessions (delete (rm_id r) (proxySessions m)) m)
                     (out ++ [r]) true)
  end.
Proof.
  unfold gcVisit, gcRemoval, stuckAt.
  destruct kv as [id [session|]]; simpl.
  - case_decide; [|done]. destruct (Session.Close session); simpl.
    by destruct locked.
  - destruct locked; [|done]. by rewrite set_proxySessions_id.
Qed.

(** Once the mutex is locked, the tick blocks at the next entry due. *)
Lemma gcRange_locked now l m out :
  gcRange now l (mkGc m out true) =
  match omap (gcRemoval now (ProxySessionTimeout (cfg m))) l with
  | [] => Returned m out
  | r :: _ => Blocked (set_proxySessions (stuckAt r (proxySessions m)) m) out r
  end.
Proof.
  induction l as [|kv l IH]; [done|].
  cbn [gcRange omap list_omap]. rewrite gcVisit_removal.
  by destruct (gcRemoval now (ProxySessionTimeout (cfg m)) kv) as [r|].
Qed.

(** The tick as a whole, by the entries due in the order of the visit. *)
Lemma gcRange_due now l m out :
  gcRange now l (mkGc m out false) =
  match omap (gcRemoval now (ProxySessionTimeout (cfg m))) l with
  | [] => Returned m out
  | [r] =>
      Returned (set_proxySessions (delete (rm_id r) (proxySessions m)) m)
               (out ++ [r])
  | r :: pending :: _ =>
      Blocked (set_proxySessions
                 (stuckAt pending (delete (rm_id r) (proxySessions m))) m)
              (out ++ [r]) pending
  end.
Proof.
  induction l as [|kv l IH]; [done|].
  cbn [gcRange omap list_omap]. rewrite gcVisit_removal.
  destruct (gcRemoval now (ProxySessionTimeout (cfg m)) kv) as [r|]; [|done].
  rewrite gcRange_locked. cbn [cfg set_proxySessions proxySessions].
  by destruct (omap _ l) as [|pending rest].
Qed.

(** The entries of the map, in whatever order they are visited. *)
Lemma entries_lookup (ps : gmap string (option Session.t)) l id v :
  l ≡ₚ map_to_list ps → (id, v) ∈ l ↔ ps !! id = Some v.
Proof. intros Hl. rewrite Hl. apply elem_of_map_to_list. Qed.

Lemma entries_NoDup (ps : gmap string (option Session.t)) l :
  l ≡ₚ map_to_list ps → NoDup l.*1.
Proof. intros Hl. rewrite Hl. apply NoDup_fst_map_to_list. Qed.

Lemma due_list now m l id r :
  l ≡ₚ map_to_list (proxySessions m) →
  r ∈ omap (gcRemoval now (ProxySessionTimeout (cfg m))) l ∧ rm_id r = id
  ↔ due now m id r.
Proof.
  intros Hl. unfold due. split.
  - intros [Hr <-]. apply list_elem_of_omap in Hr as ([id v] & Hkv & Hr).
    rewrite (gcRemoval_id _ _ _ _ Hr); simpl. exists v.
    split; [|done]. by apply (entries_lookup _ l).
  - intros (v & Hv & Hr). split; [|by rewrite (gcRemoval_id _ _ _ _ Hr)].
    apply list_elem_of_omap. exists (id, v).
    split; [|done]. by apply (entries_lookup (proxySessions m)).
Qed.

Lemma due_NoDup now timeout (l : list (string * option Session.t)) :
  NoDup l.*1 → NoDup (rm_id <$> omap (gcRemoval now timeout) l).
Proof.
  induction l as [|kv l IH]; [constructor|].
  rewrite fmap_cons. intros [Hkv Hl]%NoDup_cons. cbn [omap list_omap].
  destruct (gcRemoval now timeout kv) as [r|] eqn:E; [|by apply IH].
  rewrite fmap_cons. apply NoDup_cons. split; [|by apply IH].
  rewrite (gcRemoval_id _ _ _ _ E). intros Hin. apply Hkv.
  apply list_elem_of_fmap in Hin as (r' & Hid & Hr').
  apply list_elem_of_omap in Hr' as (kv' & Hkv' & Hr').
  rewrite (gcRemoval_id _ _ _ _ Hr') in Hid. rewrite Hid.
  by apply list_elem_of_fmap_2.
Qed.

(** A tick over a map with nothing due, with one entry due, with more. *)
Lemma gcRange_none now m l :
  l ≡ₚ map_to_list (proxySessions m) →
  (∀ id r, ¬ due now m id r) →
  gcRange now l (mkGc m [] false) = Returned m [].
Proof.
  intros Hl Hnone. rewrite gcRange_due.
  destruct (omap _ l) as [|r rest] eqn:E; [done|].
  destruct (Hnone (rm_id r) r). apply (due_list now m l); [done|].
  rewrite E. split; [by left | done].
Qed.

Lemma gcRange_one now m l id r :
  l ≡ₚ map_to_list (proxySessions m) →
  due now m id r →
  (∀ id' r', due now m id' r' → id' = id) →
  gcRange now l (mkGc m [] false)
  = Returned (set_proxySessions (delete id (proxySessions m)) m) [r].
Proof.
  intros Hl Hdue Honly. rewrite gcRange_due.
  pose proof (due_NoDup now (ProxySessionTimeout (cfg m)) l
                (entries_NoDup _ l Hl)) as Hnd.
  apply (due_list now m l) in Hdue as [Hin Hid]; [|done].
  destruct (omap _ l) as [|a [|b rest]] eqn:E.
  - by apply elem_of_nil in Hin.
  - apply list_elem_of_singleton in Hin as ->. by rewrite Hid.
  - exfalso.
    assert (Ha : rm_id a = id).
    { apply (Honly _ a), (due_list now m l); [done|].
      rewrite E. split; [by left | done]. }
    assert (Hb : rm_id b = id).
    { apply (Honly _ b), (due_list now m l); [done|].
      rewrite E. split; [by right; left | done]. }
    rewrite !fmap_cons, Ha, Hb in Hnd.
    apply NoDup_cons in Hnd as [Hnd _]. apply Hnd. by left.
Qed.

Lemma gcRange_more now m l id1 r1 id2 r2 :
  l ≡ₚ map_to_list (proxySessions m) →
  due now m id1 r1 → due now m id2 r2 → id1 ≠ id2 →
  ∃ r pending,
    gcRange now l (mkGc m [] false)
    = Blocked (set_proxySessions
                 (stuckAt pending (delete (rm_id r) (proxySessions m))) m)
              [r] pending
    ∧ due now m (rm_id r) r ∧ due now m (rm_id pending) pending
    ∧ rm_id r ≠ rm_id pending.
Proof.
  intros Hl H1 H2 Hne. rewrite gcRange_due.
  pose proof (due_NoDup now (ProxySessionTimeout (cfg m)) l
                (entries_NoDup _ l Hl)) as Hnd.
  apply (due_list now m l) in H1 as [Hin1 Hid1]; [|done].
  apply (due_list now m l) in H2 as [Hin2 Hid2]; [|done].
  destruct (omap _ l) as [|a [|b rest]] eqn:E.
  - by apply elem_of_nil in Hin1.
  - apply list_elem_of_singleton in Hin1 as ->.
    apply list_elem_of_singleton in Hin2 as ->. congruence.
  - exists a, b. split; [done|].
    split; [|split].
    + apply (due_list now m l); [done|]. rewrite E. split; [by left | done].
    + apply (due_list now m l); [done|].
      rewrite E. split; [by right; left | done].
    + rewrite !fmap_cons in Hnd. apply NoDup_cons in Hnd as [Hnd _].
      intros Hab. apply Hnd. rewrite Hab. by left.
Qed.

(** C5.  The done channel of a session is never closed.  [NewSession]
    does not make [doneChan] and [Session.Close] does not touch it.  So
    a session that leaves [proxySessions], by [CloseProxySession], by the
    manager's [Close] or by a tick of the idle GC (in whatever order the
    tick visits the map), leaves it with its done channel as it was
    before, not closed.  At the session of the examples, made by
    [NewSession], each of the three paths removes the session and its
    done channel is nil afterwards as it was before. *)
Theorem removed_session_done_not_closed :
  (∀ id now, Session.doneChan (Session.NewSession id now) = Session.NilChan)
  ∧ (∀ s, Session.doneChan (Session.Close s).1 = Session.doneChan s)
  ∧ (∀ m id s,
       proxySessions m !! id = Some (Some s) →
       (∃ m' s' conns,
          CloseProxySession id m = Ret (m', [mkRemoval id (Some s') conns])
          ∧ proxySessions m' !! id = None
          ∧ Session.doneChan s' = Session.doneChan s)
       ∧ (∃ s' conns,
            mkRemoval id (Some s') conns ∈ (Close m).2
            ∧ proxySessions (Close m).1 !! id = None
            ∧ Session.doneChan s' = Session.doneChan s)
       ∧ (∀ now l r,
            l ≡ₚ map_to_list (proxySessions m) →
            r ∈ tick_removed (gcRange now l (mkGc m [] false)) →
            rm_id r = id →
            ∃ s',
              rm_session r = Some s'
              ∧ proxySessions
                  (tick_manager (gcRange now l (mkGc m [] false))) !! id = None
              ∧ Session.doneChan s' = Session.doneChan s))
  ∧ proxySessions Ex.manager1 !! "s1" = Some (Some Ex.session_live)
  ∧ Session.doneChan Ex.session_live = Session.NilChan
  ∧ match CloseProxySession "s1" Ex.manager1 with
    | Ret (m', [r]) =>
        proxySessions m' !! "s1" = None
        ∧ rm_id r = "s1"
        ∧ fmap (M:=option) Session.doneChan (rm_session r) = Some Session.NilChan
    | _ => False
    end
  ∧ match gcTick (Ex.t0 + 200000000) Ex.manager1 with
    | Returned m' [r] =>
        proxySessions m' !! "s1" = None
        ∧ rm_id r = "s1"
        ∧ fmap (M:=option) Session.doneChan (rm_session r) = Some Session.NilChan
    | _ => False
    end
  ∧ match Close Ex.manager1 with
    | (m', [r]) =>
        proxySessions m' !! "s1" = None
        ∧ rm_id r = "s1"
        ∧ fmap (M:=option) Session.doneChan (rm_session r) = Some Session.NilChan
    | _ => False
    end.
Proof.
  split; [done|]. split; [done|]. split.
  - intros m id s Hs. split; [|split].
    + unfold CloseProxySession. rewrite Hs.
      pose proof (Close_doneChan s) as Hd.
      destruct (Session.Close s) as [s' conns]; simpl in *.
      exists (set_proxySessions (delete id (proxySessions m)) m), s', conns.
      split; [done|]. split; [apply lookup_delete_eq | done].
    + unfold Close. rewrite close_fold. simpl.
      rewrite stop_fold_sessions. simpl.
      exists (Session.Close s).1, (Session.Close s).2.
      split; [|split; [|done]].
      * apply list_elem_of_fmap. exists (id, Some s).
        split; [done | by apply elem_of_map_to_list].
      * apply lookup_foldr_delete, list_elem_of_fmap. exists (id, Some s).
        split; [done | by apply elem_of_map_to_list].
    + intros now l r Hl Hr Hid.
      pose proof (due_NoDup now (ProxySessionTimeout (cfg m)) l
                    (entries_NoDup _ l Hl)) as Hnd.
      assert (Hdue : ∀ r', r' ∈ omap (gcRemoval now (ProxySessionTimeout (cfg m))) l →
                           rm_id r' = id →
                           r' = mkRemoval id (Some (Session.Close s).1)
                                          (Session.Close s).2).
      { intros r' Hr' Hid'.
        destruct (proj1 (due_list now m l id r' Hl) (conj Hr' Hid'))
          as (v & Hv & Hrem).
        rewrite Hs in Hv. injection Hv as <-.
        unfold gcRemoval in Hrem; simpl in Hrem.
        case_decide; [|done]. by injection Hrem as <-. }
      rewrite gcRange_due in Hr |- *.
      destruct (omap _ l) as [|a [|b rest]] eqn:E; simpl in Hr |- *.
      * by apply elem_of_nil in Hr.
      * apply list_elem_of_singleton in Hr as ->.
        rewrite (Hdue a) by (by left || done). simpl.
        eexists. split; [done|]. split; [apply lookup_delete_eq | done].
      * apply list_elem_of_singleton in Hr as ->.
        rewrite (Hdue a) by (by left || done). simpl.
        eexists. split; [done|]. split; [|done].
        assert (Hab : rm_id b ≠ id).
        { rewrite !fmap_cons in Hnd. apply NoDup_cons in Hnd as [Hnd _].
          intros Hb. apply Hnd. rewrite Hid, <- Hb. by left. }
        unfold stuckAt. destruct (rm_session b).
        -- rewrite lookup_insert_ne by done. apply lookup_delete_eq.
        -- apply lookup_delete_eq.
  - vm_compute. repeat split; reflexivity.
Qed.

End ManagerFacts.

(** ** Proxy session: the receiving side *)

Section SessionReceive.
Import Session.
Context (json : Json).

Lemma SendEvent_room ev s :
  (length (eventChan s) < eventChanCap)%nat →
  SendEvent ev s = set_eventChan (eventChan s ++ [ev]) s.
Proof. intros H. unfold SendEvent. by rewrite decide_True. Qed.

(** [onTools] touches neither the event channel nor [messageIds]. *)
Lemma onTools_frame mcpName real tools data s :
  let r := onTools json mcpName real tools data s in
  eventChan r.1 = eventChan s ∧ messageIds r.1 = messageIds s
  ∧ (r.2 = data
     ∨ r.2 = result_ToJson json
               (mkResult (gjson_jsonrpc json data) real (allTools (mcpToolsMap r.1)))).
Proof.
  unfold onTools. destruct (fillTools json mcpName tools ∅) as [m ok].
  destruct ok; simpl; [|by auto].
  case_decide; simpl; auto.
Qed.

(** The endpoint bookkeeping at the head of [onData]. *)
Lemma endpoint_frame mcpName scheme host ev data s :
  let s' := if decide (ev = "endpoint"
                       ∧ default "" (mcpMessageUrl s !! mcpName) = "")
            then set_mcpMessageUrl
                   (<[mcpName := scheme +:+ "://" +:+ host +:+ data]>
                      (mcpMessageUrl s)) s
            else s in
  eventChan s' = eventChan s ∧ messageIds s' = messageIds s
  ∧ mcpToolsMap s' = mcpToolsMap s ∧ waitToolsCount s' = waitToolsCount s
  ∧ (ev ≠ "endpoint" → s' = s).
Proof.
  simpl. case_decide as H; simpl; [|done].
  repeat split; try done. intros Hne. by destruct H.
Qed.

Lemma substring_all s : String.substring 0 (String.length s) s = s.
Proof. induction s as [|c s IH]; simpl; [done | by rewrite IH]. Qed.

(** A [data: ] line reaches [onData] with what follows the prefix. *)
Lemma onLine_data mcpName scheme host cur data s :
  onLine json mcpName scheme host (cur, s) ("data: " +:+ data)
  = (cur, onData json mcpName scheme host cur data s).
Proof.
  unfold onLine, TrimPrefix, HasPrefix. simpl.
  change ("" +:+ data) with data.
  assert (Hp : String.prefix "" data = true) by (by destruct data).
  by rewrite Hp, Nat.sub_0_r, substring_all.
Qed.

(** An event whose id the session did not issue changes nothing but,
    for an endpoint event, [mcpMessageUrl]. *)
Lemma onData_unknown mcpName scheme host ev data id s :
  gjson_id json data = Some id →
  messageIds s !! id = None →
  let s' := onData json mcpName scheme host ev data s in
  eventChan s' = eventChan s
  ∧ messageIds s' = messageIds s
  ∧ mcpToolsMap s' = mcpToolsMap s
  ∧ waitToolsCount s' = waitToolsCount s.
Proof.
  intros Hid Hnone. unfold onData.
  destruct (endpoint_frame mcpName scheme host ev data s)
    as (He & Hm & Ht & Hw & _).
  set (s0 := if decide _ then _ else s) in *.
  rewrite Hid. unfold getRealMessageId. rewrite Hm, Hnone. done.
Qed.

(** C10.  An event whose data carries an id that is not a key of
    [messageIds] is not forwarded: the event channel, [messageIds] and
    [mcpToolsMap] are what they were.  The same holds of the line of the
    stream that carries the event. *)
Theorem unknown_id_dropped mcpName scheme host ev data id s :
  gjson_id json data = Some id →
  messageIds s !! id = None →
  let s' := onData json mcpName scheme host ev data s in
  let s'' := (onLine json mcpName scheme host (ev, s) ("data: " +:+ data)).2 in
  eventChan s' = eventChan s
  ∧ messageIds s' = messageIds s
  ∧ mcpToolsMap s' = mcpToolsMap s
  ∧ s'' = s'.
Proof.
  intros Hid Hnone s' s''.
  destruct (onData_unknown mcpName scheme host ev data id s Hid Hnone)
    as (He & Hm & Ht & _).
  repeat split; try done. subst s' s''. by rewrite onLine_data.
Qed.

(** What [onData] does with an event that answers an in-flight
    request, when the event is not an endpoint event and the outbound
    channel has room. *)
Lemma onData_match mcpName scheme host ev data g orig s :
  gjson_id json data = Some g →
  messageIds s !! g = Some orig →
  ev ≠ "endpoint" →
  (length (eventChan s) < eventChanCap)%nat →
  let s' := onData json mcpName scheme host ev data s in
  let d1 := Replace1 data (idField g) (idField orig) in
  messageIds s' = delete g (messageIds s)
  ∧ ∃ data',
      eventChan s' = eventChan s ++ [mkMsg ev data']
      ∧ (gjson_result_tools json d1 = [] →
         data' = default d1 ((λ name, Replace1 d1 name "mcp-gateway")
                               <$> gjson_serverInfo_name json d1))
      ∧ (gjson_result_tools json d1 ≠ [] →
         data' = d1
         ∨ data' = result_ToJson json
                     (mkResult (gjson_jsonrpc json d1) orig
                               (allTools (mcpToolsMap s')))).
Proof.
  intros Hid Hin Hev Hroom. unfold onData.
  destruct (endpoint_frame mcpName scheme host ev data s)
    as (_ & _ & _ & _ & Hsame).
  rewrite (Hsame Hev). clear Hsame.
  rewrite Hid. unfold getRealMessageId. rewrite Hin.
  set (d1 := Replace1 data (idField g) (idField orig)).
  destruct (decide (0 < length (gjson_result_tools json d1))%nat) as [Hlen|Hlen].
  - pose proof (onTools_frame mcpName orig (gjson_result_tools json d1) d1
                  (removeMessageId g s)) as (He & Hm & Hd).
    destruct (onTools json mcpName orig (gjson_result_tools json d1) d1
                (removeMessageId g s)) as [s3 d3]; simpl in *.
    rewrite decide_True by done.
    rewrite SendEvent_room by (by rewrite He).
    split; [by rewrite <- Hm|]. exists d3. simpl. rewrite He.
    split; [done|]. split.
    + intros Hnil. rewrite Hnil in Hlen. simpl in Hlen. lia.
    + intros _. destruct Hd as [->| ->]; auto.
  - assert (Hnil : gjson_result_tools json d1 = []).
    { destruct (gjson_result_tools json d1); [done | simpl in Hlen; lia]. }
    destruct (gjson_serverInfo_name json d1) as [name|] eqn:Hname; simpl;
      rewrite decide_True by done;
      rewrite SendEvent_room by done; (split; [done|]);
      eexists; (split; [reflexivity|]); split; try done.
Qed.

End SessionReceive.

(** ** Proxy session: the sending side *)

Section SessionSend.
Import Session.
Context (json : Json) (env : Oracle).

(** [sendToMcp] records the gateway id before it looks for the URL, and
    posts at most once, to the URL of [mcpName]. *)
Lemma sendToMcp_spec mcpName req s n :
  let r := sendToMcp json env mcpName req s n in
  mcpMessageUrl r.1.2 = mcpMessageUrl s
  ∧ eventChan r.1.2 = eventChan s
  ∧ waitToolsCount r.1.2 = waitToolsCount s
  ∧ messageIds r.1.2 =
      match req_Id req with
      | Some id => <[UnixMilli (Now env (clockReads n)) := id]> (messageIds s)
      | None => messageIds s
      end
  ∧ match mcpMessageUrl s !! mcpName with
    | None => posts r.2 = posts n ∧ r.1.1 = Some (ErrNoMessageUrl mcpName)
    | Some url => ∃ p, posts r.2 = posts n ++ [p] ∧ p.1 = url ∧ carries json req p
    end.
Proof.
  unfold sendToMcp, generateMessageId, readClock, doPost, AddMessage, carries,
    with_id.
  destruct req as [jsonrpc [id|] method params]; simpl;
    destruct (mcpMessageUrl s !! mcpName) as [url|]; simpl; try done;
    (destruct (Post env _ url _) as [code|]; simpl;
     [case_decide; simpl|]);
    repeat split; try done;
    eexists (_, _); (split; [reflexivity|]); (split; [reflexivity|]);
    eexists; (split; [reflexivity|]); done.
Qed.

Lemma waitReady_ready sleep fuel try s :
  IsReady s = true → waitReady sleep fuel try s = (s, true).
Proof. intros H. destruct fuel; simpl; by rewrite H. Qed.

(** The four sleeps allowed never run out before [try] does: the loop
    gives up only after five polls have found the session not ready,
    and more fuel changes nothing. *)
Lemma waitReady_fuel sleep s fuel :
  waitReady sleep (4 + fuel) 3 s = waitReady sleep 4 3 s
  ∧ ((waitReady sleep 4 3 s).2 = false →
     IsReady s = false ∧ IsReady (sleep s) = false
     ∧ IsReady (sleep (sleep s)) = false
     ∧ IsReady (sleep (sleep (sleep s))) = false
     ∧ IsReady (sleep (sleep (sleep (sleep s)))) = false).
Proof.
  split.
  - simpl. repeat (destruct (IsReady _); [done|]). by destruct fuel.
  - simpl. repeat (destruct (IsReady _); [done|]). done.
Qed.

(** The broadcast loop posts once to each backend it visits, in order. *)
Lemma broadcast_fold req l s n :
  (∀ name, name ∈ l → is_Some (mcpMessageUrl s !! name)) →
  let r := foldl (broadcastTo json env req) (s, n) l in
  mcpMessageUrl r.1 = mcpMessageUrl s
  ∧ eventChan r.1 = eventChan s
  ∧ ∃ new, posts r.2 = posts n ++ new
           ∧ new.*1 = (λ name, default "" (mcpMessageUrl s !! name)) <$> l
           ∧ Forall (carries json req) new.
Proof.
  revert s n. induction l as [|name l IH]; intros s n Hl.
  - simpl. split; [done|]. split; [done|]. exists []. by rewrite app_nil_r.
  - change (foldl (broadcastTo json env req) (s, n) (name :: l))
      with (foldl (broadcastTo json env req)
                  (broadcastTo json env req (s, n) name) l).
    pose proof (sendToMcp_spec name req s n) as (Hu & He & _ & _ & Hp).
    destruct (Hl name) as [url Hurl]; [by left|]. rewrite Hurl in Hp.
    destruct Hp as (p & Hp & Hpu & Hpc).
    assert (Hb : ∃ s1 n1, broadcastTo json env req (s, n) name = (s1, n1)
                          ∧ mcpMessageUrl s1 = mcpMessageUrl s
                          ∧ eventChan s1 = eventChan s
                          ∧ posts n1 = posts n ++ [p]).
    { unfold broadcastTo; simpl.
      destruct (sendToMcp json env name req s n) as [[err s1] n1]; simpl in *.
      destruct err; [|case_decide]; do 2 eexists;
        (split; [reflexivity|]); simpl; done. }
    destruct Hb as (s1 & n1 & -> & Hu1 & He1 & Hp1).
    destruct (IH s1 n1) as (Hu2 & He2 & new & Hnew & Hurls & Hall).
    { intros name' Hin. rewrite Hu1. apply Hl. by right. }
    split; [by rewrite Hu2|]. split; [by rewrite He2|].
    exists (p :: new). split; [|split].
    + rewrite Hnew, Hp1, <- app_assoc. done.
    + rewrite !fmap_cons, Hurl, Hpu, Hurls. simpl. f_equal.
      apply list_fmap_ext. intros i x _. by rewrite Hu1.
    + by constructor.
Qed.

Lemma map_to_list_values (m : gmap string string) :
  (λ name, default "" (m !! name)) <$> (map_to_list m).*1 = (map_to_list m).*2.
Proof.
  rewrite <- list_fmap_compose. apply Forall_fmap_ext, Forall_forall.
  intros [k v] Hin. apply elem_of_map_to_list in Hin. simpl. by rewrite Hin.
Qed.

Lemma Split_nonempty s c : Split s c ≠ [].
Proof.
  destruct s as [|c' s]; simpl; [done|].
  case_decide; [done|]. by destruct (Split s c).
Qed.

Lemma Split_no_char s c : has_char c s = false → Split s c = [s].
Proof.
  induction s as [|c' s IH]; simpl; [done|].
  case_decide; [done|]. intros Hs. by rewrite IH.
Qed.

(** Splitting cuts at the first separator... *)
Lemma Split_first pre rest c :
  has_char c pre = false →
  Split (pre +:+ String c rest) c = pre :: Split rest c.
Proof.
  induction pre as [|c' pre IH]; simpl.
  - intros _. by rewrite decide_True.
  - case_decide; [done|]. intros Hs. by rewrite IH.
Qed.

(** ...and joining the pieces gives the string back. *)
Lemma Join_Split s c : Join (Split s c) (String c EmptyString) = s.
Proof.
  induction s as [|c' s IH]; simpl; [done|].
  pose proof (Split_nonempty s c) as Hne.
  case_decide as Hc.
  - subst c'. destruct (Split s c) as [|h t] eqn:E; [done|].
    simpl in *. by rewrite IH.
  - destruct (Split s c) as [|h t] eqn:E; [done|].
    destruct t as [|h' t]; simpl in *; by rewrite <- IH.
Qed.

Lemma routeToolsCall_prefix req params pre rest :
  req_Params req = AObj params →
  params !! "name" = Some (AStr (pre +:+ "_" +:+ rest)) →
  has_char underscore pre = false →
  routeToolsCall req
  = inr (pre, mkRequest (req_Jsonrpc req) (req_Id req) (req_Method req)
                        (AObj (<["name" := AStr rest]> params))).
Proof.
  intros Hp Hn Hpre. unfold routeToolsCall. rewrite Hp, Hn.
  change (pre +:+ "_" +:+ rest) with (pre +:+ String underscore rest).
  rewrite (Split_first _ _ _ Hpre).
  pose proof (Split_nonempty rest underscore) as Hne.
  rewrite decide_True.
  - simpl. change "_" with (String underscore EmptyString).
    by rewrite Join_Split.
  - destruct (Split rest underscore); [done | simpl; lia].
Qed.

Lemma routeToolsCall_plain req params name :
  req_Params req = AObj params →
  params !! "name" = Some (AStr name) →
  has_char underscore name = false →
  routeToolsCall req = inr ("", req).
Proof.
  intros Hp Hn Hname. unfold routeToolsCall. rewrite Hp, Hn.
  rewrite (Split_no_char _ _ Hname). simpl.
  rewrite <- Hp. by destruct req.
Qed.

Lemma AddMessage_posts mcpName content msgType s n :
  posts (AddMessage env mcpName content msgType s n).2 = posts n.
Proof. done. Qed.

(** C4 (amended).  On a ready session, for a request that decodes:
    a tools/call whose params.name is a string with a non-empty prefix
    before its first underscore is sent to the backend named by that
    prefix only, with params.name replaced by what follows the first
    underscore; a tools/call whose params is not an object, or whose
    params.name is not a string, is rejected and nothing is sent; a
    request with another method, and a tools/call whose name has no
    underscore, is posted once to every backend in [mcpMessageUrl]. *)
Theorem SendMessage_routing sleep content req s n :
  Unmarshal_request json content = Some req →
  IsReady s = true →
  let r := SendMessage json env sleep content s n in
  (∀ params pre rest,
     req_Method req = "tools/call" →
     req_Params req = AObj params →
     params !! "name" = Some (AStr (pre +:+ "_" +:+ rest)) →
     has_char underscore pre = false → pre ≠ "" →
     let req' := mkRequest (req_Jsonrpc req) (req_Id req) (req_Method req)
                           (AObj (<["name" := AStr rest]> params)) in
     match mcpMessageUrl s !! pre with
     | Some url => ∃ p, posts r.2 = posts n ++ [p] ∧ p.1 = url ∧ carries json req' p
     | None => posts r.2 = posts n ∧ r.1.1 = Some (ErrNoMessageUrl pre)
     end)
  ∧ (req_Method req = "tools/call" →
     (∀ params name,
        req_Params req = AObj params → params !! "name" ≠ Some (AStr name)) →
     posts r.2 = posts n ∧ r.1.2 = s
     ∧ (r.1.1 = Some ErrGetParams ∨ r.1.1 = Some ErrGetName))
  ∧ ((req_Method req ≠ "tools/call"
      ∨ ∃ params name,
          req_Params req = AObj params ∧ params !! "name" = Some (AStr name)
          ∧ has_char underscore name = false) →
     r.1.1 = None
     ∧ ∃ new, posts r.2 = posts n ++ new
              ∧ new.*1 = (map_to_list (mcpMessageUrl s)).*2
              ∧ Forall (carries json req) new).
Proof.
  intros Hreq Hready r. subst r. unfold SendMessage.
  rewrite Hreq, (waitReady_ready _ _ _ _ Hready).
  assert (Hbroadcast :
    let r := foldl (broadcastTo json env req) (s, n)
                   (map_to_list (mcpMessageUrl s)).*1 in
    ∃ new, posts r.2 = posts n ++ new
           ∧ new.*1 = (map_to_list (mcpMessageUrl s)).*2
           ∧ Forall (carries json req) new).
  { destruct (broadcast_fold req (map_to_list (mcpMessageUrl s)).*1 s n)
      as (_ & _ & new & Hnew & Hurls & Hall).
    - intros name Hin. apply list_elem_of_fmap in Hin as ([k v] & -> & Hin).
      apply elem_of_map_to_list in Hin. by exists v.
    - exists new. by rewrite <- map_to_list_values. }
  split; [|split].
  - intros params pre rest Hm Hp Hn Hpre Hne.
    rewrite decide_True by done.
    rewrite (routeToolsCall_prefix req params pre rest Hp Hn Hpre).
    rewrite decide_False by done.
    set (req' := mkRequest _ _ _ (AObj (<["name" := AStr rest]> params))).
    pose proof (sendToMcp_spec pre req' s n) as (_ & _ & _ & _ & Hposts).
    destruct (sendToMcp json env pre req' s n) as [[err s1] n1]; simpl in *.
    destruct (mcpMessageUrl s !! pre) as [url|].
    + by destruct err.
    + destruct Hposts as [Hposts ->]. done.
  - intros Hm Hbad. rewrite decide_True by done. unfold routeToolsCall.
    destruct (req_Params req) as [| | | | |params] eqn:Hp; simpl; auto.
    destruct (params !! "name") as [[| | |name| |]|] eqn:Hn; simpl; auto.
    by destruct (Hbad params name).
  - intros Hcase.
    assert (Hroute : (if decide (req_Method req = "tools/call")
                      then routeToolsCall req else inr ("", req))
                     = inr ("", req)).
    { case_decide as Hm; [|done].
      destruct Hcase as [Hne|(params & name & Hp & Hn & Hname)]; [done|].
      by apply (routeToolsCall_plain req params name). }
    rewrite Hroute, decide_True by done.
    destruct Hbroadcast as (new & Hnew & Hrest).
    destruct (foldl (broadcastTo json env req) (s, n)
                    (map_to_list (mcpMessageUrl s)).*1) as [s1 n1]; simpl in *.
    split; [done|]. by exists new.
Qed.

(** A tools/call whose name carries a non-empty prefix, on a ready
    session: one send, to the backend the prefix names. *)
Lemma SendMessage_single sleep content req s n params pre rest :
  Unmarshal_request json content = Some req →
  IsReady s = true →
  req_Method req = "tools/call" →
  req_Params req = AObj params →
  params !! "name" = Some (AStr (pre +:+ "_" +:+ rest)) →
  has_char underscore pre = false → pre ≠ "" →
  let r := SendMessage json env sleep content s n in
  let req' := mkRequest (req_Jsonrpc req) (req_Id req) (req_Method req)
                        (AObj (<["name" := AStr rest]> params)) in
  match mcpMessageUrl s !! pre with
  | Some url => ∃ p, posts r.2 = posts n ++ [p] ∧ p.1 = url ∧ carries json req' p
  | None => posts r.2 = posts n ∧ r.1.1 = Some (ErrNoMessageUrl pre)
  end.
Proof.
  intros Hreq Hready Hm Hp Hn Hpre Hne r req'. subst r. unfold SendMessage.
  rewrite Hreq, (waitReady_ready _ _ _ _ Hready).
  rewrite decide_True by done.
  rewrite (routeToolsCall_prefix req params pre rest Hp Hn Hpre).
  rewrite decide_False by done. fold req'.
  pose proof (sendToMcp_spec pre req' s n) as (_ & _ & _ & _ & Hposts).
  destruct (sendToMcp json env pre req' s n) as [[err s1] n1]; simpl in *.
  destruct (mcpMessageUrl s !! pre) as [url|].
  - by destruct err.
  - destruct Hposts as [Hposts ->]. done.
Qed.

(** A second reading of the clock within the same millisecond replaces
    the entry of the first. *)
Lemma generateMessageId_overwrites id1 id2 s n :
  UnixMilli (Now env (clockReads n)) = UnixMilli (Now env (S (clockReads n))) →
  let first := generateMessageId env id1 s n in
  let second := generateMessageId env id2 first.1.2 first.2 in
  second.1.1 = first.1.1
  ∧ messageIds second.1.2 = <[first.1.1 := id2]> (messageIds s).
Proof.
  intros Hsame. unfold generateMessageId, readClock; simpl.
  rewrite <- Hsame. split; [done|]. apply insert_insert_eq.
Qed.


End SessionSend.

(** ** The session on concrete traffic *)

Section SessionExamples.
Import Session.

(** C10 at a reply nobody is waiting for. *)
Lemma unknown_id_dropped_witness :
  gjson_id Ex.json (Ex.plain_reply 42) = Some 42
  ∧ messageIds Ex.session_xy !! 42 = None
  ∧ let s' := onData Ex.json "x" "http" "localhost:10000" "message"
                     (Ex.plain_reply 42) Ex.session_xy in
    let s'' := (onLine Ex.json "x" "http" "localhost:10000"
                       ("message", Ex.session_xy)
                       ("data: " +:+ Ex.plain_reply 42)).2 in
    eventChan s' = eventChan Ex.session_xy
    ∧ messageIds s' = messageIds Ex.session_xy
    ∧ mcpToolsMap s' = mcpToolsMap Ex.session_xy
    ∧ s'' = s'.
Proof.
  assert (H1 : gjson_id Ex.json (Ex.plain_reply 42) = Some 42)
    by (vm_compute; reflexivity).
  assert (H2 : messageIds Ex.session_xy !! 42 = None)
    by (vm_compute; reflexivity).
  split; [exact H1|]. split; [exact H2|].
  exact (unknown_id_dropped Ex.json "x" "http" "localhost:10000" "message"
           (Ex.plain_reply 42) 42 Ex.session_xy H1 H2).
Defined.



(** C2 on a tools/list broadcast to [x] and [y].  Two posts go out and
    the counter stands at 2.  The reply of [y] leaves the counter at 1,
    and yet it is forwarded, with the tools of [y] alone; the reply
    of [x] then brings the merged list.  The client receives two
    tools/list responses, the first of them partial. *)
Lemma tools_partial_reply_forwarded :
  let sent := SendMessage Ex.json Ex.slow_clock Ex.no_sleep
                          (Ex.print_request Ex.tools_list) Ex.session_xy Ex.net0 in
  let s1 := onData Ex.json "y" "http" "localhost:10001" "message"
                   (Ex.tools_reply 1700000000000) sent.1.2 in
  let s2 := onData Ex.json "x" "http" "localhost:10000" "message"
                   (Ex.tools_reply 1700000000003) s1 in
  (posts sent.2).*1 = ["http://localhost:10001/message";
                       "http://localhost:10000/message"]
  ∧ waitToolsCount sent.1.2 = 2
  ∧ eventChan sent.1.2 = []
  ∧ waitToolsCount s1 = 1
  ∧ eventChan s1 = [mkMsg "message" (Ex.tools_reply 7)]
  ∧ waitToolsCount s2 = 0
  ∧ eventChan s2 =
      [mkMsg "message" (Ex.tools_reply 7);
       mkMsg "message"
             (Ex.print_result
                (mkResult "2.0" 7 [mkTool "y_t" "t" "" ""; mkTool "x_t" "t" "" ""]))].
Proof. vm_compute. repeat split; reflexivity. Qed.

(** C7 on two requests whose ids are generated within one millisecond:
    both get the gateway id 1700000000000 and the second entry replaces
    the first. *)
Lemma gateway_id_collision :
  let first := generateMessageId Ex.fast_clock 1 Ex.session_xy Ex.net0 in
  let second := generateMessageId Ex.fast_clock 2 first.1.2 first.2 in
  first.1.1 = 1700000000000 ∧ second.1.1 = 1700000000000
  ∧ messageIds first.1.2 !! 1700000000000 = Some 1
  ∧ messageIds second.1.2 !! 1700000000000 = Some 2
  ∧ size (messageIds second.1.2) = 1%nat.
Proof. vm_compute. repeat split; reflexivity. Qed.

(** The amended C4 on the routed call of the examples: one post, to
    [x], carrying the name [t]. *)
Lemma SendMessage_routing_witness :
  Unmarshal_request Ex.json (Ex.print_request Ex.call_x_t) = Some Ex.call_x_t
  ∧ IsReady Ex.session_xy = true
  ∧ posts (SendMessage Ex.json Ex.slow_clock Ex.no_sleep
             (Ex.print_request Ex.call_x_t) Ex.session_xy Ex.net0).2
    = [("http://localhost:10000/message",
        Ex.print_request
          (mkRequest "2.0" (Some 1700000000000) "tools/call"
             (AObj (<["name" := AStr "t"]> Ex.params_x_t))))]
  ∧ match mcpMessageUrl Ex.session_xy !! "x" with
    | Some url =>
        ∃ p, posts (SendMessage Ex.json Ex.slow_clock Ex.no_sleep
                      (Ex.print_request Ex.call_x_t) Ex.session_xy Ex.net0).2
             = posts Ex.net0 ++ [p]
             ∧ p.1 = url
             ∧ carries Ex.json
                 (mkRequest (req_Jsonrpc Ex.call_x_t) (req_Id Ex.call_x_t)
                            (req_Method Ex.call_x_t)
                            (AObj (<["name" := AStr "t"]> Ex.params_x_t))) p
    | None =>
        posts (SendMessage Ex.json Ex.slow_clock Ex.no_sleep
                 (Ex.print_request Ex.call_x_t) Ex.session_xy Ex.net0).2
        = posts Ex.net0
        ∧ (SendMessage Ex.json Ex.slow_clock Ex.no_sleep
             (Ex.print_request Ex.call_x_t) Ex.session_xy Ex.net0).1.1
          = Some (ErrNoMessageUrl "x")
    end.
Proof.
  assert (H1 : Unmarshal_request Ex.json (Ex.print_request Ex.call_x_t)
               = Some Ex.call_x_t) by (vm_compute; reflexivity).
  assert (H2 : IsReady Ex.session_xy = true) by (vm_compute; reflexivity).
  assert (H3 : Ex.params_x_t !! "name" = Some (AStr ("x" +:+ "_" +:+ "t")))
    by (vm_compute; reflexivity).
  assert (H4 : has_char underscore "x" = false) by reflexivity.
  assert (H5 : "x" ≠ "") by discriminate.
  split; [exact H1|]. split; [exact H2|].
  split; [vm_compute; reflexivity|].
  exact (proj1 (SendMessage_routing Ex.json Ex.slow_clock Ex.no_sleep
                  (Ex.print_request Ex.call_x_t) Ex.call_x_t
                  Ex.session_xy Ex.net0 H1 H2)
               Ex.params_x_t "x" "t" eq_refl eq_refl H3 H4 H5).
Defined.

(** C4 as stated fails at a guard: a tools/call without params.name is
    not broadcast, it is rejected and nothing is posted. *)
Lemma SendMessage_routing_counterexample :
  let r := SendMessage Ex.json Ex.slow_clock Ex.no_sleep
                       (Ex.print_request Ex.call_no_name) Ex.session_xy Ex.net0 in
  Unmarshal_request Ex.json (Ex.print_request Ex.call_no_name)
  = Some Ex.call_no_name
  ∧ req_Method Ex.call_no_name = "tools/call"
  ∧ size (mcpMessageUrl Ex.session_xy) = 2%nat
  ∧ IsReady Ex.session_xy = true
  ∧ r.1.1 = Some ErrGetName
  ∧ posts r.2 = [].
Proof. vm_compute. repeat split; reflexivity. Qed.

(** A name that begins with an underscore has an empty prefix, which
    is also how [SendMessage] writes "no single backend": the call is
    broadcast, under the truncated name. *)
Example SendMessage_leading_underscore :
  let r := SendMessage Ex.json Ex.slow_clock Ex.no_sleep
                       (Ex.print_request Ex.call_underscore_foo)
                       Ex.session_xy Ex.net0 in
  r.1.1 = None
  ∧ (posts r.2).*1 = ["http://localhost:10001/message";
                      "http://localhost:10000/message"].
Proof. vm_compute. split; reflexivity. Qed.

End SessionExamples.

(** ** The /message handler *)

Section RouterFacts.
Import Router.
Context (env : Oracle).

Lemma forward_fold body l s n :
  let r := foldl (forwardTo env body) (s, n) l in
  posts r.2 = posts n ++ ((λ kv, (Service.GetMessageUrl kv.2, body)) <$> l)
  ∧ Session.messageIds r.1 = Session.messageIds s
  ∧ Session.eventChan r.1 = Session.eventChan s
  ∧ history r.1 = history s ++ ((λ kv, (kv.1, body, "send")) <$> l).
Proof.
  revert s n. induction l as [|kv l IH]; intros s n.
  - simpl. by rewrite !app_nil_r.
  - change (foldl (forwardTo env body) (s, n) (kv :: l))
      with (foldl (forwardTo env body) (forwardTo env body (s, n) kv) l).
    assert (Hstep : ∃ s1 n1, forwardTo env body (s, n) kv = (s1, n1)
              ∧ posts n1 = posts n ++ [(Service.GetMessageUrl kv.2, body)]
              ∧ Session.messageIds s1 = Session.messageIds s
              ∧ Session.eventChan s1 = Session.eventChan s
              ∧ history s1 = history s ++ [(kv.1, body, "send")]).
    { unfold forwardTo, Session.AddMessage, Service.SendMessage, doPost,
        readClock, history; simpl.
      destruct (Post env _ _ _) as [code|]; [case_decide|];
        do 2 eexists; (split; [reflexivity|]); simpl;
        by rewrite fmap_app. }
    destruct Hstep as (s1 & n1 & -> & Hp & Hm & He & Hh).
    destruct (IH s1 n1) as (Hp' & Hm' & He' & Hh'). cbv zeta.
    rewrite Hp', Hm', He', Hh', Hp, Hm, He, Hh, !fmap_cons, <- !app_assoc.
    done.
Qed.

(** C3 (amended).  For a POST /message whose session exists and whose
    body can be read, the handler records the body in the history of the
    session once per registered backend and posts the unmodified body to
    the message URL of every registered backend.  It does not go
    through [Session.SendMessage]: no gateway id is recorded and no
    backend is singled out. *)
Theorem handleGlobalMessage_forwards req m n session body :
  sessionId req ≠ "" →
  Manager.proxySessions m !! sessionId req = Some (Some session) →
  Router.body req = Some body →
  let r := handleGlobalMessage env req m n in
  r.1.1 = ReturnNil
  ∧ posts r.2 = posts n ++ ((λ kv, (Service.GetMessageUrl kv.2, body))
                              <$> map_to_list (Manager.servers m))
  ∧ Manager.servers r.1.2 = Manager.servers m
  ∧ ∃ session',
      Manager.proxySessions r.1.2 !! sessionId req = Some (Some session')
      ∧ Session.messageIds session' = Session.messageIds session
      ∧ Session.eventChan session' = Session.eventChan session
      ∧ history session' = history session
                           ++ ((λ kv, (kv.1, body, "send"))
                                 <$> map_to_list (Manager.servers m)).
Proof.
  intros Hid Hs Hb r. subst r. unfold handleGlobalMessage, Manager.GetProxySession.
  rewrite decide_False by done. rewrite Hs, Hb.
  destruct (forward_fold body (map_to_list (Manager.servers m)) session n)
    as (Hp & Hm & He & Hh).
  destruct (foldl (forwardTo env body) (session, n)
                  (map_to_list (Manager.servers m))) as [s1 n1]; simpl in *.
  split; [done|]. split; [done|]. split; [done|].
  exists s1. by rewrite lookup_insert_eq.
Qed.

End RouterFacts.

Section RouterExamples.
Import Router.

(** The amended C3 on the routed call of the examples, posted to
    /message. *)
Lemma handleGlobalMessage_forwards_witness :
  sessionId (mkReq "s1" (Some (Ex.print_request Ex.call_x_t))) ≠ ""
  ∧ Manager.proxySessions Ex.manager_xy !! "s1" = Some (Some Ex.session_xy)
  ∧ let r := handleGlobalMessage Ex.slow_clock
               (mkReq "s1" (Some (Ex.print_request Ex.call_x_t)))
               Ex.manager_xy Ex.net0 in
    r.1.1 = ReturnNil
    ∧ posts r.2 = posts Ex.net0
                  ++ ((λ kv, (Service.GetMessageUrl kv.2,
                              Ex.print_request Ex.call_x_t))
                        <$> map_to_list (Manager.servers Ex.manager_xy)).
Proof.
  assert (H1 : sessionId (mkReq "s1" (Some (Ex.print_request Ex.call_x_t))) ≠ "")
    by discriminate.
  assert (H2 : Manager.proxySessions Ex.manager_xy
                 !! sessionId (mkReq "s1" (Some (Ex.print_request Ex.call_x_t)))
               = Some (Some Ex.session_xy))
    by (vm_compute; reflexivity).
  split; [exact H1|]. split; [exact H2|].
  pose proof (handleGlobalMessage_forwards Ex.slow_clock
                (mkReq "s1" (Some (Ex.print_request Ex.call_x_t)))
                Ex.manager_xy Ex.net0 Ex.session_xy
                (Ex.print_request Ex.call_x_t) H1 H2 eq_refl) as H.
  exact (conj (proj1 H) (proj1 (proj2 H))).
Defined.

(** C3 as stated fails: the tools/call for [x_t] posted to /message
    reaches both backends, [y] as well as [x], with the client's id 9 and
    the name [x_t] as they came, and the session records no gateway id. *)
Lemma handleGlobalMessage_counterexample :
  let body := Ex.print_request Ex.call_x_t in
  let r := handleGlobalMessage Ex.slow_clock (mkReq "s1" (Some body))
                               Ex.manager_xy Ex.net0 in
  r.1.1 = ReturnNil
  ∧ posts r.2 = [("http://localhost:10001/message", body);
                 ("http://localhost:10000/message", body)]
  ∧ req_Id Ex.call_x_t = Some 9
  ∧ match Manager.proxySessions r.1.2 !! "s1" with
    | Some (Some s') => size (Session.messageIds s') = 0%nat
    | _ => False
    end.
Proof. vm_compute. repeat split; reflexivity. Qed.

End RouterExamples.

(** * Further properties of the code *)

(** ** Port allocator: the order of the ports *)

Section PortManagerOrder.
Import PortManager.

(** X1.  From the initial allocator, and while the cursor stays inside
    the range of a Go int, the ports returned by GetNextAvailablePort
    are 10000, 10001, 10002, ... in this order, whatever ReleasePort
    calls come in between: the cursor never moves back, so a released
    port is not handed out again and no port is returned twice. *)
Theorem ports_never_reused calls :
  10000 + allocs calls ≤ int_max →
  returned (run calls) = reverse (seqZ 10000 (allocs calls))
  ∧ NoDup (returned (run calls))
  ∧ nextPort (mgr (run calls)) = 10000 + allocs calls.
Proof.
  intros Hb.
  assert (Hret : returned (run calls) = reverse (seqZ 10000 (allocs calls))).
  { induction calls as [|c calls IH] using rev_ind; [done|].
    rewrite allocs_app in Hb. pose proof (allocs_nonneg calls) as Hnn.
    assert (Hb' : 10000 + allocs calls ≤ int_max).
    { destruct c; unfold allocs in *; simpl in *; lia. }
    specialize (IH Hb'). pose proof (run_invariant calls Hb') as Hinv.
    rewrite run_snoc, allocs_app. destruct c as [|q].
    - pose proof (run_inv_free _ _ Hinv) as Hfree.
      unfold step, GetNextAvailablePort. rewrite (skipUsed_stop _ _ _ Hfree).
      simpl. rewrite IH, (inv_cursor _ _ Hinv).
      change (allocs [Alloc]) with 1.
      rewrite seqZ_app by lia. rewrite reverse_app. done.
    - simpl. rewrite IH. change (allocs [Release q]) with 0.
      by rewrite Z.add_0_r. }
  split; [done|]. split.
  - rewrite Hret, reverse_Permutation. apply NoDup_seqZ.
  - apply (inv_cursor _ _ (run_invariant calls Hb)).
Qed.

End PortManagerOrder.

(** ** Backend supervisor: start, stop, restart and the monitor *)

Section ServiceMore.
Import Service.

(** The backend [Start] leaves behind when nothing fails. *)
Lemma Start_ok os s w :
  os_ok os →
  ¬ (Command (Config_ s) = "" ∧ URL (Config_ s) ≠ "") →
  Status s ≠ "running" →
  ∃ logFile cmd,
    let alloc := PortManager.GetNextAvailablePort (ports w) in
    Start os s w =
    (None,
     mkService (Name s) (Config_ s) (Some cmd) (Some logFile) (Some (chans w))
               (if decide (Port s = 0) then alloc.1 else Port s)
               (cfg s) "running" (RetryCount s),
     mkWorld (if decide (Port s = 0) then alloc.2 else ports w)
             (S (chans w)) (closed w) (trace w ++ [GoMonitor (cmd_pid cmd)])).
Proof.
  intros [Hlog Hcmd] Hl Hs. unfold Start. rewrite (IsSSE_local _ Hl).
  rewrite decide_False by done.
  simpl. destruct (decide (Port s = 0)) as [Hp|Hp]; simpl;
    destruct (Hlog (ConfigDirPath (cfg s)) (Name s +:+ ".log")) as [f Hf];
    rewrite Hf;
    match goal with |- context [cmdStart os ?l ?e] =>
      destruct (Hcmd l e) as [pid Hpid]; rewrite Hpid end;
    exists f; eexists (mkCmd _ _ pid); reflexivity.
Qed.

(** [Stop] on a backend that is up, in full. *)
Lemma Stop_up s w cmd ch :
  ¬ (Command (Config_ s) = "" ∧ URL (Config_ s) ≠ "") →
  Status s = "running" → Cmd_ s = Some cmd → StopSignal s = Some ch →
  Stop s w =
  (mkService (Name s) (Config_ s) None (LogFile s) None 0 (cfg s) "stopped"
             (RetryCount s),
   mkWorld (if decide (Port s ≠ 0)
            then PortManager.ReleasePort (Port s) (ports w) else ports w)
           (chans w) ({[ch]} ∪ closed w)
           (trace w ++ [CloseChan ch]
              ++ match LogFile s with Some f => [CloseFile f] | None => [] end
              ++ [Kill (cmd_pid cmd)])).
Proof.
  intros Hl Hs Hc Hch. unfold Stop. rewrite (IsSSE_local _ Hl).
  rewrite decide_False by (intros H; by apply H).
  rewrite Hc, Hch. simpl.
  destruct (LogFile s) as [f|] eqn:Hf; simpl;
    destruct (decide (Port s ≠ 0)) as [Hp|Hp]; simpl;
    unfold emit; simpl; rewrite <- ?app_assoc; simpl; try reflexivity.
  all: unfold set_Status, set_Port, set_Cmd, set_StopSignal; simpl; rewrite ?Hf; repeat f_equal; lia.
Qed.


Lemma omap_app_monitors w e :
  monitors (emit e w) = monitors w ++ match e with GoMonitor pid => [pid] | _ => [] end.
Proof. unfold monitors, emit; simpl. rewrite omap_app. by destruct e. Qed.

(** X3.  Start on a process-backed backend that is not running and
    holds no port, with an operating system that creates the log file
    and starts the command: no error, the status is "running", the port
    taken was free, lies at or above the cursor and is then marked used,
    and a monitor is started for the new process.  Stop after that kills
    this process, closes the stop signal, sets the status to "stopped"
    and the port to 0, and leaves exactly the ports used that were used
    before the start. *)
Theorem Start_Stop_round_trip os s w :
  os_ok os →
  ¬ (Command (Config_ s) = "" ∧ URL (Config_ s) ≠ "") →
  Status s ≠ "running" → Port s = 0 →
  0 < PortManager.nextPort (ports w) →
  PortManager.nextPort (ports w)
    + Z.of_nat (size (PortManager.usedPorts (ports w))) ≤ int_max →
  let started := Start os s w in
  let stopped := Stop started.1.2 started.2 in
  started.1.1 = None
  ∧ Status started.1.2 = "running"
  ∧ PortManager.nextPort (ports w) ≤ Port started.1.2
  ∧ PortManager.used (ports w) (Port started.1.2) = false
  ∧ PortManager.used (ports started.2) (Port started.1.2) = true
  ∧ Status stopped.1 = "stopped" ∧ Port stopped.1 = 0 ∧ Cmd_ stopped.1 = None
  ∧ (∀ q, PortManager.used (ports stopped.2) q = PortManager.used (ports w) q)
  ∧ ∃ cmd, Cmd_ started.1.2 = Some cmd
           ∧ monitors started.2 = monitors w ++ [cmd_pid cmd]
           ∧ kills stopped.2 = kills w ++ [cmd_pid cmd]
           ∧ chans w ∈ closed stopped.2.
Proof.
  intros Hos Hl Hs Hp Hpos Hhi started stopped.
  destruct (Start_ok os s w Hos Hl Hs) as (f & cmd & Hstart).
  cbv zeta in Hstart. rewrite !decide_True in Hstart by done.
  destruct (GetNextAvailablePort_least (ports w)) as (Hle & Hfree & _);
    [unfold int_min; lia | done |].
  set (p := (PortManager.GetNextAvailablePort (ports w)).1) in *.
  assert (Hstop : stopped =
    Stop (mkService (Name s) (Config_ s) (Some cmd) (Some f) (Some (chans w)) p
                    (cfg s) "running" (RetryCount s))
         (mkWorld (PortManager.GetNextAvailablePort (ports w)).2
                  (S (chans w)) (closed w) (trace w ++ [GoMonitor (cmd_pid cmd)]))).
  { unfold stopped, started. by rewrite Hstart. }
  rewrite (Stop_up _ _ cmd (chans w)) in Hstop by done. simpl in Hstop.
  rewrite decide_True in Hstop by lia.
  unfold started. rewrite Hstop, Hstart. simpl.
  repeat split; try done.
  - unfold PortManager.used at 1; simpl. fold p. rewrite used_insert.
    by rewrite decide_True.
  - intros q. rewrite used_delete. unfold PortManager.used at 1; simpl. fold p.
    rewrite used_insert. change (PortManager.skipUsed _ _ _) with p.
    destruct (decide (q = p)) as [->|Hq]; [by rewrite Hfree | done].
  - exists cmd. split; [done|]. unfold monitors, kills; simpl.
    rewrite !omap_app; simpl. rewrite !app_nil_r.
    split; [done|]. split; [done|]. set_solver.
Qed.

Lemma Start_keeps_port os s w :
  Port s ≠ 0 →
  Port (Start os s w).1.2 = Port s ∧ ports (Start os s w).2 = ports w.
Proof.
  intros Hp. unfold Start, IsSSE.
  repeat (case_decide || case_match || simplify_eq/= || done).
Qed.

(** [Start] when the log file cannot be created or the command cannot
    be started: the backend is left "starting" with the port it took. *)
Lemma Start_fails os s w :
  ¬ (Command (Config_ s) = "" ∧ URL (Config_ s) ≠ "") →
  Status s ≠ "running" → Port s = 0 →
  (CreateLogFile os (ConfigDirPath (cfg s)) (Name s +:+ ".log") = None
   ∨ ∀ line env, cmdStart os line env = None) →
  ∃ e lf tr,
    (e = ErrCreateLogFile ∨ e = ErrStartCommand)
    ∧ monitors (mkWorld (PortManager.GetNextAvailablePort (ports w)).2
                        (chans w) (closed w) tr) = monitors w
    ∧ Start os s w =
      (Some e,
       mkService (Name s) (Config_ s) (Cmd_ s) lf (StopSignal s)
                 (PortManager.GetNextAvailablePort (ports w)).1 (cfg s)
                 "starting" (RetryCount s),
       mkWorld (PortManager.GetNextAvailablePort (ports w)).2
               (chans w) (closed w) tr).
Proof.
  intros Hl Hs Hp Hfail.
  unfold Start. rewrite (IsSSE_local _ Hl).
  rewrite decide_False by done. simpl. rewrite !decide_True by done. simpl.
  destruct (CreateLogFile os (ConfigDirPath (cfg s)) (Name s +:+ ".log"))
    as [f|] eqn:Hf.
  - destruct Hfail as [?|Hfail]; [done|]. rewrite Hfail.
    exists ErrStartCommand, (Some f), (trace w ++ [CloseFile f]).
    split; [by right|]. split; [|done].
    unfold monitors; simpl. rewrite omap_app; simpl. by rewrite app_nil_r.
  - exists ErrCreateLogFile, (LogFile s), (trace w).
    split; [by left|]. done.
Qed.

(** The port [GetNextAvailablePort] hands out was free and is then
    used; no other port changes. *)
Lemma alloc_used pm :
  0 < PortManager.nextPort pm →
  PortManager.nextPort pm + Z.of_nat (size (PortManager.usedPorts pm)) ≤ int_max →
  let p := (PortManager.GetNextAvailablePort pm).1 in
  PortManager.nextPort pm ≤ p
  ∧ PortManager.used pm p = false
  ∧ ∀ q, PortManager.used (PortManager.GetNextAvailablePort pm).2 q
         = if decide (q = p) then true else PortManager.used pm q.
Proof.
  intros Hpos Hhi p.
  destruct (GetNextAvailablePort_least pm) as (Hle & Hfree & _);
    [unfold int_min; lia | done |].
  split; [done|]. split; [done|].
  intros q. unfold PortManager.used at 1; simpl. apply used_insert.
Qed.

Lemma release_alloc pm :
  0 < PortManager.nextPort pm →
  PortManager.nextPort pm + Z.of_nat (size (PortManager.usedPorts pm)) ≤ int_max →
  (PortManager.GetNextAvailablePort pm).1 ≠ 0
  ∧ ∀ q, PortManager.used
           (PortManager.ReleasePort (PortManager.GetNextAvailablePort pm).1
                                    (PortManager.GetNextAvailablePort pm).2) q
         = PortManager.used pm q.
Proof.
  intros Hpos Hhi.
  destruct (alloc_used pm Hpos Hhi) as (Hle & Hfree & Hused).
  split; [lia|]. intros q. rewrite used_delete, Hused.
  case_decide; [by subst q | done].
Qed.

(** X4.  When Start cannot create the log file or cannot start the
    command, it returns the error with the status left at "starting" and
    keeps the port it took: the port stays marked used and stays in the
    Port field, and no monitor is started.  Stop then does nothing (the
    status is not "running"), so the port is not released; a later Start
    allocates nothing and uses the same port. *)
Theorem Start_failure_keeps_port os s w :
  ¬ (Command (Config_ s) = "" ∧ URL (Config_ s) ≠ "") →
  Status s ≠ "running" → Port s = 0 →
  0 < PortManager.nextPort (ports w) →
  PortManager.nextPort (ports w)
    + Z.of_nat (size (PortManager.usedPorts (ports w))) ≤ int_max →
  (CreateLogFile os (ConfigDirPath (cfg s)) (Name s +:+ ".log") = None
   ∨ ∀ line env, cmdStart os line env = None) →
  let r := Start os s w in
  (r.1.1 = Some ErrCreateLogFile ∨ r.1.1 = Some ErrStartCommand)
  ∧ Status r.1.2 = "starting" ∧ Cmd_ r.1.2 = Cmd_ s
  ∧ Port r.1.2 ≠ 0
  ∧ PortManager.used (ports w) (Port r.1.2) = false
  ∧ PortManager.used (ports r.2) (Port r.1.2) = true
  ∧ monitors r.2 = monitors w
  ∧ Stop r.1.2 r.2 = (r.1.2, r.2)
  ∧ ∀ os', Port (Start os' r.1.2 r.2).1.2 = Port r.1.2
           ∧ ports (Start os' r.1.2 r.2).2 = ports r.2.
Proof.
  intros Hl Hs Hp Hpos Hhi Hfail r.
  destruct (alloc_used (ports w) Hpos Hhi) as (Hle & Hfree & Hused).
  destruct (Start_fails os s w Hl Hs Hp Hfail) as (e & lf & tr & He & Hmon & Hr).
  unfold r. rewrite Hr. simpl.
  set (p := (PortManager.GetNextAvailablePort (ports w)).1) in *.
  assert (Hne : p ≠ 0) by lia.
  split; [destruct He as [->| ->]; auto|].
  repeat split; try done.
  - change (PortManager.skipUsed _ _ _) with p. rewrite Hused.
    by rewrite decide_True.
  - apply Stop_not_running; [done|]. simpl. discriminate.
  - by apply Start_keeps_port.
  - by apply Start_keeps_port.
Qed.

(** What a successful [Start] establishes. *)
Lemma Start_up os s w :
  os_ok os → chans_ok w →
  ¬ (Command (Config_ s) = "" ∧ URL (Config_ s) ≠ "") →
  Status s ≠ "running" →
  let r := Start os s w in
  r.1.1 = None ∧ up r.1.2 r.2 ∧ chans_ok r.2
  ∧ RetryCount r.1.2 = RetryCount s ∧ Config_ r.1.2 = Config_ s
  ∧ cfg r.1.2 = cfg s
  ∧ Port r.1.2 = (if decide (Port s = 0)
                  then (PortManager.GetNextAvailablePort (ports w)).1
                  else Port s)
  ∧ ports r.2 = (if decide (Port s = 0)
                 then (PortManager.GetNextAvailablePort (ports w)).2
                 else ports w)
  ∧ kills r.2 = kills w
  ∧ ∃ pid, monitors r.2 = monitors w ++ [pid].
Proof.
  intros Hos Hch Hl Hs r.
  destruct (Start_ok os s w Hos Hl Hs) as (f & cmd & Hstart).
  cbv zeta in Hstart. unfold r. rewrite Hstart. simpl.
  split; [done|]. split; [|split].
  - split; simpl; try done. exists (chans w). split; [done|]. split; [lia|].
    intros Hin. apply Hch in Hin. lia.
  - intros ch Hin. simpl in *. apply Hch in Hin. lia.
  - repeat split; try done.
    + unfold kills; simpl. rewrite omap_app; simpl. by rewrite app_nil_r.
    + exists (cmd_pid cmd). unfold monitors; simpl. by rewrite omap_app.
Qed.

(** What [Stop] does to a backend that is up. *)
Lemma Stop_up_inv s w :
  up s w → chans_ok w →
  let r := Stop s w in
  Status r.1 = "stopped" ∧ Port r.1 = 0 ∧ Cmd_ r.1 = None
  ∧ Config_ r.1 = Config_ s ∧ cfg r.1 = cfg s ∧ RetryCount r.1 = RetryCount s
  ∧ chans_ok r.2
  ∧ ports r.2 = (if decide (Port s ≠ 0)
                 then PortManager.ReleasePort (Port s) (ports w) else ports w)
  ∧ monitors r.2 = monitors w
  ∧ ∃ pid, kills r.2 = kills w ++ [pid].
Proof.
  intros [Hl Hs [cmd Hc] (ch & Hsig & Hlt & Hopen)] Hch r.
  unfold r. rewrite (Stop_up s w cmd ch) by done. simpl.
  repeat split; try done.
  - intros ch' Hin. simpl in *.
    apply elem_of_union in Hin as [Hin|Hin]; [|by apply Hch].
    apply elem_of_singleton in Hin. by subst ch'.
  - unfold monitors; simpl. rewrite !omap_app; simpl.
    destruct (LogFile s); simpl; by rewrite app_nil_r.
  - exists (cmd_pid cmd). unfold kills; simpl. rewrite !omap_app; simpl.
    by destruct (LogFile s).
Qed.

(** X5.  Restart of a running process-backed backend whose port lies
    below the cursor brings it back running on a different, larger port;
    the old port is free afterwards, the new one used, and the retry
    count and the configuration are what they were. *)
Theorem Restart_moves_port os s w :
  os_ok os → chans_ok w → up s w →
  Port s ≠ 0 → Port s < PortManager.nextPort (ports w) →
  0 < PortManager.nextPort (ports w) →
  PortManager.nextPort (ports w)
    + Z.of_nat (size (PortManager.usedPorts (ports w))) ≤ int_max →
  let r := Restart os s w in
  up r.1 r.2
  ∧ Port s < Port r.1
  ∧ PortManager.used (ports r.2) (Port r.1) = true
  ∧ PortManager.used (ports r.2) (Port s) = false
  ∧ RetryCount r.1 = RetryCount s ∧ Config_ r.1 = Config_ s.
Proof.
  intros Hos Hch Hup Hp Hlt Hpos Hhi r.
  pose proof (Stop_up_inv s w Hup Hch) as
    (Hst & Hp0 & _ & Hcfg & Hc & Hrc & Hch1 & Hports & _ & _).
  assert (Hr : r = ((Start os (Stop s w).1 (Stop s w).2).1.2,
                    (Start os (Stop s w).1 (Stop s w).2).2)).
  { unfold r, Restart. rewrite (IsSSE_local _ (up_command _ _ Hup)).
    destruct (Stop s w) as [s1 w1]; simpl.
    by destruct (Start os s1 w1) as [[e s2] w2]. }
  destruct (Stop s w) as [s1 w1]; simpl in *.
  pose proof (Start_up os s1 w1 Hos Hch1) as Hstart.
  destruct Hstart as (_ & Hup2 & _ & Hrc2 & Hcfg2 & _ & Hport & Hports2 & _).
  { rewrite Hcfg. apply (up_command _ _ Hup). }
  { rewrite Hst. discriminate. }
  rewrite decide_True in Hport by done. rewrite decide_True in Hports2 by done.
  rewrite decide_True in Hports by done.
  destruct (GetNextAvailablePort_least (ports w1)) as (Hle & Hfree & _).
  { rewrite Hports; simpl. unfold int_min; lia. }
  { rewrite Hports; simpl.
    pose proof (map_subseteq_size (delete (Port s) (PortManager.usedPorts (ports w)))
                  (PortManager.usedPorts (ports w)) (delete_subseteq _ _)).
    lia. }
  rewrite Hr; simpl. rewrite Hport, Hports2.
  set (p := (PortManager.GetNextAvailablePort (ports w1)).1) in *.
  assert (Hlt' : Port s < p).
  { rewrite Hports in Hle; simpl in Hle. lia. }
  split; [done|]. split; [done|]. split; [|split].
  - unfold PortManager.used at 1; simpl.
    change (PortManager.skipUsed _ _ _) with p. rewrite used_insert.
    by rewrite decide_True.
  - unfold PortManager.used at 1; simpl.
    change (PortManager.skipUsed _ _ _) with p. rewrite used_insert.
    rewrite decide_False by lia. rewrite Hports. apply used_released.
  - split; congruence.
Qed.

(** On a backend that is up, a failed wait takes the turn into the error
    branch. *)
Lemma monitorTurn_onWaitError os s w :
  up s w → monitorTurn os true s w = onWaitError os s w.
Proof.
  intros [Hl Hs [cmd Hc] (ch & Hsig & Hlt & Hopen)].
  unfold monitorTurn, onWaitError. rewrite Hsig, Hc.
  by rewrite bool_decide_eq_false_2.
Qed.

Lemma up_set_RetryCount v s w : up s w → up (set_RetryCount v s) w.
Proof. intros [Hl Hs Hc Hsig]. by split. Qed.

Lemma onWaitError_restart os s w :
  os_ok os → chans_ok w → up s w →
  RetryCount s ≤ McpServiceRetryCount (cfg s) →
  let r := onWaitError os s w in
  r.1.1 = Looping ∧ up r.1.2 r.2 ∧ chans_ok r.2
  ∧ RetryCount r.1.2 = wrap64 (RetryCount s + 1) ∧ cfg r.1.2 = cfg s
  ∧ length (monitors r.2) = S (length (monitors w))
  ∧ length (kills r.2) = S (length (kills w)).
Proof.
  intros Hos Hch Hup Hle r. unfold r, onWaitError.
  rewrite decide_False by lia.
  set (s0 := set_RetryCount (wrap64 (RetryCount s + 1)) s).
  pose proof (Stop_up_inv s0 w (up_set_RetryCount _ _ _ Hup) Hch) as
    (Hst & Hp0 & _ & Hcfg & Hc & Hrc & Hch1 & _ & Hmon & pid & Hkill).
  destruct (Stop s0 w) as [s1 w1]; simpl in *.
  pose proof (Start_up os s1 w1 Hos Hch1) as Hstart.
  destruct Hstart as (_ & Hup2 & Hch2 & Hrc2 & _ & Hc2 & _ & _ & Hkill2 & pid2 & Hmon2).
  { rewrite Hcfg. apply (up_command _ _ Hup). }
  { rewrite Hst. discriminate. }
  destruct (Start os s1 w1) as [[e s2] w2]; simpl in *.
  split; [done|]. split; [done|]. split; [done|].
  split; [congruence|]. split; [congruence|]. split.
  - rewrite Hmon2, Hmon, length_app; simpl. lia.
  - rewrite Hkill2, Hkill, length_app; simpl. lia.
Qed.

(** X6.  A monitored backend whose process fails at every wait, on an
    operating system that restarts it every time: if its retry count is
    [k] short of exceeding the configured maximum, monitorProcess
    restarts it exactly [k] times (starting a further monitor each time)
    and then stops it and returns, with the status "stopped", no
    process, the port field 0, and the retry count one above the
    maximum.  A backend fresh from NewMcpService has its count at the
    maximum: it is restarted once. *)
Theorem monitor_bounded_restarts os s w (k : nat) more :
  os_ok os → chans_ok w → up s w →
  RetryCount s + Z.of_nat k = McpServiceRetryCount (cfg s) + 1 →
  McpServiceRetryCount (cfg s) < int_max →
  int_min ≤ RetryCount s →
  let r := monitorProcess os (replicate (S k) true ++ more) s w in
  r.1.1 = Terminated
  ∧ Status r.1.2 = "stopped" ∧ Cmd_ r.1.2 = None ∧ Port r.1.2 = 0
  ∧ RetryCount r.1.2 = McpServiceRetryCount (cfg s) + 1
  ∧ length (monitors r.2) = (length (monitors w) + k)%nat
  ∧ length (kills r.2) = (length (kills w) + S k)%nat.
Proof.
  intros Hos Hch Hup Hk Hmax Hmin r. unfold r, monitorProcess.
  rewrite (IsSSE_local _ (up_command _ _ Hup)). clear r.
  revert s w Hch Hup Hk Hmin Hmax.
  induction k as [|k IH]; intros s w Hch Hup Hk Hmin Hmax.
  - simpl. rewrite (monitorTurn_onWaitError _ _ _ Hup). unfold onWaitError.
    rewrite decide_True by lia.
    pose proof (Stop_up_inv s w Hup Hch) as
      (Hst & Hp0 & Hcmd & _ & _ & Hrc & _ & _ & Hmon & pid & Hkill).
    destruct (Stop s w) as [s1 w1]; simpl in *.
    repeat split; try done.
    + lia.
    + rewrite Hmon. lia.
    + rewrite Hkill, length_app; simpl. lia.
  - change (replicate (S (S k)) true ++ more)
      with (true :: (replicate (S k) true ++ more)).
    cbn [monitorLoop]. rewrite (monitorTurn_onWaitError _ _ _ Hup).
    pose proof (onWaitError_restart os s w Hos Hch Hup) as Hre.
    destruct Hre as (Hloop & Hup' & Hch' & Hrc & Hc & Hmon & Hkill); [lia|].
    destruct (onWaitError os s w) as [[o s'] w']; simpl in *. subst o.
    rewrite wrap64_id in Hrc by (unfold int_min, int_max in *; lia).
    destruct (IH s' w' Hch' Hup') as (H1 & H2 & H3 & H4 & H5 & H6 & H7).
    + rewrite Hc, Hrc. lia.
    + lia.
    + by rewrite Hc.
    + repeat split; try done.
      * by rewrite H5, Hc.
      * rewrite H6, Hmon. lia.
      * rewrite H7, Hkill. lia.
Qed.

(** X7.  On a backend that is up, a failed wait takes the monitor into
    its error branch.  When that branch runs on the backend as Stop has
    just left it (the monitor waking from the wait on the killed
    process): if the retry count does not exceed the maximum, the branch
    increments it and starts the backend again, with a further monitor,
    so the backend is up once more; if it exceeds the maximum, the
    backend stays as Stop left it and the monitor returns. *)
Theorem Stop_undone_by_monitor os s w :
  os_ok os → chans_ok w → up s w →
  let stopped := Stop s w in
  let r := onWaitError os stopped.1 stopped.2 in
  monitorTurn os true s w = onWaitError os s w
  ∧ Status stopped.1 = "stopped"
  ∧ (RetryCount s ≤ McpServiceRetryCount (cfg s) →
     r.1.1 = Looping ∧ up r.1.2 r.2
     ∧ RetryCount r.1.2 = wrap64 (RetryCount s + 1)
     ∧ length (monitors r.2) = S (length (monitors w)))
  ∧ (RetryCount s > McpServiceRetryCount (cfg s) →
     r = (Terminated, stopped.1, stopped.2)).
Proof.
  intros Hos Hch Hup stopped r.
  split; [by apply monitorTurn_onWaitError|].
  pose proof (Stop_up_inv s w Hup Hch) as
    (Hst & Hp0 & Hcmd & Hcfg & Hc & Hrc & Hch1 & _ & Hmon & pid & Hkill).
  fold stopped in Hst, Hp0, Hcmd, Hcfg, Hc, Hrc, Hch1, Hmon, Hkill.
  split; [done|].
  assert (Hl1 : ∀ v,
    ¬ (Command (Config_ (set_RetryCount v stopped.1)) = ""
       ∧ URL (Config_ (set_RetryCount v stopped.1)) ≠ "")).
  { intros v. simpl. rewrite Hcfg. apply (up_command _ _ Hup). }
  split.
  - intros Hle. unfold r, onWaitError.
    rewrite decide_False by (rewrite Hc, Hrc; lia).
    rewrite Stop_not_running; [|apply Hl1 | simpl; rewrite Hst; discriminate].
    pose proof (Start_up os (set_RetryCount (wrap64 (RetryCount stopped.1 + 1)) stopped.1)
                  stopped.2 Hos Hch1 (Hl1 _)) as Hstart.
    destruct Hstart as (_ & Hup2 & _ & Hrc2 & _ & _ & _ & _ & _ & pid2 & Hmon2).
    { simpl. rewrite Hst. discriminate. }
    destruct (Start os _ stopped.2) as [[e s2] w2]; simpl in *.
    split; [done|]. split; [done|]. split.
    + by rewrite Hrc2, Hrc.
    + rewrite Hmon2, Hmon, length_app; simpl. lia.
  - intros Hgt. unfold r, onWaitError.
    rewrite decide_True by (rewrite Hc, Hrc; lia).
    rewrite Stop_not_running; [done| |rewrite Hst; discriminate].
    rewrite Hcfg. apply (up_command _ _ Hup).
Qed.

(** X2.  GetSSEUrl and GetMessageUrl are empty exactly when the status
    is not "running", and then GetUrl is empty too.  On a running
    backend they are GetUrl followed by "/sse" and "/message", where
    GetUrl is the configured URL if there is one, else the localhost URL
    of the port, else (port 0) the empty string: a running backend with
    neither URL nor port has the SSE URL "/sse". *)
Theorem url_getters s :
  (GetSSEUrl s = "" ↔ Status s ≠ "running")
  ∧ (GetMessageUrl s = "" ↔ Status s ≠ "running")
  ∧ (Status s ≠ "running" → GetUrl s = "")
  ∧ (Status s = "running" →
     GetSSEUrl s = GetUrl s +:+ "/sse"
     ∧ GetMessageUrl s = GetUrl s +:+ "/message"
     ∧ GetUrl s =
         if decide (URL (Config_ s) ≠ "") then URL (Config_ s)
         else if decide (Port s = 0) then ""
         else "http://localhost:" +:+ fmt_d (Port s)).
Proof.
  assert (Hne : ∀ a b c, a +:+ String b c ≠ "") by (intros a b c; by destruct a).
  unfold GetSSEUrl, GetMessageUrl, GetUrl, GetStatus.
  destruct (decide (Status s ≠ "running")) as [Hs|Hs].
  - simpl. by repeat split.
  - simpl.
    assert (Hr : Status s = "running") by (by apply dec_stable).
    split; [split; [intros H; by apply Hne in H | done]|].
    split; [split; [intros H; by apply Hne in H | done]|].
    by split.
Qed.

Lemma Stop_keeps s w :
  Config_ (Stop s w).1 = Config_ s ∧ cfg (Stop s w).1 = cfg s
  ∧ Name (Stop s w).1 = Name s ∧ RetryCount (Stop s w).1 = RetryCount s.
Proof.
  unfold Stop, IsSSE.
  repeat (case_decide || case_match || simplify_eq/= || done).
Qed.

Lemma Start_keeps os s w :
  Config_ (Start os s w).1.2 = Config_ s ∧ cfg (Start os s w).1.2 = cfg s
  ∧ Name (Start os s w).1.2 = Name s.
Proof.
  unfold Start, IsSSE.
  repeat (case_decide || case_match || simplify_eq/= || done).
Qed.

Lemma Restart_keeps os s w :
  Config_ (Restart os s w).1 = Config_ s ∧ cfg (Restart os s w).1 = cfg s
  ∧ Name (Restart os s w).1 = Name s.
Proof.
  unfold Restart. destruct (IsSSE s) as [sse s0] eqn:E.
  assert (H0 : Config_ s0 = Config_ s ∧ cfg s0 = cfg s ∧ Name s0 = Name s).
  { unfold IsSSE in E. case_decide; by simplify_eq. }
  destruct sse; [done|].
  pose proof (Stop_keeps s0 w) as (H1 & H2 & H3 & _).
  destruct (Stop s0 w) as [s1 w1]; simpl in *.
  pose proof (Start_keeps os s1 w1) as (H4 & H5 & H6).
  destruct (Start os s1 w1) as [[e s2] w2]; simpl in *.
  destruct H0 as (? & ? & ?). repeat split; congruence.
Qed.
End ServiceMore.

(** ** Session manager: registry, deployment, sessions *)

Section CopyLoops.

(** A [range] loop that copies a map entry by entry, applying [f] to the
    values, builds the image of the map under [f]. *)
Lemma foldl_insert_list {A B} (f : A → B) (l : list (string * A))
    (acc : gmap string B) :
  NoDup l.*1 →
  foldl (λ r kv, <[kv.1 := f kv.2]> r) acc l
  = (f <$> (list_to_map l : gmap string A)) ∪ acc.
Proof.
  revert acc. induction l as [|[k v] l IH]; intros acc Hnd.
  - simpl. by rewrite fmap_empty, (left_id_L ∅ (∪)).
  - rewrite fmap_cons in Hnd. apply NoDup_cons in Hnd as [Hk Hnd].
    simpl in Hk. simpl. rewrite IH by done.
    rewrite fmap_insert. rewrite <- insert_union_l.
    symmetry. apply insert_union_r. rewrite lookup_fmap.
    by rewrite (not_elem_of_list_to_map_1 _ _ Hk).
Qed.

Lemma foldl_insert_map_to_list {A B} (f : A → B) (m : gmap string A) :
  foldl (λ r kv, <[kv.1 := f kv.2]> r) ∅ (map_to_list m) = f <$> m.
Proof.
  rewrite foldl_insert_list by apply NoDup_fst_map_to_list.
  by rewrite list_to_map_to_list, (right_id_L ∅ (∪)).
Qed.

End CopyLoops.

Section ManagerMore.
Import Manager.

Lemma omap_none {A B} (f : A → option B) (l : list A) :
  (∀ x, x ∈ l → f x = None) → omap f l = [].
Proof.
  induction l as [|x l IH]; intros H; [done|].
  cbn [omap list_omap]. rewrite (H x) by (by left).
  apply IH. intros y Hy. apply H. by right.
Qed.

Lemma serverConfigs_fmap m : serverConfigs m = Service.Config_ <$> servers m.
Proof. apply foldl_insert_map_to_list. Qed.

Lemma GetMcpServices_servers m : GetMcpServices m = servers m.
Proof.
  unfold GetMcpServices.
  rewrite (foldl_insert_map_to_list (λ x, x) (servers m)).
  apply map_fmap_id.
Qed.

(** X8.  ListServerConfig maps each registered name to the
    configuration of its instance and nothing else, saveConfig writes
    that same map, GetMcpServices returns the registry, and
    GetMcpService returns the registered instance or, for a name that is
    not registered, the does-not-exist error. *)
Theorem listing_is_registry m :
  (∀ name, ListServerConfig m !! name = Service.Config_ <$> servers m !! name)
  ∧ saveConfig m = ListServerConfig m
  ∧ GetMcpServices m = servers m
  ∧ (∀ name, match GetMcpService name m with
             | inr instance => servers m !! name = Some instance
             | inl e => servers m !! name = None ∧ e = ErrNoService name
             end).
Proof.
  split; [|split; [|split]].
  - intros name. unfold ListServerConfig.
    by rewrite serverConfigs_fmap, lookup_fmap.
  - done.
  - apply GetMcpServices_servers.
  - intros name. unfold GetMcpService, getMcpService.
    by destruct (servers m !! name).
Qed.

(** X9.  One tick of the session GC at time [now], in whatever order
    it visits the map.  An entry is due when it is nil or when its
    session was last heard of more than the timeout ago.  If no entry is
    due the tick returns and changes nothing.  If exactly one is due the
    tick returns, having removed that entry and nothing else.  If two or
    more are due the tick never returns: it removes the first due entry
    it visits and then stays in [proxySessionsMutex.Lock()] at the
    second, which is still in the map (closed, if it is a session), with
    the mutex locked; no other entry is touched.  Backends, ports and
    configuration are never touched. *)
Theorem gc_tick_one_removal now m l :
  l ≡ₚ map_to_list (proxySessions m) →
  ((∀ id r, ¬ due now m id r) →
   gcRange now l (mkGc m [] false) = Returned m [])
  ∧ (∀ id r,
       due now m id r → (∀ id' r', due now m id' r' → id' = id) →
       gcRange now l (mkGc m [] false)
       = Returned (set_proxySessions (delete id (proxySessions m)) m) [r])
  ∧ (∀ id1 r1 id2 r2,
       due now m id1 r1 → due now m id2 r2 → id1 ≠ id2 →
       ∃ r pending,
         gcRange now l (mkGc m [] false)
         = Blocked (set_proxySessions
                      (stuckAt pending (delete (rm_id r) (proxySessions m))) m)
                   [r] pending
         ∧ due now m (rm_id r) r ∧ due now m (rm_id pending) pending
         ∧ rm_id r ≠ rm_id pending).
Proof.
  intros Hl. split; [|split].
  - by apply gcRange_none.
  - intros id r. by apply gcRange_one.
  - intros id1 r1 id2 r2. by apply gcRange_more.
Qed.

(** [Stop] only ever adds kills and frees ports. *)
Lemma Stop_world_mono s w :
  (∀ pid, pid ∈ Service.kills w → pid ∈ Service.kills (Service.Stop s w).2)
  ∧ (∀ q, PortManager.used (Service.ports (Service.Stop s w).2) q = true
          → PortManager.used (Service.ports w) q = true)
  ∧ Service.monitors (Service.Stop s w).2 = Service.monitors w.
Proof.
  unfold Service.Stop, Service.IsSSE.
  destruct (decide (Command (Service.Config_ s) = "" ∧ URL (Service.Config_ s) ≠ ""));
    simpl; [done|].
  destruct (decide (Service.Status s ≠ "running")); simpl; [done|].
  destruct (Service.Cmd_ s) as [cmd|]; simpl; [|done].
  destruct (Service.StopSignal s) as [ch|], (Service.LogFile s) as [f|] eqn:Hf;
    simpl; rewrite ?Hf; simpl;
    destruct (decide (Service.Port s ≠ 0)); simpl;
    unfold Service.kills, Service.monitors, Service.emit; simpl;
    rewrite ?omap_app; simpl; rewrite ?app_nil_r.
  all: split; [intros pid Hpid; set_solver|].
  all: split; [|done].
  all: intros q; rewrite ?used_delete; try case_decide; done.
Qed.

Lemma stop_fold l m :
  servers (foldl stopVisit m l) = foldr delete (servers m) l.*1
  ∧ (∀ pid, pid ∈ Service.kills (world m)
            → pid ∈ Service.kills (world (foldl stopVisit m l)))
  ∧ (∀ q, PortManager.used (Service.ports (world (foldl stopVisit m l))) q = true
          → PortManager.used (Service.ports (world m)) q = true)
  ∧ Service.monitors (world (foldl stopVisit m l)) = Service.monitors (world m).
Proof.
  revert m. induction l as [|kv l IH]; intros m; [done|].
  change (foldl stopVisit m (kv :: l)) with (foldl stopVisit (stopVisit m kv) l).
  destruct (IH (stopVisit m kv)) as (Hs & Hk & Hu & Hm).
  destruct (Stop_world_mono kv.2 (world m)) as (Hk1 & Hu1 & Hm1).
  assert (Hv : stopVisit m kv
               = mk (delete kv.1 (servers m)) (Service.Stop kv.2 (world m)).2
                    (proxySessions m) (cfg m)).
  { unfold stopVisit. by destruct (Service.Stop kv.2 (world m)). }
  rewrite Hv in *. simpl in *.
  split; [by rewrite Hs, delete_foldr_delete|].
  split; [auto|]. split; [auto|]. by rewrite Hm.
Qed.

Lemma foldr_delete_all {A} (m : gmap string A) :
  foldr delete m (map_to_list m).*1 = ∅.
Proof.
  apply map_eq. intros id. rewrite lookup_empty.
  destruct (m !! id) as [v|] eqn:E.
  - apply lookup_foldr_delete, list_elem_of_fmap. exists (id, v).
    split; [done | by apply elem_of_map_to_list].
  - destruct (decide (id ∈ (map_to_list m).*1)) as [Hi|Hi].
    + by apply lookup_foldr_delete.
    + by rewrite lookup_foldr_delete_not_elem_of.
Qed.

(** X10.  ServiceManager.Close leaves no proxy session and no backend
    in the maps, reports one removal per session entry, and starts no
    monitor; every registered process-backed backend that was running
    with a process has that process killed and, if it held a port, the
    port freed. *)
Theorem Close_empties m :
  proxySessions (Close m).1 = ∅
  ∧ servers (Close m).1 = ∅
  ∧ length (Close m).2 = size (proxySessions m)
  ∧ Service.monitors (world (Close m).1) = Service.monitors (world m)
  ∧ ∀ name svc cmd,
      servers m !! name = Some svc →
      ¬ (Command (Service.Config_ svc) = "" ∧ URL (Service.Config_ svc) ≠ "") →
      Service.Status svc = "running" → Service.Cmd_ svc = Some cmd →
      Service.cmd_pid cmd ∈ Service.kills (world (Close m).1)
      ∧ (Service.Port svc ≠ 0 →
         PortManager.used (Service.ports (world (Close m).1)) (Service.Port svc)
         = false).
Proof.
  unfold Close. rewrite close_fold. simpl.
  set (m1 := set_proxySessions _ m).
  destruct (stop_fold (map_to_list (servers m)) m1) as (Hs & Hk & Hu & Hm).
  change (servers m1) with (servers m) in *.
  change (world m1) with (world m) in *.
  split; [|split; [|split; [|split]]].
  - rewrite stop_fold_sessions. apply foldr_delete_all.
  - rewrite Hs. apply foldr_delete_all.
  - rewrite length_fmap. apply length_map_to_list.
  - done.
  - intros name svc cmd Hsvc Hl Hst Hcmd.
    apply elem_of_map_to_list in Hsvc.
    clear Hs Hk Hu Hm. clearbody m1. revert m1 Hsvc.
    generalize (map_to_list (servers m)). intros l. clear m.
    induction l as [|kv l IH]; intros m1 Hin; [by apply elem_of_nil in Hin|].
    change (foldl stopVisit m1 (kv :: l))
      with (foldl stopVisit (stopVisit m1 kv) l).
    apply elem_of_cons in Hin as [<-|Hin]; [|by apply IH].
    destruct (stop_fold l (stopVisit m1 (name, svc))) as (_ & Hk & Hu & _).
    pose proof (Stop_running svc (world m1) cmd Hl Hst Hcmd) as Hstop.
    assert (Hv : world (stopVisit m1 (name, svc))
                 = (Service.Stop svc (world m1)).2).
    { unfold stopVisit; simpl. by destruct (Service.Stop svc (world m1)). }
    rewrite Hv in *.
    destruct (Service.Stop svc (world m1)) as [s' w']; simpl in *.
    destruct Hstop as (_ & _ & _ & _ & _ & _ & _ & Hfree & _ & Hkill).
    split.
    + apply Hk. unfold Service.kills. apply list_elem_of_omap.
      by exists (Service.Kill (Service.cmd_pid cmd)).
    + intros Hp. specialize (Hfree Hp).
      apply not_true_is_false. intros E. apply Hu in E. congruence.
Qed.


Lemma set_servers_id m : set_servers (servers m) (world m) m = m.
Proof. by destruct m. Qed.

(** X11.  A URL-only configuration (no command, a URL) passes the
    checks of the router's DeployServer, but under a name that is not
    registered the deployment always fails: Start refuses a backend that
    is not of command type, the instance is not registered, nothing is
    saved and the manager is left as it was. *)
Theorem DeployServer_url_only_rejected os name config m :
  Command config = "" → URL config ≠ "" → servers m !! name = None →
  Router.DeployServer os name config m
  = (Some (Router.ErrManager (ErrStart (Service.ErrNotCommand name))), m, None).
Proof.
  intros Hc Hu Hnone. unfold Router.DeployServer.
  rewrite decide_False by (intros [_ H]; done).
  rewrite decide_False by (intros [H _]; done).
  set (config' := if decide (Workspace config = "") then _ else config).
  assert (Hc' : Command config' = "" ∧ URL config' ≠ "").
  { unfold config'. by case_decide. }
  destruct Hc' as [Hc' Hu'].
  unfold DeployServer. rewrite Hnone.
  unfold Service.Start. rewrite IsSSE_remote by done. simpl.
  by rewrite set_servers_id.
Qed.

(** X12.  DeployServer with a command configuration under a new name,
    on an operating system that creates the log file and starts the
    command: no error; afterwards getMcpService finds under that name a
    running instance with the given configuration and its retry count
    at the configured maximum; the other backends and the sessions are
    untouched; and the configuration saved, like the one then listed, is
    the previous listing with the new entry added. *)
Theorem DeployServer_new os name mcpCfg m :
  Service.os_ok os →
  ¬ (Command mcpCfg = "" ∧ URL mcpCfg ≠ "") →
  servers m !! name = None →
  let r := DeployServer os name mcpCfg m in
  r.1.1 = None
  ∧ (∃ instance,
       getMcpService name r.1.2 = inr instance
       ∧ Service.Config_ instance = mcpCfg
       ∧ Service.Status instance = "running"
       ∧ Service.RetryCount instance = McpServiceRetryCount (cfg m))
  ∧ (∀ other, other ≠ name → servers r.1.2 !! other = servers m !! other)
  ∧ proxySessions r.1.2 = proxySessions m
  ∧ r.2 = Some (<[name := mcpCfg]> (ListServerConfig m))
  ∧ ListServerConfig r.1.2 = <[name := mcpCfg]> (ListServerConfig m).
Proof.
  intros Hos Hl Hnone r. unfold r, DeployServer. rewrite Hnone.
  set (instance := Service.NewMcpService name mcpCfg (cfg m)).
  destruct (Start_ok os instance (world m) Hos) as (f & cmd & Hstart);
    [done | simpl; discriminate |].
  cbv zeta in Hstart. rewrite Hstart. simpl.
  assert (Hcfgs : ∀ inst w,
    Service.Config_ inst = mcpCfg →
    saveConfig (set_servers (<[name := inst]> (servers m)) w m)
    = <[name := mcpCfg]> (ListServerConfig m)).
  { intros inst w Hc. unfold saveConfig, ListServerConfig.
    rewrite !serverConfigs_fmap. simpl. by rewrite fmap_insert, Hc. }
  split; [done|]. split; [|split; [|split; [done|split]]].
  - eexists. unfold getMcpService; simpl. rewrite lookup_insert_eq.
    split; [reflexivity|]. done.
  - intros other Hne. by rewrite lookup_insert_ne.
  - f_equal. by apply Hcfgs.
  - by apply Hcfgs.
Qed.

(** X13.  When DeployServer creates a new backend and its start fails
    at the log file or at the command, the error is returned, the
    registry is unchanged, nothing is saved and no monitor is started,
    but the port the start took stays marked used: exactly one port,
    free before, is used afterwards. *)
Theorem DeployServer_failure_leaks_port os name mcpCfg m :
  ¬ (Command mcpCfg = "" ∧ URL mcpCfg ≠ "") →
  servers m !! name = None →
  0 < PortManager.nextPort (Service.ports (world m)) →
  PortManager.nextPort (Service.ports (world m))
    + Z.of_nat (size (PortManager.usedPorts (Service.ports (world m)))) ≤ int_max →
  (Service.CreateLogFile os (ConfigDirPath (cfg m)) (name +:+ ".log") = None
   ∨ ∀ line env, Service.cmdStart os line env = None) →
  let r := DeployServer os name mcpCfg m in
  (r.1.1 = Some (ErrStart Service.ErrCreateLogFile)
   ∨ r.1.1 = Some (ErrStart Service.ErrStartCommand))
  ∧ servers r.1.2 = servers m
  ∧ r.2 = None
  ∧ Service.monitors (world r.1.2) = Service.monitors (world m)
  ∧ ∃ p, PortManager.used (Service.ports (world m)) p = false
         ∧ ∀ q, PortManager.used (Service.ports (world r.1.2)) q
                = if decide (q = p) then true
                  else PortManager.used (Service.ports (world m)) q.
Proof.
  intros Hl Hnone Hpos Hhi Hfail r. unfold r, DeployServer. rewrite Hnone.
  set (instance := Service.NewMcpService name mcpCfg (cfg m)).
  destruct (Start_fails os instance (world m)) as (e & lf & tr & He & Hmon & Hr);
    [done | simpl; discriminate | done | done |].
  rewrite Hr. simpl.
  destruct (alloc_used (Service.ports (world m)) Hpos Hhi) as (Hle & Hfree & Hused).
  split; [destruct He as [->| ->]; auto|].
  split; [done|]. split; [done|]. split; [done|].
  exists (PortManager.GetNextAvailablePort (Service.ports (world m))).1.
  split; [done|]. apply Hused.
Qed.

(** X14.  DeployServer under a name that is already registered never
    reports an error and never saves the configuration: it installs the
    new configuration in the registered instance, keeps its retry count
    and restarts it, leaving the other backends alone.  If the new
    configuration is URL-only, the restart does nothing but set the
    status to "running": the process of the old configuration is not
    stopped, and neither StopServer nor DeleteServer stops it later (the
    world is unchanged by them), though DeleteServer removes the
    entry. *)
Theorem DeployServer_existing os name mcpCfg m svc :
  servers m !! name = Some svc →
  let r := DeployServer os name mcpCfg m in
  r.1.1 = None ∧ r.2 = None
  ∧ (∃ svc', servers r.1.2 !! name = Some svc'
             ∧ Service.Config_ svc' = mcpCfg
             ∧ Service.RetryCount svc' = Service.RetryCount svc)
  ∧ (∀ other, other ≠ name → servers r.1.2 !! other = servers m !! other)
  ∧ (Command mcpCfg = "" → URL mcpCfg ≠ "" →
     servers r.1.2 !! name
     = Some (Service.set_Status "running" (Service.set_Config mcpCfg svc))
     ∧ world r.1.2 = world m
     ∧ world (StopServer name r.1.2) = world m
     ∧ world (DeleteServer name r.1.2).1.2 = world m
     ∧ servers (DeleteServer name r.1.2).1.2 !! name = None).
Proof.
  intros Hsvc r. unfold r, DeployServer. rewrite Hsvc.
  pose proof (Restart_keeps os (Service.setConfig mcpCfg svc) (world m))
    as (Hc & _ & _).
  assert (Hrc : Service.RetryCount
                  (Service.Restart os (Service.setConfig mcpCfg svc) (world m)).1
                = Service.RetryCount svc).
  { unfold Service.Restart. destruct (Service.IsSSE _) as [sse s0] eqn:E.
    assert (H0 : Service.RetryCount s0 = Service.RetryCount svc).
    { unfold Service.IsSSE in E. case_decide; by simplify_eq. }
    destruct sse; [done|].
    pose proof (Stop_keeps s0 (world m)) as (_ & _ & _ & H1).
    destruct (Service.Stop s0 (world m)) as [s1 w1]; simpl in *.
    pose proof (Start_RetryCount os s1 w1) as H2.
    destruct (Service.Start os s1 w1) as [[e s2] w2]; simpl in *. congruence. }
  assert (Hurl : Command mcpCfg = "" → URL mcpCfg ≠ "" →
    Service.Restart os (Service.setConfig mcpCfg svc) (world m)
    = (Service.set_Status "running" (Service.set_Config mcpCfg svc), world m)).
  { intros H1 H2. unfold Service.Restart. by rewrite IsSSE_remote. }
  destruct (Service.Restart os (Service.setConfig mcpCfg svc) (world m))
    as [svc' w'] eqn:E. simpl in *.
  split; [done|]. split; [done|]. split; [|split].
  - exists svc'. by rewrite lookup_insert_eq.
  - intros other Hne. by rewrite lookup_insert_ne.
  - intros H1 H2. specialize (Hurl H1 H2). injection Hurl as -> ->.
    rewrite lookup_insert_eq. split; [done|]. split; [done|].
    assert (Hstop : ∀ w, Service.Stop
                           (Service.set_Status "running"
                              (Service.set_Config mcpCfg svc)) w
                         = (Service.set_Status "running"
                              (Service.set_Config mcpCfg svc), w)).
    { intros w. unfold Service.Stop. by rewrite IsSSE_remote. }
    unfold StopServer, DeleteServer, getMcpService; simpl.
    rewrite lookup_insert_eq, Hstop. simpl.
    split; [done|]. split; [done|]. apply lookup_delete_eq.
Qed.

(** X15.  DeleteServer of a name that is not registered returns the
    does-not-exist error and changes nothing.  After a successful
    DeployServer of a command configuration under a new name,
    DeleteServer of that name succeeds and gives back the registry, the
    sessions and the set of used ports as they were before the
    deployment; it saves the listing as it was before, and one process
    has been killed. *)
Theorem Deploy_Delete_round_trip os name mcpCfg m :
  Service.os_ok os → Service.chans_ok (world m) →
  ¬ (Command mcpCfg = "" ∧ URL mcpCfg ≠ "") →
  servers m !! name = None →
  0 < PortManager.nextPort (Service.ports (world m)) →
  PortManager.nextPort (Service.ports (world m))
    + Z.of_nat (size (PortManager.usedPorts (Service.ports (world m)))) ≤ int_max →
  let deployed := (DeployServer os name mcpCfg m).1.2 in
  let r := DeleteServer name deployed in
  DeleteServer name m = (Some (ErrNoService name), m, None)
  ∧ r.1.1 = None
  ∧ servers r.1.2 = servers m
  ∧ proxySessions r.1.2 = proxySessions m
  ∧ r.2 = Some (ListServerConfig m)
  ∧ (∀ q, PortManager.used (Service.ports (world r.1.2)) q
          = PortManager.used (Service.ports (world m)) q)
  ∧ length (Service.kills (world r.1.2)) = S (length (Service.kills (world m))).
Proof.
  intros Hos Hch Hl Hnone Hpos Hhi deployed r.
  split; [unfold DeleteServer; by rewrite Hnone|].
  set (instance := Service.NewMcpService name mcpCfg (cfg m)).
  pose proof (Start_up os instance (world m) Hos Hch) as Hstart.
  destruct Hstart as (Herr & Hup & Hch1 & _ & _ & _ & Hport & Hports & Hkills & _);
    [done | simpl; discriminate |].
  rewrite decide_True in Hport by done. rewrite decide_True in Hports by done.
  assert (Hdep : deployed
                 = set_servers (<[name := (Service.Start os instance (world m)).1.2]>
                                  (servers m))
                               (Service.Start os instance (world m)).2 m).
  { unfold deployed, DeployServer. rewrite Hnone. fold instance.
    destruct (Service.Start os instance (world m)) as [[e s1] w1];
      cbn [fst snd] in *.
    by subst e. }
  destruct (Service.Start os instance (world m)) as [[e s1] w1];
    cbn [fst snd] in *.
  pose proof (Stop_up_inv s1 w1 Hup Hch1) as
    (_ & _ & _ & _ & _ & _ & _ & Hports2 & _ & pid & Hkills2).
  destruct (release_alloc (Service.ports (world m)) Hpos Hhi) as [Hne Hrel].
  rewrite <- Hport in Hne. rewrite <- Hport, <- Hports in Hrel.
  rewrite decide_True in Hports2 by done.
  unfold r, DeleteServer. rewrite Hdep.
  cbn [servers world set_servers]. rewrite lookup_insert_eq.
  destruct (Service.Stop s1 w1) as [s2 w2]; cbn [fst snd] in *.
  cbn [servers world set_servers proxySessions cfg fst snd].
  split; [done|]. split; [|split; [done|split; [|split]]].
  - rewrite delete_insert_eq. by apply delete_id.
  - f_equal. unfold saveConfig, ListServerConfig. rewrite !serverConfigs_fmap.
    simpl. rewrite delete_insert_eq. by rewrite delete_id.
  - intros q. by rewrite Hports2, Hrel.
  - rewrite Hkills2, length_app, Hkills. simpl. lia.
Qed.


(** The retry loop, by the first look that finds the backend running. *)
Lemma subscribeRetry_spec sleep retries server inst session :
  let r := subscribeRetry sleep retries server inst session in
  (∃ j, (j ≤ retries)%nat
        ∧ Service.Status (Nat.iter j sleep inst) = "running"
        ∧ (∀ i, (i < j)%nat → Service.Status (Nat.iter i sleep inst) ≠ "running")
        ∧ r = (Nat.iter j sleep inst,
               Session.SubscribeSSE server
                 (Service.GetSSEUrl (Nat.iter j sleep inst)) session,
               Some (server, Service.GetSSEUrl (Nat.iter j sleep inst))))
  ∨ ((∀ i, (i ≤ retries)%nat → Service.Status (Nat.iter i sleep inst) ≠ "running")
     ∧ r = (Nat.iter retries sleep inst, session, None)).
Proof.
  revert inst. induction retries as [|retries IH]; intros inst; simpl.
  - unfold Service.GetStatus, Running. case_decide as Hs.
    + left. exists 0%nat. split; [lia|]. split; [done|].
      split; [intros i Hi; lia | done].
    + right. split; [|done]. intros i Hi. by replace i with 0%nat by lia.
  - unfold Service.GetStatus, Running. case_decide as Hs.
    + left. exists 0%nat. split; [lia|]. split; [done|].
      split; [intros i Hi; lia | done].
    + destruct (IH (sleep inst)) as [(j & Hj & Hrun & Hnot & Hr)|[Hnot Hr]].
      * left. exists (S j). rewrite !Nat.iter_succ_r. split; [lia|].
        split; [done|]. split; [|done].
        intros [|i] Hi; [done|]. rewrite Nat.iter_succ_r. apply Hnot. lia.
      * right. rewrite Nat.iter_swap in Hr. split; [|done].
        intros [|i] Hi; [done|]. rewrite Nat.iter_succ_r. apply Hnot. lia.
Qed.

Lemma subscribeRetry_sub sleep retries server inst session session' :
  (subscribeRetry sleep retries server inst session).2
  = (subscribeRetry sleep retries server inst session').2
  ∧ (subscribeRetry sleep retries server inst session).1.2
    = match (subscribeRetry sleep retries server inst session).2 with
      | Some p => Session.SubscribeSSE p.1 p.2 session
      | None => session
      end.
Proof.
  revert inst. induction retries as [|retries IH]; intros inst; simpl;
    case_decide; try done; apply IH.
Qed.

Lemma subscribe_fold sleep l srv session subs :
  let r := foldl (subscribeVisit sleep) (srv, session, subs) l in
  r.2 = subs ++ omap (subscriptionOf sleep) l
  ∧ r.1.2 = foldl (λ s p, Session.SubscribeSSE p.1 p.2 s) session
                  (omap (subscriptionOf sleep) l).
Proof.
  revert srv session subs. induction l as [|kv l IH]; intros srv session subs.
  - simpl. by rewrite app_nil_r.
  - change (foldl (subscribeVisit sleep) (srv, session, subs) (kv :: l))
      with (foldl (subscribeVisit sleep)
                  (subscribeVisit sleep (srv, session, subs) kv) l).
    pose proof (subscribeRetry_sub sleep 2 kv.1 kv.2 session
                  (Session.NewSession "" 0)) as [Hsub Hses].
    unfold subscribeVisit at 2.
    destruct (subscribeRetry sleep 2 kv.1 kv.2 session) as [[inst s1] sub] eqn:E.
    cbn [fst snd] in *.
    destruct (IH (<[kv.1 := inst]> srv) s1
                 (subs ++ match sub with Some p => [p] | None => [] end))
      as [H1 H2].
    assert (Hk : subscriptionOf sleep kv = sub) by (symmetry; exact Hsub).
    cbn [omap list_omap]. rewrite Hk.
    split.
    + rewrite H1. destruct sub; simpl; by rewrite <- ?app_assoc.
    + rewrite H2, Hses. by destruct sub.
Qed.

Lemma SubscribeSSE_fold (new : list (string * string)) s :
  0 ≤ Session.sseCount s →
  Session.sseCount s + Z.of_nat (length new) < 2 ^ 31 →
  foldl (λ s p, Session.SubscribeSSE p.1 p.2 s) s new
  = Session.set_sseCount (Session.sseCount s + Z.of_nat (length new)) s.
Proof.
  revert s. induction new as [|p new IH]; intros s H0 Hlt.
  - simpl. rewrite Z.add_0_r. by destruct s.
  - cbn [foldl]. rewrite IH.
    + unfold Session.SubscribeSSE; simpl.
      rewrite wrap32_id by (simpl length in Hlt; lia).
      unfold Session.set_sseCount; simpl. f_equal.
      simpl length. lia.
    + unfold Session.SubscribeSSE; simpl.
      rewrite wrap32_id by (simpl length in Hlt; lia). lia.
    + unfold Session.SubscribeSSE; simpl.
      rewrite wrap32_id by (simpl length in Hlt; lia).
      simpl length in Hlt. lia.
Qed.

Lemma length_omap_le {A B} (f : A → option B) (l : list A) :
  (length (omap f l) ≤ length l)%nat.
Proof.
  induction l as [|x l IH]; [done|]. cbn [omap list_omap].
  destruct (f x); simpl; lia.
Qed.

(** X16.  CreateProxySession registers the new session under its id
    and leaves the other sessions alone.  It subscribes to exactly the
    backends found "running" at one of at most three looks (the first
    look, or after one or two retry delays), each at the SSE URL the
    backend has at that look; the session's reader count is the number
    of subscriptions, and the session is ready at once exactly when
    there is none (no endpoint is known yet). *)
Theorem CreateProxySession_subscribes sleep id now m :
  Z.of_nat (size (servers m)) < 2 ^ 31 →
  let r := CreateProxySession sleep id now m in
  GetProxySession id r.1.2 = (Some r.1.1, true)
  ∧ (∀ id', id' ≠ id → proxySessions r.1.2 !! id' = proxySessions m !! id')
  ∧ r.1.1 = Session.set_sseCount (Z.of_nat (length r.2)) (Session.NewSession id now)
  ∧ Session.IsReady r.1.1 = bool_decide (r.2 = [])
  ∧ (∀ name url,
       (name, url) ∈ r.2 ↔
       ∃ svc j, servers m !! name = Some svc ∧ (j ≤ 2)%nat
                ∧ Service.Status (Nat.iter j sleep svc) = "running"
                ∧ (∀ i, (i < j)%nat →
                        Service.Status (Nat.iter i sleep svc) ≠ "running")
                ∧ url = Service.GetSSEUrl (Nat.iter j sleep svc)).
Proof.
  intros Hsize r.
  pose proof (subscribe_fold sleep (map_to_list (servers m)) (servers m)
                (Session.NewSession id now) []) as [Hsubs Hses].
  assert (Hr : r = ((foldl (subscribeVisit sleep)
                           (servers m, Session.NewSession id now, [])
                           (map_to_list (servers m))).1.2,
                    mk (foldl (subscribeVisit sleep)
                              (servers m, Session.NewSession id now, [])
                              (map_to_list (servers m))).1.1
                       (world m)
                       (<[Session.Id
                            (foldl (subscribeVisit sleep)
                               (servers m, Session.NewSession id now, [])
                               (map_to_list (servers m))).1.2
                          := Some (foldl (subscribeVisit sleep)
                               (servers m, Session.NewSession id now, [])
                               (map_to_list (servers m))).1.2]>
                          (proxySessions m))
                       (cfg m),
                    (foldl (subscribeVisit sleep)
                           (servers m, Session.NewSession id now, [])
                           (map_to_list (servers m))).2)).
  { unfold r, CreateProxySession.
    by destruct (foldl _ _ _) as [[srv s1] subs]. }
  destruct (foldl (subscribeVisit sleep) _ _) as [[srv s1] subs].
  cbn [fst snd] in *. simpl in Hsubs.
  set (new := omap (subscriptionOf sleep) (map_to_list (servers m))) in *.
  assert (Hlen : Z.of_nat (length new) < 2 ^ 31).
  { pose proof (length_omap_le (subscriptionOf sleep) (map_to_list (servers m))) as Hle.
    fold new in Hle. rewrite length_map_to_list in Hle. lia. }
  rewrite SubscribeSSE_fold in Hses by (simpl; lia).
  simpl in Hses. subst s1 subs. rewrite Hr. cbn [fst snd].
  split; [|split; [|split; [|split]]].
  - unfold GetProxySession; simpl. by rewrite lookup_insert_eq.
  - intros id' Hne. simpl. by rewrite lookup_insert_ne.
  - done.
  - unfold Session.IsReady; simpl. rewrite map_size_empty.
    apply bool_decide_ext. split.
    + intros H. destruct new; [done | simpl in H; lia].
    + by intros ->.
  - intros name url. unfold new. rewrite list_elem_of_omap. split.
    + intros ([name' svc] & Hin & Hsub). apply elem_of_map_to_list in Hin.
      unfold subscriptionOf in Hsub. cbn [fst snd] in Hsub.
      destruct (subscribeRetry_spec sleep 2 name' svc (Session.NewSession "" 0))
        as [(j & Hj & Hrun & Hnot & Hr')|[Hnot Hr']];
        rewrite Hr' in Hsub; [|done].
      simpl in Hsub. injection Hsub as <- <-. by exists svc, j.
    + intros (svc & j & Hsvc & Hj & Hrun & Hnot & ->).
      exists (name, svc). split; [by apply elem_of_map_to_list|].
      unfold subscriptionOf. cbn [fst snd].
      destruct (subscribeRetry_spec sleep 2 name svc (Session.NewSession "" 0))
        as [(j' & Hj' & Hrun' & Hnot' & Hr')|[Hnot' Hr']]; rewrite Hr'.
      * simpl. assert (j' = j) as ->; [|done].
        destruct (Nat.lt_trichotomy j j') as [Hlt|[Heq|Hgt]]; [|done|].
        -- by destruct (Hnot' j Hlt).
        -- by destruct (Hnot j' Hgt).
      * by destruct (Hnot' j Hj).
Qed.

End ManagerMore.

(** ** Proxy session: polling buffers, readers, tools, waiting *)

Section Polling.
Import Session.
Context (env : Oracle).

Lemma pollRun_snoc s n calls c :
  pollRun env s n (calls ++ [c]) = pollStep env (pollRun env s n calls) c.
Proof. unfold pollRun. by rewrite foldl_app. Qed.

Lemma addedResults_snoc calls c :
  addedResults (calls ++ [c])
  = addedResults calls ++ match c with DoAddResult r => [r] | _ => [] end.
Proof. unfold addedResults. rewrite omap_app. by destruct c. Qed.

Lemma addedReceives_snoc calls c :
  addedReceives (calls ++ [c])
  = addedReceives calls ++ match c with DoAddReceive r => [r] | _ => [] end.
Proof. unfold addedReceives. rewrite omap_app. by destruct c. Qed.

(** X17.  For every sequence of AddResult, AddReceive, GetUnreadResults
    and GetUnprocessedReceives calls on fresh buffers: no call panics;
    the buffers hold everything added, in order; the batches returned by
    each kind of poll, put end to end, are the items before the
    respective offset, and one more poll returns the rest and moves the
    offset to the end, so every item is returned once and in order.
    Each AddReceive reads the clock once and sets LastReceiveTime to that
    reading. *)
Theorem polling_reads_once s n calls :
  ∃ st, pollRun env s n calls = Some st
    ∧ Results (p_buffers st) = addedResults calls
    ∧ Receives (p_buffers st) = addedReceives calls
    ∧ 0 ≤ Offset (p_buffers st) ≤ len (addedResults calls)
    ∧ 0 ≤ ReceiveOffset (p_buffers st) ≤ len (addedReceives calls)
    ∧ p_results st
      = take (Z.to_nat (Offset (p_buffers st))) (addedResults calls)
    ∧ p_receives st
      = take (Z.to_nat (ReceiveOffset (p_buffers st))) (addedReceives calls)
    ∧ (∃ b, GetUnreadResults (p_buffers st)
            = Some (drop (Z.to_nat (Offset (p_buffers st))) (addedResults calls), b)
            ∧ Offset b = len (addedResults calls))
    ∧ (∃ b, GetUnprocessedReceives (p_buffers st)
            = Some (drop (Z.to_nat (ReceiveOffset (p_buffers st)))
                         (addedReceives calls), b)
            ∧ ReceiveOffset b = len (addedReceives calls))
    ∧ clockReads (p_net st)
      = (clockReads n + length (addedReceives calls))%nat
    ∧ LastReceiveTime (p_session st)
      = match length (addedReceives calls) with
        | O => LastReceiveTime s
        | S k => Now env (clockReads n + k)
        end.
Proof.
  assert (Hget : ∀ b,
    0 ≤ Offset b ≤ len (Results b) →
    ∃ b', GetUnreadResults b = Some (drop (Z.to_nat (Offset b)) (Results b), b')
          ∧ Offset b' = len (Results b) ∧ Results b' = Results b
          ∧ Receives b' = Receives b ∧ ReceiveOffset b' = ReceiveOffset b).
  { intros b Hb. unfold GetUnreadResults. case_decide as Hfull.
    - exists b. rewrite drop_ge by (unfold len in *; lia).
      repeat split; try done. unfold len in *. lia.
    - rewrite decide_False by lia. eexists. split; [reflexivity|]. done. }
  assert (Hget' : ∀ b,
    0 ≤ ReceiveOffset b ≤ len (Receives b) →
    ∃ b', GetUnprocessedReceives b
          = Some (drop (Z.to_nat (ReceiveOffset b)) (Receives b), b')
          ∧ ReceiveOffset b' = len (Receives b) ∧ Results b' = Results b
          ∧ Receives b' = Receives b ∧ Offset b' = Offset b).
  { intros b Hb. unfold GetUnprocessedReceives. case_decide as Hfull.
    - exists b. rewrite drop_ge by (unfold len in *; lia).
      repeat split; try done. unfold len in *. lia.
    - rewrite decide_False by lia. eexists. split; [reflexivity|]. done. }
  assert (Hinv : ∃ st, pollRun env s n calls = Some st
    ∧ Results (p_buffers st) = addedResults calls
    ∧ Receives (p_buffers st) = addedReceives calls
    ∧ 0 ≤ Offset (p_buffers st) ≤ len (addedResults calls)
    ∧ 0 ≤ ReceiveOffset (p_buffers st) ≤ len (addedReceives calls)
    ∧ p_results st
      = take (Z.to_nat (Offset (p_buffers st))) (addedResults calls)
    ∧ p_receives st
      = take (Z.to_nat (ReceiveOffset (p_buffers st))) (addedReceives calls)
    ∧ clockReads (p_net st)
      = (clockReads n + length (addedReceives calls))%nat
    ∧ LastReceiveTime (p_session st)
      = match length (addedReceives calls) with
        | O => LastReceiveTime s
        | S k => Now env (clockReads n + k)
        end).
  { induction calls as [|c calls IH] using rev_ind.
    - eexists. split; [reflexivity|]. simpl. unfold len; simpl.
      repeat split; try done; lia.
    - destruct IH as (st & Hrun & Hres & Hrec & Ho & Hro & Hpr & Hpc & Hclk & Hlrt).
      rewrite pollRun_snoc, Hrun, addedResults_snoc, addedReceives_snoc.
      destruct c as [r|r| |]; simpl; rewrite ?app_nil_r.
      + eexists. split; [reflexivity|]. simpl.
        rewrite Hres. unfold len in *. rewrite length_app; simpl.
        repeat split; try done; try lia.
        rewrite take_app_le by lia. done.
      + eexists. split; [reflexivity|]. simpl.
        rewrite Hrec. unfold len in *. rewrite length_app; simpl.
        repeat split; try done; try lia.
        * rewrite take_app_le by lia. done.
        * rewrite Nat.add_1_r. simpl. by rewrite Hclk.
      + destruct (Hget (p_buffers st)) as (b' & Hg & Hob & Hrb & Hcb & Hrob);
          [by rewrite Hres|].
        rewrite Hg. eexists. split; [reflexivity|]. simpl.
        rewrite Hob, Hrb, Hcb, Hrob, Hres. unfold len in *.
        repeat split; try done; try lia.
        rewrite Hpr, Nat2Z.id, firstn_all. by rewrite take_drop.
      + destruct (Hget' (p_buffers st)) as (b' & Hg & Hob & Hrb & Hcb & Hrob);
          [by rewrite Hrec|].
        rewrite Hg. eexists. split; [reflexivity|]. simpl.
        rewrite Hob, Hrb, Hcb, Hrob, Hrec. unfold len in *.
        repeat split; try done; try lia.
        rewrite Hpc, Nat2Z.id, firstn_all. by rewrite take_drop. }
  destruct Hinv as (st & Hrun & Hres & Hrec & Ho & Hro & Hpr & Hpc & Hclk & Hlrt).
  exists st. repeat split; try done; try apply Ho; try apply Hro.
  - destruct (Hget (p_buffers st)) as (b' & Hg & Hob & _); [by rewrite Hres|].
    exists b'. by rewrite Hg, Hob, Hres.
  - destruct (Hget' (p_buffers st)) as (b' & Hg & Hob & _); [by rewrite Hrec|].
    exists b'. by rewrite Hg, Hob, Hrec.
Qed.

End Polling.

Section ReaderFrame.
Import Session.
Context (json : Json).

Lemma same_core_refl s : same_core s s.
Proof. by repeat split. Qed.

Lemma same_core_trans s1 s2 s3 :
  same_core s1 s2 → same_core s2 s3 → same_core s1 s3.
Proof.
  intros (?&?&?&?&?) (?&?&?&?&?). repeat split; congruence.
Qed.

Lemma onTools_core mcpName real tools data s :
  same_core s (onTools json mcpName real tools data s).1
  ∧ mcpMessageUrl (onTools json mcpName real tools data s).1 = mcpMessageUrl s
  ∧ messages (onTools json mcpName real tools data s).1 = messages s.
Proof.
  unfold onTools. destruct (fillTools json mcpName tools ∅) as [m ok].
  destruct ok; simpl; [|by repeat split].
  case_decide; simpl; by repeat split.
Qed.

Lemma SendEvent_frame ev s :
  same_core s (SendEvent ev s)
  ∧ mcpMessageUrl (SendEvent ev s) = mcpMessageUrl s
  ∧ messageIds (SendEvent ev s) = messageIds s
  ∧ messages (SendEvent ev s) = messages s
  ∧ eventChan s `prefix_of` eventChan (SendEvent ev s)
  ∧ (length (eventChan (SendEvent ev s)) ≤ S (length (eventChan s)))%nat
  ∧ ((length (eventChan s) ≤ eventChanCap)%nat →
     (length (eventChan (SendEvent ev s)) ≤ eventChanCap)%nat).
Proof.
  unfold SendEvent. case_decide as Hroom; simpl.
  - repeat split; try done.
    + by apply prefix_app_r.
    + rewrite length_app; simpl. lia.
    + intros _. rewrite length_app; simpl. lia.
  - repeat split; try done. lia.
Qed.

Lemma reads_refl mcpName s : reads mcpName s s.
Proof. split; done. Qed.

Lemma reads_trans mcpName s1 s2 s3 :
  reads mcpName s1 s2 → reads mcpName s2 s3 → reads mcpName s1 s3.
Proof.
  intros [Hc1 Hh1 Hp1 Hcap1 Hi1 Ho1 Hf1 Hs1] [Hc2 Hh2 Hp2 Hcap2 Hi2 Ho2 Hf2 Hs2].
  split.
  - by eapply same_core_trans.
  - congruence.
  - by etrans.
  - auto.
  - by etrans.
  - intros b Hb. rewrite Ho2, Ho1; done.
  - intros url Hu Hne. apply Hf2; [|done]. by apply Hf1.
  - lia.
Qed.

(** One [data: ] line. *)
Lemma onData_reads mcpName scheme host ev data s :
  reads mcpName s (onData json mcpName scheme host ev data s).
Proof.
  unfold onData.
  set (s0 := if decide _ then _ else s).
  assert (H0 : reads mcpName s s0).
  { unfold s0. case_decide as Hend; [|apply reads_refl].
    destruct Hend as [_ Hempty]. split; simpl; try done.
    - intros b Hb. by rewrite lookup_insert_ne.
    - intros url Hurl Hne. rewrite Hurl in Hempty. simpl in Hempty. done.
    - destruct (mcpMessageUrl s !! mcpName) as [u|] eqn:Hu.
      + rewrite map_size_insert_Some; [lia | by rewrite Hu].
      + rewrite map_size_insert_None by done. lia. }
  apply (reads_trans _ _ _ _ H0). clearbody s0. clear H0 s.
  destruct (gjson_id json data) as [messageId|]; [|apply reads_refl].
  unfold getRealMessageId.
  destruct (messageIds s0 !! messageId) as [realMessage|] eqn:Hid;
    [|apply reads_refl].
  set (d1 := Replace1 data _ _).
  assert (H1 : reads mcpName s0 (removeMessageId messageId s0)).
  { split; simpl; try done. apply delete_subseteq. }
  apply (reads_trans _ _ _ _ H1).
  set (s1 := removeMessageId messageId s0). clearbody s1. clear H1 Hid s0.
  assert (H2 : ∀ s2 d2,
    reads mcpName s1 s2 →
    reads mcpName s1 (if decide (ev ≠ "endpoint")
                      then SendEvent (mkMsg ev d2) s2 else s2)).
  { intros s2 d2 H. case_decide; [|done].
    apply (reads_trans _ _ _ _ H).
    destruct (SendEvent_frame (mkMsg ev d2) s2) as (Hc & Hu & Hi & Hh & Hp & _ & Hcap).
    split; try done.
    - by rewrite Hi.
    - intros b Hb. by rewrite Hu.
    - intros url Hurl Hne. by rewrite Hu.
    - by rewrite Hu. }
  destruct (decide (0 < length (gjson_result_tools json d1))%nat).
  - pose proof (onTools_frame json mcpName realMessage
                  (gjson_result_tools json d1) d1 s1) as (He & Hm & _).
    pose proof (onTools_core mcpName realMessage
                  (gjson_result_tools json d1) d1 s1) as (Hc & Hu & Hh).
    destruct (onTools json mcpName realMessage _ d1 s1) as [s2 d2].
    simpl in *. apply H2. split; try done.
    + by rewrite He.
    + rewrite He. lia.
    + by rewrite Hm.
    + intros b Hb. by rewrite Hu.
    + intros url Hurl Hne. by rewrite Hu.
    + by rewrite Hu.
  - destruct (gjson_serverInfo_name json d1); apply H2, reads_refl.
Qed.

Lemma onLine_reads mcpName scheme host st line :
  reads mcpName st.2 (onLine json mcpName scheme host st line).2.
Proof.
  unfold onLine. case_decide; [apply reads_refl|].
  destruct (HasPrefix line "event: "); [apply reads_refl|].
  destruct (HasPrefix line "data: "); [|apply reads_refl].
  apply onData_reads.
Qed.

Lemma readLoop_reads mcpName scheme host lines st :
  reads mcpName st.2 (readLoop json mcpName scheme host lines st).2.
Proof.
  revert st. induction lines as [|line lines IH]; intros st; simpl.
  - destruct (doneChan st.2); apply reads_refl.
  - destruct (doneChan st.2); try apply reads_refl.
    all: eapply reads_trans; [apply onLine_reads | apply IH].
Qed.


(** X18.  A reader goroutine run to its end decrements the reader count
    once, and removes the connection of its backend if the GET had
    succeeded.  Whatever it read, it leaves the id, the last receive
    time, the done channel and the message history as they were; it only
    appends to the event channel and never fills it beyond its capacity
    of 100; it removes gateway ids and adds none; it touches no other
    backend's message URL and does not replace a non-empty message URL
    of its own backend (the first endpoint stays); and the number of
    known message URLs does not go down. *)
Theorem reader_run mcpName sseUrl resp s :
  let s' := reader json mcpName sseUrl resp s in
  sseCount s' = wrap32 (sseCount s - 1)
  ∧ sseConns s' = match resp with
                  | None => sseConns s
                  | Some _ => delete mcpName (sseConns s)
                  end
  ∧ Id s' = Id s ∧ LastReceiveTime s' = LastReceiveTime s
  ∧ doneChan s' = doneChan s ∧ messages s' = messages s
  ∧ eventChan s `prefix_of` eventChan s'
  ∧ ((length (eventChan s) ≤ eventChanCap)%nat →
     (length (eventChan s') ≤ eventChanCap)%nat)
  ∧ messageIds s' ⊆ messageIds s
  ∧ (∀ b, b ≠ mcpName → mcpMessageUrl s' !! b = mcpMessageUrl s !! b)
  ∧ (∀ url, mcpMessageUrl s !! mcpName = Some url → url ≠ "" →
            mcpMessageUrl s' !! mcpName = Some url)
  ∧ (size (mcpMessageUrl s) ≤ size (mcpMessageUrl s'))%nat.
Proof.
  unfold reader. destruct resp as [[[scheme host] lines]|].
  - pose proof (readLoop_reads mcpName scheme host lines
                  ("", readerConnected mcpName sseUrl s))
      as [(Hid & Hlrt & Hdone & Hconns & Hcount) Hh Hp Hcap Hi Ho Hf Hs].
    destruct (readLoop json mcpName scheme host lines _) as [ev s1].
    simpl in *.
    repeat split; try done.
    + by rewrite Hcount.
    + rewrite Hconns. apply delete_insert_eq.
  - simpl. repeat split; done.
Qed.

(** X19.  When a reader leaves a session that was ready, the session
    is not ready, and it stays so whatever lines the remaining readers
    read (the count has gone down by one, the known message URLs never
    get fewer).  SendMessage on it, when nothing else happens during its
    waits, fails (service not ready, or the decoding error), posts
    nothing and leaves the session as it is. *)
Theorem reader_exit_unready env mcpName s :
  IsReady s = true → sseCount s < 2 ^ 31 →
  (∀ b scheme host lines ev,
     IsReady (readLoop json b scheme host lines (ev, readerExit mcpName s)).2
     = false)
  ∧ ∀ content n,
      let r := SendMessage json env (λ s, s) content (readerExit mcpName s) n in
      is_Some r.1.1 ∧ posts r.2 = posts n ∧ r.1.2 = readerExit mcpName s.
Proof.
  intros Hready Hint. apply bool_decide_eq_true in Hready.
  assert (Hexit : sseCount (readerExit mcpName s) = sseCount s - 1
                  ∧ mcpMessageUrl (readerExit mcpName s) = mcpMessageUrl s).
  { unfold readerExit; simpl. split; [|done]. apply wrap32_id. lia. }
  destruct Hexit as [Hcount Hurls].
  assert (Hnot : ∀ b scheme host lines ev,
    IsReady (readLoop json b scheme host lines (ev, readerExit mcpName s)).2
    = false).
  { intros b scheme host lines ev.
    pose proof (readLoop_reads b scheme host lines (ev, readerExit mcpName s))
      as [(_ & _ & _ & _ & Hc) _ _ _ _ _ _ Hsize].
    apply bool_decide_eq_false. cbn [snd] in *. rewrite Hc, Hcount.
    rewrite Hurls in Hsize. lia. }
  split; [done|].
  intros content n r. unfold r, SendMessage.
  destruct (Unmarshal_request json content) as [request|]; [|by eauto].
  assert (H0 : IsReady (readerExit mcpName s) = false).
  { specialize (Hnot "" "" "" [] ""). simpl in Hnot.
    by destruct (doneChan _) in Hnot. }
  simpl. rewrite !H0. simpl. by eauto.
Qed.

End ReaderFrame.

Section Tools.
Import Session.
Context (json : Json) (env : Oracle).

Lemma copyTools_id tools : copyTools tools = tools.
Proof.
  unfold copyTools.
  rewrite (foldl_insert_map_to_list (λ x, x) tools). apply map_fmap_id.
Qed.

(** Every entry [fillTools] writes is keyed by the backend's own name for
    the tool and carries the prefixed name. *)
Lemma fillTools_names mcpName tools m0 :
  (∀ k t, m0 !! k = Some t →
          tool_Name t = mcpName +:+ "_" +:+ k ∧ tool_RealName t = k) →
  ∀ k t, (fillTools json mcpName tools m0).1 !! k = Some t →
         tool_Name t = mcpName +:+ "_" +:+ k ∧ tool_RealName t = k.
Proof.
  revert m0. induction tools as [|toolJ tools IH]; intros m0 H0; simpl; [done|].
  destruct (Unmarshal_tool json toolJ) as [tool|]; [|done].
  apply IH. intros k t Hk.
  destruct (decide (k = tool_Name tool)) as [->|Hne].
  - rewrite lookup_insert_eq in Hk. by injection Hk as <-.
  - rewrite lookup_insert_ne in Hk by done. by apply H0.
Qed.

(** When every tool decodes, each of them is in the map. *)
Lemma fillTools_complete mcpName tools m0 :
  Forall (λ raw, is_Some (Unmarshal_tool json raw)) tools →
  (fillTools json mcpName tools m0).2 = true
  ∧ ∀ k, is_Some ((fillTools json mcpName tools m0).1 !! k)
         ↔ is_Some (m0 !! k)
           ∨ ∃ raw t, raw ∈ tools ∧ Unmarshal_tool json raw = Some t
                      ∧ tool_Name t = k.
Proof.
  revert m0. induction tools as [|toolJ tools IH]; intros m0 Hall; simpl.
  - split; [done|]. intros k. split; [by left|].
    intros [H|(raw & t & Hin & _)]; [done | by apply elem_of_nil in Hin].
  - apply Forall_cons in Hall as [[tool Htool] Hall]. rewrite Htool.
    destruct (IH (<[tool_Name tool :=
                     mkTool (mcpName +:+ "_" +:+ tool_Name tool) (tool_Name tool)
                            (tool_Description tool) (tool_InputSchema tool)]> m0)
                 Hall) as [Hok Hkeys].
    split; [done|]. intros k. rewrite Hkeys. split.
    + intros [Hin|(raw & t & Hin & Hraw & Hk)].
      * destruct (decide (k = tool_Name tool)) as [->|Hne].
        -- right. exists toolJ, tool. split; [by left | done].
        -- left. by rewrite lookup_insert_ne in Hin.
      * right. exists raw, t. split; [by right | done].
    + intros [Hin|(raw & t & Hin & Hraw & Hk)].
      * left. destruct (decide (k = tool_Name tool)) as [->|Hne].
        -- by rewrite lookup_insert_eq.
        -- by rewrite lookup_insert_ne.
      * apply elem_of_cons in Hin as [->|Hin].
        -- left. rewrite Htool in Hraw. injection Hraw as <-. subst k.
           by rewrite lookup_insert_eq.
        -- right. by exists raw, t.
Qed.

Lemma onTools_map mcpName real tools data s :
  mcpToolsMap (onTools json mcpName real tools data s).1 !! mcpName
  = Some (fillTools json mcpName tools ∅).1.
Proof.
  unfold onTools. destruct (fillTools json mcpName tools ∅) as [m ok].
  destruct ok; simpl; [case_decide|]; simpl; apply lookup_insert_eq.
Qed.

(** X20.  After the tools reply of backend [mcpName] has been recorded,
    a tool found by GetMcpTool under [toolName] carries [toolName] as its
    real name and [mcpName_toolName] as its advertised name, and
    GetMcpTools returns a copy of the map holding it.  If the backend's
    name is not empty and contains no underscore, a tools/call for the
    advertised name, sent through SendMessage on that session when it is
    ready, goes to [mcpName] alone with the name restored to [toolName],
    even when [toolName] itself contains underscores: exactly one POST,
    to the message URL of [mcpName]; if that URL is not known yet,
    nothing is posted and the call fails.  When every tool of the reply
    decodes, each of them is found under its own name. *)
Theorem advertised_tool_routes_back sleep mcpName real tools data s toolName
    tool content req params n :
  has_char underscore mcpName = false →
  mcpName ≠ "" →
  let s' := (onTools json mcpName real tools data s).1 in
  GetMcpTool mcpName toolName s' = (tool, true) →
  Unmarshal_request json content = Some req →
  req_Method req = "tools/call" →
  req_Params req = AObj params →
  params !! "name" = Some (AStr (tool_Name tool)) →
  IsReady s' = true →
  let req' := mkRequest (req_Jsonrpc req) (req_Id req) (req_Method req)
                        (AObj (<["name" := AStr toolName]> params)) in
  let r := SendMessage json env sleep content s' n in
  tool_RealName tool = toolName
  ∧ tool_Name tool = mcpName +:+ "_" +:+ toolName
  ∧ (∃ all, GetMcpTools mcpName s' = Some all ∧ all !! toolName = Some tool)
  ∧ routeToolsCall req = inr (mcpName, req')
  ∧ (∀ url, mcpMessageUrl s' !! mcpName = Some url →
            ∃ p, posts r.2 = posts n ++ [p] ∧ p.1 = url ∧ carries json req' p)
  ∧ (mcpMessageUrl s' !! mcpName = None →
     posts r.2 = posts n ∧ r.1.1 = Some (ErrNoMessageUrl mcpName))
  ∧ (Forall (λ raw, is_Some (Unmarshal_tool json raw)) tools →
     ∀ raw t, raw ∈ tools → Unmarshal_tool json raw = Some t →
              (GetMcpTool mcpName (tool_Name t) s').2 = true).
Proof.
  intros Hname Hne s' Hget Hreq Hmethod Hparams Hpname Hready req' r.
  pose proof (onTools_map mcpName real tools data s) as Hmap. fold s' in Hmap.
  unfold GetMcpTool in Hget. rewrite Hmap in Hget.
  destruct ((fillTools json mcpName tools ∅).1 !! toolName) as [tool'|] eqn:Htool;
    [|done]. injection Hget as ->.
  destruct (fillTools_names mcpName tools ∅) with (k := toolName) (t := tool)
    as [Hn Hr]; [intros k t Hk; by rewrite lookup_empty in Hk | done |].
  rewrite Hn in Hpname.
  pose proof (SendMessage_single json env sleep content req s' n params
                mcpName toolName Hreq Hready Hmethod Hparams Hpname Hname Hne)
    as Hsend. cbv zeta in Hsend. fold req' r in Hsend.
  split; [done|]. split; [done|]. split; [|split; [|split; [|split]]].
  - exists (fillTools json mcpName tools ∅).1.
    unfold GetMcpTools. rewrite Hmap. by rewrite copyTools_id.
  - by apply routeToolsCall_prefix.
  - intros url Hurl. by rewrite Hurl in Hsend.
  - intros Hurl. by rewrite Hurl in Hsend.
  - intros Hall raw t Hin Hraw. unfold GetMcpTool. rewrite Hmap.
    destruct (fillTools_complete mcpName tools ∅ Hall) as [_ Hkeys].
    destruct (proj2 (Hkeys (tool_Name t))) as [t' Ht'].
    { right. by exists raw, t. }
    by rewrite Ht'.
Qed.

End Tools.

Section Waiting.
Import Session.
Context (json : Json) (env : Oracle).

(** The polling loop skips the sleeps during which the session is not
    ready. *)
Lemma waitReady_iter sleep (k : nat) : ∀ fuel try s,
  (k ≤ fuel)%nat → Z.of_nat k ≤ try + 1 →
  (∀ j, (j < k)%nat → IsReady (Nat.iter j sleep s) = false) →
  waitReady sleep fuel try s
  = waitReady sleep (fuel - k) (try - Z.of_nat k) (Nat.iter k sleep s).
Proof.
  induction k as [|k IH]; intros fuel try s Hfuel Htry Hnot.
  - simpl. by rewrite Nat.sub_0_r, Z.sub_0_r.
  - destruct fuel as [|fuel]; [lia|]. simpl.
    pose proof (Hnot 0%nat ltac:(lia)) as H0. simpl in H0.
    rewrite H0, decide_False by lia.
    rewrite IH.
    + rewrite <- Nat.iter_swap. f_equal. lia.
    + lia.
    + lia.
    + intros j Hj. rewrite Nat.iter_swap.
      change (sleep (Nat.iter j sleep s)) with (Nat.iter (S j) sleep s).
      apply Hnot. lia.
Qed.

(** X21.  SendMessage on a request that decodes waits through at most
    four one-second sleeps.  If the session becomes ready after [k ≤ 4]
    of them, not having been ready before, the call continues exactly
    as a call made on the session as it is after these [k] sleeps; if
    it is still not ready after the fourth, the call returns the
    not-ready error, having posted nothing. *)
Theorem SendMessage_waits sleep content request s n (k : nat) :
  Unmarshal_request json content = Some request →
  (k ≤ 4)%nat →
  (∀ j, (j < k)%nat → IsReady (Nat.iter j sleep s) = false) →
  (IsReady (Nat.iter k sleep s) = true →
   SendMessage json env sleep content s n
   = SendMessage json env sleep content (Nat.iter k sleep s) n)
  ∧ (k = 4%nat → IsReady (Nat.iter k sleep s) = false →
     SendMessage json env sleep content s n
     = (Some ErrNotReady, Nat.iter k sleep s, n)).
Proof.
  intros Hreq Hk Hnot.
  pose proof (waitReady_iter sleep k 4 3 s Hk ltac:(lia) Hnot) as Hw.
  split.
  - intros Hready. unfold SendMessage. rewrite Hreq, Hw.
    by rewrite !(waitReady_ready _ _ _ _ Hready).
  - intros -> Hready. unfold SendMessage. rewrite Hreq, Hw.
    simpl. simpl in Hready. rewrite Hready. simpl. done.
Qed.

End Waiting.

Section Traffic.
Import Session.
Context (json : Json) (env : Oracle).

Lemma AddMessage_core mcpName content msgType s n :
  same_core s (AddMessage env mcpName content msgType s n).1.
Proof. done. Qed.

Lemma sendToMcp_core mcpName request s n :
  same_core s (sendToMcp json env mcpName request s n).1.2.
Proof.
  unfold sendToMcp, generateMessageId, readClock, doPost, AddMessage.
  destruct request as [jsonrpc [id|] method params]; simpl;
    destruct (mcpMessageUrl s !! mcpName) as [url|]; simpl; try done;
    (destruct (Post env _ url _) as [code|]; simpl; [case_decide; simpl|]);
    done.
Qed.

Lemma broadcast_core request l s n :
  same_core s (foldl (broadcastTo json env request) (s, n) l).1.
Proof.
  revert s n. induction l as [|name l IH]; intros s n; [done|].
  change (foldl (broadcastTo json env request) (s, n) (name :: l))
    with (foldl (broadcastTo json env request)
                (broadcastTo json env request (s, n) name) l).
  pose proof (sendToMcp_core name request s n) as Hc.
  assert (Hb : same_core s (broadcastTo json env request (s, n) name).1).
  { unfold broadcastTo; simpl.
    destruct (sendToMcp json env name request s n) as [[err s1] n1]; simpl in *.
    destruct err; [done|]. by case_decide. }
  destruct (broadcastTo json env request (s, n) name) as [s1 n1]; simpl in *.
  eapply same_core_trans; [exact Hb | apply IH].
Qed.

Lemma waitReady_core sleep fuel try s :
  (∀ s0, same_core s0 (sleep s0)) →
  same_core s (waitReady sleep fuel try s).1.
Proof.
  intros Hsleep. revert try s.
  induction fuel as [|fuel IH]; intros try s; simpl.
  - destruct (IsReady s); [done|]. by case_decide.
  - destruct (IsReady s); [done|]. case_decide; [done|].
    eapply same_core_trans; [apply Hsleep | apply IH].
Qed.

Lemma SendMessage_core sleep content s n :
  (∀ s0, same_core s0 (sleep s0)) →
  same_core s (SendMessage json env sleep content s n).1.2.
Proof.
  intros Hsleep. unfold SendMessage.
  destruct (Unmarshal_request json content) as [request|]; [|done].
  pose proof (waitReady_core sleep 4 3 s Hsleep) as Hw.
  destruct (waitReady sleep 4 3 s) as [s1 [|]]; [|done]. simpl in Hw.
  apply (same_core_trans _ _ _ Hw). clear Hw.
  destruct (if decide _ then routeToolsCall request else _)
    as [e|[singleMcp request']]; [done|].
  case_decide.
  - pose proof (broadcast_core request' (map_to_list (mcpMessageUrl s1)).*1 s1 n)
      as Hb.
    destruct (foldl _ _ _) as [s2 n2]. simpl in *. done.
  - pose proof (sendToMcp_core singleMcp request' s1 n) as Hc.
    destruct (sendToMcp json env singleMcp request' s1 n) as [[err s2] n2].
    simpl in *. by destruct err.
Qed.

Lemma forward_core body l s n :
  same_core s (foldl (Router.forwardTo env body) (s, n) l).1.
Proof.
  revert s n. induction l as [|kv l IH]; intros s n; [done|].
  change (foldl (Router.forwardTo env body) (s, n) (kv :: l))
    with (foldl (Router.forwardTo env body)
                (Router.forwardTo env body (s, n) kv) l).
  assert (Hb : same_core s (Router.forwardTo env body (s, n) kv).1).
  { unfold Router.forwardTo, AddMessage, Service.SendMessage, doPost, readClock;
      simpl. destruct (Post env _ _ _) as [code|]; [case_decide|]; done. }
  destruct (Router.forwardTo env body (s, n) kv) as [s1 n1]; simpl in *.
  eapply same_core_trans; [exact Hb | apply IH].
Qed.

(** A session idle for longer than the timeout, at the next tick: no
    tick returns with it still in the map, and when nothing else is due
    the tick returns, having closed and removed it. *)
Lemma gc_expired now m id session l :
  Manager.proxySessions m !! id = Some (Some session) →
  time_Sub now (LastReceiveTime session) > ProxySessionTimeout (Manager.cfg m) →
  l ≡ₚ map_to_list (Manager.proxySessions m) →
  (∀ m' out,
     Manager.gcRange now l (Manager.mkGc m [] false) = Manager.Returned m' out →
     Manager.proxySessions m' !! id = None)
  ∧ ((∀ id' r', id' ≠ id → ¬ Manager.due now m id' r') →
     Manager.gcRange now l (Manager.mkGc m [] false)
     = Manager.Returned
         (Manager.set_proxySessions (delete id (Manager.proxySessions m)) m)
         [Manager.mkRemoval id (Some (Close session).1) (Close session).2]).
Proof.
  intros Hs Hold Hl.
  set (r := Manager.mkRemoval id (Some (Close session).1) (Close session).2).
  assert (Hdue : Manager.due now m id r).
  { exists (Some session). split; [done|].
    unfold Manager.gcRemoval; simpl. by rewrite decide_True. }
  split.
  - intros m' out Hret.
    apply (due_list now m l) in Hdue as [Hin Hid]; [|done].
    rewrite gcRange_due in Hret.
    destruct (omap _ l) as [|a [|b rest]]; [by apply elem_of_nil in Hin | |done].
    apply list_elem_of_singleton in Hin as <-.
    injection Hret as <- _. simpl. apply lookup_delete_eq.
  - intros Hnone. apply (gcRange_one now m l id r Hl Hdue).
    intros id' r' Hdue'. destruct (decide (id' = id)) as [|Hne]; [done|].
    by destruct (Hnone id' r' Hne).
Qed.

(** X22.  Traffic does not postpone the session GC.  Neither
    Session.SendMessage nor the reader loop changes LastReceiveTime.  A
    session whose LastReceiveTime is older than the timeout is due at
    the next GC tick whatever else has happened to it, also when a POST
    /message has just been handled for that very session: no tick
    returns with it still in the map, and when no other entry is due
    the tick returns, having closed and removed it, in whatever order
    the map is visited. *)
Theorem busy_session_collected now m id session :
  Manager.proxySessions m !! id = Some (Some session) →
  time_Sub now (LastReceiveTime session) > ProxySessionTimeout (Manager.cfg m) →
  (∀ sleep content n,
     (∀ s0, same_core s0 (sleep s0)) →
     LastReceiveTime (SendMessage json env sleep content session n).1.2
     = LastReceiveTime session)
  ∧ (∀ mcpName scheme host lines ev,
       LastReceiveTime (readLoop json mcpName scheme host lines (ev, session)).2
       = LastReceiveTime session)
  ∧ (∀ session' l,
       LastReceiveTime session' = LastReceiveTime session →
       l ≡ₚ map_to_list (<[id := Some session']> (Manager.proxySessions m)) →
       (∀ m' out,
          Manager.gcRange now l
            (Manager.mkGc
               (Manager.set_proxySessions
                  (<[id := Some session']> (Manager.proxySessions m)) m)
               [] false)
          = Manager.Returned m' out →
          Manager.proxySessions m' !! id = None)
       ∧ ((∀ id' r', id' ≠ id → ¬ Manager.due now m id' r') →
          Manager.gcRange now l
            (Manager.mkGc
               (Manager.set_proxySessions
                  (<[id := Some session']> (Manager.proxySessions m)) m)
               [] false)
          = Manager.Returned
              (Manager.set_proxySessions (delete id (Manager.proxySessions m)) m)
              [Manager.mkRemoval id (Some (Close session').1)
                                 (Close session').2]))
  ∧ (∀ req n body l,
       Router.sessionId req = id → id ≠ "" → Router.body req = Some body →
       l ≡ₚ map_to_list
              (Manager.proxySessions
                 (Router.handleGlobalMessage env req m n).1.2) →
       (∀ m' out,
          Manager.gcRange now l
            (Manager.mkGc (Router.handleGlobalMessage env req m n).1.2 [] false)
          = Manager.Returned m' out →
          Manager.proxySessions m' !! id = None)
       ∧ ((∀ id' r', id' ≠ id → ¬ Manager.due now m id' r') →
          ∃ r,
            Manager.gcRange now l
              (Manager.mkGc (Router.handleGlobalMessage env req m n).1.2
                            [] false)
            = Manager.Returned
                (Manager.set_proxySessions
                   (delete id (Manager.proxySessions m)) m)
                [r]
            ∧ Manager.rm_id r = id)).
Proof.
  intros Hsession Hold.
  assert (Hgc : ∀ session' l,
    LastReceiveTime session' = LastReceiveTime session →
    l ≡ₚ map_to_list (<[id := Some session']> (Manager.proxySessions m)) →
    (∀ m' out,
       Manager.gcRange now l
         (Manager.mkGc
            (Manager.set_proxySessions
               (<[id := Some session']> (Manager.proxySessions m)) m)
            [] false)
       = Manager.Returned m' out →
       Manager.proxySessions m' !! id = None)
    ∧ ((∀ id' r', id' ≠ id → ¬ Manager.due now m id' r') →
       Manager.gcRange now l
         (Manager.mkGc
            (Manager.set_proxySessions
               (<[id := Some session']> (Manager.proxySessions m)) m)
            [] false)
       = Manager.Returned
           (Manager.set_proxySessions (delete id (Manager.proxySessions m)) m)
           [Manager.mkRemoval id (Some (Close session').1) (Close session').2])).
  { intros session' l Hlrt Hl.
    set (m1 := Manager.set_proxySessions
                 (<[id := Some session']> (Manager.proxySessions m)) m).
    destruct (gc_expired now m1 id session' l) as [Hret Hone].
    - apply lookup_insert_eq.
    - by rewrite Hlrt.
    - done.
    - split; [done|]. intros Hnone. rewrite Hone.
      + unfold m1; simpl. by rewrite delete_insert_eq.
      + intros id' r' Hne (v & Hv & Hr). apply (Hnone id' r' Hne).
        exists v. split; [|done].
        unfold m1 in Hv; simpl in Hv. by rewrite lookup_insert_ne in Hv. }
  split; [|split; [|split; [done|]]].
  - intros sleep content n Hsleep.
    by destruct (SendMessage_core sleep content session n Hsleep) as (_ & ? & _).
  - intros mcpName scheme host lines ev.
    by destruct (readLoop_reads json mcpName scheme host lines (ev, session))
      as [(_ & ? & _) _ _ _ _ _ _ _].
  - intros req n body l Hid Hne Hbody. subst id.
    unfold Router.handleGlobalMessage.
    rewrite decide_False by done.
    unfold Manager.GetProxySession. rewrite Hsession, Hbody.
    pose proof (forward_core body (map_to_list (Manager.servers m)) session n)
      as (_ & Hlrt & _).
    destruct (foldl _ _ _) as [s1 n1]. simpl in *. intros Hl.
    destruct (Hgc s1 l Hlrt Hl) as [Hret Hone].
    split; [done|]. intros Hnone. eexists. split; [by apply Hone | done].
Qed.

End Traffic.

(** ** The two senders *)

Section StatusCodes.
Context (json : Json) (env : Oracle).

(** X23.  The two senders disagree on which answers count as success.
    With a backend that answers every POST with the same status code,
    Session.sendToMcp succeeds exactly for the codes 200 to 299, while
    McpService.SendMessage succeeds for 200 only; both have made their
    POST either way. *)
Theorem status_code_acceptance message request mcpName url svc s n code :
  Session.mcpMessageUrl s !! mcpName = Some url →
  (∀ k u b, Post env k u b = Some code) →
  let viaSession := Session.sendToMcp json env mcpName request s n in
  let viaService := Service.SendMessage env message svc n in
  (viaSession.1.1 = None ↔ 200 ≤ code ≤ 299)
  ∧ (viaService.1 = None ↔ code = 200)
  ∧ length (posts viaSession.2) = S (length (posts n))
  ∧ posts viaService.2 = posts n ++ [(Service.GetMessageUrl svc, message)].
Proof.
  intros Hurl Hpost viaSession viaService.
  unfold viaSession, viaService, Session.sendToMcp, Service.SendMessage,
    Session.generateMessageId, Session.AddMessage, readClock, doPost.
  destruct request as [jsonrpc [id|] method params]; simpl;
    rewrite Hurl; simpl; rewrite !Hpost;
    repeat case_decide; simpl; rewrite ?length_app; simpl;
    repeat split; try done; try lia.
Qed.


(** A line that does not carry the id [g] leaves its entry alone. *)
Lemma onData_keeps_id mcpName scheme host ev data g s :
  gjson_id json data ≠ Some g →
  Session.messageIds (Session.onData json mcpName scheme host ev data s) !! g
  = Session.messageIds s !! g.
Proof.
  intros Hne. unfold Session.onData.
  destruct (endpoint_frame mcpName scheme host ev data s) as (_ & Hm & _).
  set (s0 := if decide _ then _ else s) in *. rewrite <- Hm. clearbody s0.
  destruct (gjson_id json data) as [messageId|]; [|done].
  unfold Session.getRealMessageId.
  destruct (Session.messageIds s0 !! messageId) as [realMessage|]; [|done].
  set (d1 := Replace1 data _ _).
  assert (Hdel : Session.messageIds (Session.removeMessageId messageId s0) !! g
                 = Session.messageIds s0 !! g).
  { simpl. apply lookup_delete_ne. congruence. }
  rewrite <- Hdel. set (s1 := Session.removeMessageId messageId s0). clearbody s1.
  assert (Hsend : ∀ s2 d2,
    Session.messageIds (if decide (ev ≠ "endpoint")
                        then Session.SendEvent (Session.mkMsg ev d2) s2 else s2)
    = Session.messageIds s2).
  { intros s2 d2. case_decide; [|done]. unfold Session.SendEvent.
    by case_decide. }
  destruct (decide (0 < length (gjson_result_tools json d1))%nat).
  - pose proof (onTools_frame json mcpName realMessage
                  (gjson_result_tools json d1) d1 s1) as (_ & Hm1 & _).
    destruct (Session.onTools json mcpName realMessage _ d1 s1) as [s2 d2].
    simpl in Hm1. by rewrite Hsend, Hm1.
  - destruct (gjson_serverInfo_name json d1); by rewrite Hsend.
Qed.

Lemma readLoop_keeps_id mcpName scheme host lines g st :
  Forall (λ line, gjson_id json (TrimPrefix line "data: ") ≠ Some g) lines →
  Session.messageIds (Session.readLoop json mcpName scheme host lines st).2 !! g
  = Session.messageIds st.2 !! g.
Proof.
  revert st. induction lines as [|line lines IH]; intros st Hall; simpl.
  - by destruct (Session.doneChan st.2).
  - apply Forall_cons in Hall as [Hline Hall].
    assert (Hstep : Session.messageIds
                      (Session.onLine json mcpName scheme host st line).2 !! g
                    = Session.messageIds st.2 !! g).
    { unfold Session.onLine. case_decide; [done|].
      destruct (HasPrefix line "event: "); [done|].
      destruct (HasPrefix line "data: "); [|done].
      by apply onData_keeps_id. }
    destruct (Session.doneChan st.2); try done; by rewrite IH.
Qed.

(** X24.  sendToMcp on a request with an id records the gateway id
    (the millisecond of the clock reading) for the original id whatever
    the outcome.  On an error nothing is added to the history; on
    success one "send" entry holding the request as sent, under the
    gateway id.  Without a message URL for the backend the error names
    the backend and nothing is posted; with one, the request is posted
    there under the gateway id, also when the answer is then an error.
    The recorded id stays through any stream of lines that do not carry
    it: an id recorded for a send that failed is not cleaned up. *)
Theorem sendToMcp_outcomes mcpName request orig s n :
  req_Id request = Some orig →
  let g := UnixMilli (Now env (clockReads n)) in
  let sent := request_ToJson json (Session.with_id request (Some g)) in
  let r := Session.sendToMcp json env mcpName request s n in
  Session.messageIds r.1.2 = <[g := orig]> (Session.messageIds s)
  ∧ (is_Some r.1.1 → Session.messages r.1.2 = Session.messages s)
  ∧ (r.1.1 = None →
     Session.messages r.1.2
     = Session.messages s
       ++ [Session.mkMessage mcpName sent "send" (Now env (S (clockReads n)))])
  ∧ (Session.mcpMessageUrl s !! mcpName = None →
     r.1.1 = Some (Session.ErrNoMessageUrl mcpName) ∧ posts r.2 = posts n)
  ∧ (∀ url, Session.mcpMessageUrl s !! mcpName = Some url →
            posts r.2 = posts n ++ [(url, sent)])
  ∧ (∀ b scheme host lines ev,
       Forall (λ line, gjson_id json (TrimPrefix line "data: ") ≠ Some g) lines →
       Session.messageIds
         (Session.readLoop json b scheme host lines (ev, r.1.2)).2 !! g
       = Some orig).
Proof.
  intros Hid g sent r.
  assert (Hids : Session.messageIds r.1.2 = <[g := orig]> (Session.messageIds s)).
  { pose proof (sendToMcp_spec json env mcpName request s n) as (_ & _ & _ & Hm & _).
    unfold r. by rewrite Hm, Hid. }
  split; [done|].
  split; [|split; [|split; [|split]]].
  5: { intros b scheme host lines ev Hall.
       rewrite readLoop_keeps_id by done. simpl. rewrite Hids.
       apply lookup_insert_eq. }
  all: clear Hids; unfold r, sent, g, Session.sendToMcp,
         Session.generateMessageId, Session.AddMessage, Session.with_id,
         readClock, doPost;
       destruct request as [jsonrpc id method params]; simpl in Hid; subst id;
       simpl;
       destruct (Session.mcpMessageUrl s !! mcpName) as [url|]; simpl;
       [destruct (Post env _ url _) as [code|]; simpl; [case_decide; simpl|]|].
  all: try done.
  all: try (intros [? ?]; done).
  all: try (by intros url' [= <-]).
Qed.

End StatusCodes.

(** ** The child's output, remote backends, stopping in place *)

Section WriteFacts.
Import Service.

Lemma prefix_append sub b : String.prefix sub (sub +:+ b) = true.
Proof.
  induction sub as [|c sub IH]; simpl; [by destruct b|].
  by destruct (ascii_dec c c).
Qed.

(** A string contains what occurs in it. *)
Lemma Contains_occurs a sub b : Contains (a +:+ sub +:+ b) sub = true.
Proof.
  induction a as [|c a IH].
  - assert (H : ∀ s, String.prefix sub s = true → Contains s sub = true).
    { intros s Hs. destruct s; cbn [Contains]; by rewrite Hs. }
    apply H. change ("" +:+ sub +:+ b) with (sub +:+ b). apply prefix_append.
  - assert (Hc : ∀ s, Contains s sub = true → Contains (String c s) sub = true).
    { intros s Hs. cbn [Contains]. by destruct (String.prefix sub (String c s)). }
    apply Hc, IH.
Qed.

(** X25.  Write on a process-backed backend reports the whole chunk as
    written, whether or not a log file is open, and hands the chunk to
    the log file if there is one.  A chunk without the text "exited"
    leaves the backend and the world as they are; a chunk containing it
    calls Stop, which on a backend that is up kills the process, frees
    the port and leaves the status "stopped". *)
Theorem Write_stops_on_exited p s w :
  ¬ (Command (Config_ s) = "" ∧ URL (Config_ s) ≠ "") →
  let r := Write p s w in
  r.1.1.1 = Z.of_nat (String.length p)
  ∧ r.1.1.2 = (λ f, (f, p)) <$> LogFile s
  ∧ (Contains p "exited" = false → r.1.2 = s ∧ r.2 = w)
  ∧ (Contains p "exited" = true → r.1.2 = (Stop s w).1 ∧ r.2 = (Stop s w).2)
  ∧ (∀ a b, p = a +:+ "exited" +:+ b → up s w → chans_ok w →
       Status r.1.2 = "stopped" ∧ Cmd_ r.1.2 = None ∧ Port r.1.2 = 0
       ∧ length (kills r.2) = S (length (kills w))
       ∧ (Port s ≠ 0 → PortManager.used (ports r.2) (Port s) = false)).
Proof.
  intros Hl r. unfold r, Write. rewrite (IsSSE_local _ Hl).
  destruct (Contains p "exited") eqn:Hc.
  - destruct (Stop s w) as [s1 w1] eqn:Hstop. simpl.
    split; [done|]. split; [by destruct (LogFile s)|].
    split; [done|]. split; [done|].
    intros a b -> Hup Hch.
    destruct Hup as [_ Hs [cmd Hcmd] (ch & Hsig & _)].
    pose proof (Stop_running s w cmd Hl Hs Hcmd) as H. rewrite Hstop in H.
    destruct H as (H1 & H2 & H3 & _ & _ & _ & _ & H8 & _).
    pose proof (Stop_up s w cmd ch Hl Hs Hcmd Hsig) as Hw. rewrite Hstop in Hw.
    injection Hw as _ ->.
    repeat split; try done.
    unfold kills; simpl. rewrite !omap_app; simpl.
    destruct (LogFile s); simpl; rewrite length_app; simpl; lia.
  - simpl. split; [done|]. split; [by destruct (LogFile s)|].
    split; [done|]. split; [done|].
    intros a b -> _ _. by rewrite Contains_occurs in Hc.
Qed.

End WriteFacts.

Section RemoteBackends.
Import Service.

(** X27.  On a URL-only backend every operation that asks IsSSE sets the
    status to "running" and does nothing else: Start returns the
    not-a-command error, Restart and monitorProcess return at once, Write
    reports 0 bytes and writes nothing.  From then on GetUrl is the
    configured URL and the SSE and message URLs are that URL followed by
    "/sse" and "/message"; before any such operation, while the status is
    not "running" (as NewMcpService leaves it), all three are empty. *)
Theorem remote_backend_always_running os p waits s w :
  Command (Config_ s) = "" → URL (Config_ s) ≠ "" →
  let s' := set_Status "running" s in
  Start os s w = (Some (ErrNotCommand (Name s)), s', w)
  ∧ Restart os s w = (s', w)
  ∧ monitorProcess os waits s w = (Terminated, s', w)
  ∧ Write p s w = (0, None, s', w)
  ∧ GetUrl s' = URL (Config_ s)
  ∧ GetSSEUrl s' = URL (Config_ s) +:+ "/sse"
  ∧ GetMessageUrl s' = URL (Config_ s) +:+ "/message"
  ∧ (Status s ≠ "running" →
     GetUrl s = "" ∧ GetSSEUrl s = "" ∧ GetMessageUrl s = "").
Proof.
  intros Hc Hu s'.
  split; [unfold Start; by rewrite IsSSE_remote|].
  split; [unfold Restart; by rewrite IsSSE_remote|].
  split; [unfold monitorProcess; by rewrite IsSSE_remote|].
  split; [unfold Write; by rewrite IsSSE_remote|].
  assert (Hurl : GetUrl s' = URL (Config_ s)).
  { unfold GetUrl, GetStatus; simpl. by rewrite decide_True. }
  split; [done|].
  split; [unfold GetSSEUrl, GetStatus; simpl; by rewrite Hurl|].
  split; [unfold GetMessageUrl, GetStatus; simpl; by rewrite Hurl|].
  intros Hs. unfold GetUrl, GetSSEUrl, GetMessageUrl, GetStatus.
  by rewrite !decide_True.
Qed.

End RemoteBackends.

Section StopServerFacts.
Import Manager.

(** X26.  StopServer on a registered backend that is up stops the
    instance in place: the name stays registered, now with the status
    "stopped", the same configuration and empty URLs; its process is
    killed and its port, if any, freed; the other backends and the
    sessions are untouched.  For a name that is not registered StopServer
    changes nothing. *)
Theorem StopServer_stops_in_place name m svc :
  servers m !! name = Some svc →
  Service.up svc (world m) → Service.chans_ok (world m) →
  let m' := StopServer name m in
  (∃ svc', getMcpService name m' = inr svc'
           ∧ Service.Status svc' = "stopped"
           ∧ Service.Config_ svc' = Service.Config_ svc
           ∧ Service.GetUrl svc' = "" ∧ Service.GetSSEUrl svc' = ""
           ∧ Service.GetMessageUrl svc' = "")
  ∧ (∀ other, other ≠ name → servers m' !! other = servers m !! other)
  ∧ proxySessions m' = proxySessions m
  ∧ (Service.Port svc ≠ 0 →
     PortManager.used (Service.ports (world m')) (Service.Port svc) = false)
  ∧ length (Service.kills (world m')) = S (length (Service.kills (world m)))
  ∧ (∀ unknown, servers m !! unknown = None → StopServer unknown m = m).
Proof.
  intros Hsvc Hup Hch m'.
  destruct Hup as [Hl Hs [cmd Hcmd] (ch & Hsig & Hlt & Hopen)].
  pose proof (Stop_up svc (world m) cmd ch Hl Hs Hcmd Hsig) as Hstop.
  assert (Hm' : m' = set_servers (<[name := (Service.Stop svc (world m)).1]>
                                    (servers m))
                                 (Service.Stop svc (world m)).2 m).
  { unfold m', StopServer, getMcpService. rewrite Hsvc.
    by destruct (Service.Stop svc (world m)). }
  rewrite Hm', Hstop. cbn [fst snd].
  split; [|split; [|split; [|split; [|split]]]].
  - eexists. unfold getMcpService. cbn [servers set_servers].
    rewrite lookup_insert_eq. split; [reflexivity|].
    unfold Service.GetUrl, Service.GetSSEUrl, Service.GetMessageUrl,
      Service.GetStatus. simpl. done.
  - intros other Hne. simpl. by rewrite lookup_insert_ne.
  - done.
  - intros Hp. simpl. rewrite decide_True by done. apply used_released.
  - unfold Service.kills. simpl. rewrite !omap_app. simpl.
    destruct (Service.LogFile svc); simpl; rewrite length_app; simpl; lia.
  - intros unknown Hnone. unfold StopServer, getMcpService. by rewrite Hnone.
Qed.

End StopServerFacts.

(** ** A broadcast and its answers *)

Section Broadcast.
Import Session.
Context (json : Json) (env : Oracle).

Lemma sendToMcp_ok name req orig url s n :
  req_Id req = Some orig →
  mcpMessageUrl s !! name = Some url →
  (∀ k u b, Post env k u b = Some 200) →
  ∃ s1 n1,
    sendToMcp json env name req s n = (None, s1, n1)
    ∧ messageIds s1 = <[UnixMilli (Now env (clockReads n)) := orig]> (messageIds s)
    ∧ clockReads n1 = S (S (clockReads n))
    ∧ eventChan s1 = eventChan s
    ∧ mcpMessageUrl s1 = mcpMessageUrl s.
Proof.
  intros Hid Hurl Hpost.
  unfold sendToMcp, generateMessageId, AddMessage, readClock, doPost.
  destruct req as [jsonrpc id method params]. simpl in Hid. subst id. simpl.
  rewrite Hurl. simpl. rewrite Hpost. rewrite decide_False by lia.
  by do 2 eexists.
Qed.

Lemma broadcast_ids req orig l s n :
  req_Id req = Some orig →
  (∀ k u b, Post env k u b = Some 200) →
  (∀ name, name ∈ l → is_Some (mcpMessageUrl s !! name)) →
  let r := foldl (broadcastTo json env req) (s, n) l in
  messageIds r.1 = foldl (λ m g, <[g := orig]> m) (messageIds s)
                         (broadcastIds env (clockReads n) (length l))
  ∧ eventChan r.1 = eventChan s.
Proof.
  intros Hid Hpost. revert s n. induction l as [|name l IH]; intros s n Hl.
  - done.
  - change (foldl (broadcastTo json env req) (s, n) (name :: l))
      with (foldl (broadcastTo json env req)
                  (broadcastTo json env req (s, n) name) l).
    destruct (Hl name) as [url Hurl]; [by left|].
    destruct (sendToMcp_ok name req orig url s n Hid Hurl Hpost)
      as (s1 & n1 & Hsend & Hm & Hc & He & Hu).
    assert (Hb : ∃ s2, broadcastTo json env req (s, n) name = (s2, n1)
                       ∧ messageIds s2 = messageIds s1
                       ∧ eventChan s2 = eventChan s1
                       ∧ mcpMessageUrl s2 = mcpMessageUrl s1).
    { unfold broadcastTo. cbn [fst snd]. rewrite Hsend.
      case_decide; eexists; (split; [reflexivity|]); done. }
    destruct Hb as (s2 & -> & Hm2 & He2 & Hu2).
    destruct (IH s2 n1) as [Hids Hev].
    { intros name' Hin. rewrite Hu2, Hu. apply Hl. by right. }
    cbv zeta. rewrite Hids, Hev, Hm2, He2, Hm, He, Hc. done.
Qed.

Lemma foldl_insert_const (orig : Z) gs (m : gmap Z Z) g :
  g ∈ gs → foldl (λ m g, <[g := orig]> m) m gs !! g = Some orig.
Proof.
  revert m. induction gs as [|g' gs IH]; intros m Hin.
  - by apply elem_of_nil in Hin.
  - simpl. destruct (decide (g ∈ gs)) as [Hgs|Hgs]; [by apply IH|].
    apply elem_of_cons in Hin as [->|Hin]; [|done].
    clear IH. revert m. induction gs as [|g'' gs IH]; intros m.
    + simpl. apply lookup_insert_eq.
    + simpl. apply not_elem_of_cons in Hgs as [Hne Hgs].
      rewrite insert_insert_ne by done. by apply IH.
Qed.

(** The replies to a broadcast, one after the other. *)
Lemma replies_forwarded scheme host ev orig
    (replies : list (Z * (string * string))) cur :
  ev ≠ "endpoint" →
  NoDup replies.*1 →
  Forall (λ p, messageIds cur !! p.1 = Some orig
               ∧ gjson_id json p.2.2 = Some p.1
               ∧ gjson_result_tools json
                   (Replace1 p.2.2 (idField p.1) (idField orig)) = [])
         replies →
  (length (eventChan cur) + length replies ≤ eventChanCap)%nat →
  let final := foldl (λ cur p, onData json p.2.1 scheme host ev p.2.2 cur)
                     cur replies in
  eventChan final
  = eventChan cur
    ++ ((λ p, mkMsg ev (forwardedData json orig p.1 p.2.2)) <$> replies)
  ∧ ∀ g, g ∈ replies.*1 → messageIds final !! g = None.
Proof.
  intros Hev. revert cur.
  induction replies as [|[g [b data]] replies IH]; intros cur Hnd Hall Hroom.
  - simpl. rewrite app_nil_r. split; [done|].
    intros g Hg. by apply elem_of_nil in Hg.
  - rewrite fmap_cons in Hnd. apply NoDup_cons in Hnd as [Hg Hnd].
    apply Forall_cons in Hall as [(Hid & Hdata & Htools) Hall].
    simpl in Hg, Hid, Hdata, Htools. simpl length in Hroom.
    destruct (onData_match json b scheme host ev data g orig cur
                Hdata Hid Hev) as (Hdel & data' & Hfwd & Hplain & _); [lia|].
    cbn [foldl]. cbn [fst snd].
    set (cur' := onData json b scheme host ev data cur) in *.
    destruct (IH cur' Hnd) as [Hch Hgone].
    + apply Forall_forall. intros p Hp.
      pose proof (proj1 (Forall_forall _ _) Hall p Hp) as (Hp1 & Hp2 & Hp3).
      split; [|done]. rewrite Hdel, lookup_delete_ne; [done|].
      intros ->. apply Hg. apply list_elem_of_fmap. by exists p.
    + rewrite Hfwd, length_app. simpl. lia.
    + cbv zeta in Hch, Hgone. split.
      * rewrite Hch, Hfwd, (Hplain Htools), <- app_assoc. done.
      * intros g' Hg'. rewrite fmap_cons in Hg'.
        apply elem_of_cons in Hg' as [->|Hg']; [|by apply Hgone].
        simpl. clear IH Hch Hall Hnd Hroom.
        assert (Hkeep : ∀ (l : list (Z * (string * string))) s0,
          messageIds s0 !! g = None →
          messageIds (foldl (λ cur (p : Z * (string * string)),
                               onData json p.2.1 scheme host ev p.2.2 cur)
                            s0 l) !! g = None).
        { induction l as [|p l IHl]; intros s0 H0; [done|]. cbn [foldl].
          apply IHl.
          pose proof (onData_reads json p.2.1 scheme host ev p.2.2 s0) as Hr.
          pose proof (rd_ids _ _ _ Hr) as Hsub.
          destruct (messageIds (onData json p.2.1 scheme host ev p.2.2 s0) !! g)
            as [v|] eqn:E; [|done].
          eapply lookup_weaken in E; [|exact Hsub]. congruence. }
        apply Hkeep. rewrite Hdel. apply lookup_delete_eq.
Qed.

Lemma length_broadcastIds c k : length (broadcastIds env c k) = k.
Proof. revert c. induction k as [|k IH]; intros c; simpl; [done|]. by rewrite IH. Qed.

(** X28.  A request with an id that is not a tools/call, sent through
    SendMessage on a ready session whose backends all answer the POST
    with 200, is recorded under one gateway id per backend, all for the
    same original id.  If these gateway ids are pairwise distinct and
    each backend then answers under its gateway id with a reply that
    carries no tools, on an event other than "endpoint" and with room in
    the event channel, the client is sent one event per backend, each
    under the original id: as many answers to its one request as there
    are backends. *)
Theorem broadcast_answers_multiply sleep content req orig s n scheme host ev
    (replies : list (Z * (string * string))) :
  Unmarshal_request json content = Some req →
  req_Id req = Some orig →
  req_Method req ≠ "tools/call" →
  IsReady s = true →
  (∀ k u b, Post env k u b = Some 200) →
  replies.*1 = broadcastIds env (clockReads n) (size (mcpMessageUrl s)) →
  NoDup replies.*1 →
  ev ≠ "endpoint" →
  Forall (λ p, gjson_id json p.2.2 = Some p.1
               ∧ gjson_result_tools json
                   (Replace1 p.2.2 (idField p.1) (idField orig)) = [])
         replies →
  (length (eventChan s) + length replies ≤ eventChanCap)%nat →
  let r := SendMessage json env sleep content s n in
  let final := foldl (λ cur (p : Z * (string * string)),
                        onData json p.2.1 scheme host ev p.2.2 cur)
                     r.1.2 replies in
  r.1.1 = None
  ∧ length replies = size (mcpMessageUrl s)
  ∧ (∀ g, g ∈ replies.*1 → messageIds r.1.2 !! g = Some orig)
  ∧ eventChan final
    = eventChan s
      ++ ((λ p, mkMsg ev (forwardedData json orig p.1 p.2.2)) <$> replies)
  ∧ (∀ g, g ∈ replies.*1 → messageIds final !! g = None).
Proof.
  intros Hreq Hid Hm Hready Hpost Hgs Hnd Hev Hall Hroom r final.
  assert (Hlen : length replies = size (mcpMessageUrl s)).
  { rewrite <- (length_fmap fst replies), Hgs, length_broadcastIds. done. }
  destruct (broadcast_ids req orig (map_to_list (mcpMessageUrl s)).*1 s n Hid Hpost)
    as [Hids Hch].
  { intros name Hin. apply list_elem_of_fmap in Hin as ([k v] & -> & Hin).
    apply elem_of_map_to_list in Hin. by exists v. }
  rewrite length_fmap, length_map_to_list, <- Hgs in Hids.
  assert (Hr : r.1.1 = None
               ∧ messageIds r.1.2
                 = foldl (λ m g, <[g := orig]> m) (messageIds s) replies.*1
               ∧ eventChan r.1.2 = eventChan s).
  { unfold r, SendMessage. rewrite Hreq, (waitReady_ready _ _ _ _ Hready).
    rewrite decide_False by done. rewrite decide_True by done.
    destruct (foldl (broadcastTo json env req) (s, n) _) as [s1 n1].
    simpl in *. done. }
  destruct Hr as (Herr & Hmids & Hechan).
  assert (Hrec : ∀ g, g ∈ replies.*1 → messageIds r.1.2 !! g = Some orig).
  { intros g Hg. rewrite Hmids. by apply foldl_insert_const. }
  destruct (replies_forwarded scheme host ev orig replies r.1.2 Hev Hnd)
    as [Hfwd Hgone].
  { apply Forall_forall. intros p Hp.
    pose proof (proj1 (Forall_forall _ _) Hall p Hp) as [H1 H2].
    split; [|done]. apply Hrec. apply list_elem_of_fmap. by exists p. }
  { by rewrite Hechan. }
  split; [done|]. split; [done|]. split; [done|].
  split; [by rewrite <- Hechan | done].
Qed.

End Broadcast.

(** ** The further properties on concrete inputs *)

Section MoreExamples.

Lemma Ex_os_ok : Service.os_ok Ex.os.
Proof. split; intros; by eexists. Qed.

Lemma Ex_a_command :
  ¬ (Command (Service.Config_ Ex.backend_a) = ""
     ∧ URL (Service.Config_ Ex.backend_a) ≠ "").
Proof. intros [H _]. discriminate H. Qed.

Lemma Ex_echo_command :
  ¬ (Command Ex.echo_config = "" ∧ URL Ex.echo_config ≠ "").
Proof. intros [H _]. discriminate H. Qed.

Lemma Ex_world0_chans_ok : Service.chans_ok Ex.world0.
Proof. intros ch H. by apply not_elem_of_empty in H. Qed.

Lemma Ex_a_world_chans_ok : Service.chans_ok Ex.a_world.
Proof. intros ch H. by apply not_elem_of_empty in H. Qed.

Lemma Ex_a_up : Service.up Ex.a_running Ex.a_world.
Proof.
  split.
  - intros [H _]. vm_compute in H. discriminate H.
  - vm_compute. reflexivity.
  - eexists. vm_compute. reflexivity.
  - exists 0%nat. split; [vm_compute; reflexivity|].
    split; [vm_compute; lia|]. apply not_elem_of_empty.
Qed.

(** X1 at a run with a release between two allocations. *)
Lemma ports_never_reused_witness :
  10000 + PortManager.allocs
            [PortManager.Alloc; PortManager.Release 10000; PortManager.Alloc]
    ≤ int_max
  ∧ PortManager.returned
      (PortManager.run
         [PortManager.Alloc; PortManager.Release 10000; PortManager.Alloc])
    = reverse (seqZ 10000
                 (PortManager.allocs
                    [PortManager.Alloc; PortManager.Release 10000;
                     PortManager.Alloc])).
Proof.
  assert (H : 10000 + PortManager.allocs
                        [PortManager.Alloc; PortManager.Release 10000;
                         PortManager.Alloc] ≤ int_max)
    by (vm_compute; discriminate).
  split; [exact H|].
  exact (proj1 (ports_never_reused _ H)).
Defined.

(** X3 at a fresh backend in the initial world. *)
Lemma Start_Stop_round_trip_witness :
  Service.os_ok Ex.os
  ∧ Service.Status Ex.backend_a ≠ "running" ∧ Service.Port Ex.backend_a = 0
  ∧ (Service.Start Ex.os Ex.backend_a Ex.world0).1.1 = None.
Proof.
  assert (Hs : Service.Status Ex.backend_a ≠ "running") by discriminate.
  assert (Hp : Service.Port Ex.backend_a = 0) by reflexivity.
  assert (Hpos : 0 < PortManager.nextPort (Service.ports Ex.world0))
    by reflexivity.
  assert (Hhi : PortManager.nextPort (Service.ports Ex.world0)
                + Z.of_nat (size (PortManager.usedPorts (Service.ports Ex.world0)))
                ≤ int_max) by (vm_compute; discriminate).
  split; [exact Ex_os_ok|]. split; [exact Hs|]. split; [exact Hp|].
  exact (proj1 (Start_Stop_round_trip Ex.os Ex.backend_a Ex.world0
                  Ex_os_ok Ex_a_command Hs Hp Hpos Hhi)).
Defined.

(** X4 where the log file cannot be created. *)
Lemma Start_failure_keeps_port_witness :
  Service.CreateLogFile Ex.os_nolog
    (ConfigDirPath (Service.cfg Ex.backend_a))
    (Service.Name Ex.backend_a +:+ ".log") = None
  ∧ ((Service.Start Ex.os_nolog Ex.backend_a Ex.world0).1.1
       = Some Service.ErrCreateLogFile
     ∨ (Service.Start Ex.os_nolog Ex.backend_a Ex.world0).1.1
       = Some Service.ErrStartCommand).
Proof.
  assert (Hs : Service.Status Ex.backend_a ≠ "running") by discriminate.
  assert (Hp : Service.Port Ex.backend_a = 0) by reflexivity.
  assert (Hpos : 0 < PortManager.nextPort (Service.ports Ex.world0))
    by reflexivity.
  assert (Hhi : PortManager.nextPort (Service.ports Ex.world0)
                + Z.of_nat (size (PortManager.usedPorts (Service.ports Ex.world0)))
                ≤ int_max) by (vm_compute; discriminate).
  assert (Hlog : Service.CreateLogFile Ex.os_nolog
                   (ConfigDirPath (Service.cfg Ex.backend_a))
                   (Service.Name Ex.backend_a +:+ ".log") = None)
    by reflexivity.
  split; [exact Hlog|].
  exact (proj1 (Start_failure_keeps_port Ex.os_nolog Ex.backend_a Ex.world0
                  Ex_a_command Hs Hp Hpos Hhi (or_introl Hlog))).
Defined.

(** X5 at the backend started on port 10000. *)
Lemma Restart_moves_port_witness :
  Service.os_ok Ex.os ∧ Service.up Ex.a_running Ex.a_world
  ∧ Service.Port Ex.a_running ≠ 0
  ∧ Service.Port Ex.a_running < PortManager.nextPort (Service.ports Ex.a_world)
  ∧ Service.Port Ex.a_running
    < Service.Port (Service.Restart Ex.os Ex.a_running Ex.a_world).1.
Proof.
  assert (Hp : Service.Port Ex.a_running ≠ 0) by (vm_compute; discriminate).
  assert (Hlt : Service.Port Ex.a_running
                < PortManager.nextPort (Service.ports Ex.a_world))
    by (vm_compute; reflexivity).
  assert (Hpos : 0 < PortManager.nextPort (Service.ports Ex.a_world))
    by (vm_compute; reflexivity).
  assert (Hhi : PortManager.nextPort (Service.ports Ex.a_world)
                + Z.of_nat (size (PortManager.usedPorts (Service.ports Ex.a_world)))
                ≤ int_max) by (vm_compute; discriminate).
  split; [exact Ex_os_ok|]. split; [exact Ex_a_up|].
  split; [exact Hp|]. split; [exact Hlt|].
  exact (proj1 (proj2 (Restart_moves_port Ex.os Ex.a_running Ex.a_world
                         Ex_os_ok Ex_a_world_chans_ok Ex_a_up
                         Hp Hlt Hpos Hhi))).
Defined.

(** X6 at a backend just started: one restart, then the monitor gives
    up. *)
Lemma monitor_bounded_restarts_witness :
  Service.os_ok Ex.os ∧ Service.up Ex.a_running Ex.a_world
  ∧ Service.RetryCount Ex.a_running + Z.of_nat 1
  = McpServiceRetryCount (Service.cfg Ex.a_running) + 1
  ∧ (Service.monitorProcess Ex.os (replicate 2 true ++ [])
                            Ex.a_running Ex.a_world).1.1
    = Service.Terminated.
Proof.
  assert (Hk : Service.RetryCount Ex.a_running + Z.of_nat 1
               = McpServiceRetryCount (Service.cfg Ex.a_running) + 1)
    by (vm_compute; reflexivity).
  assert (Hmax : McpServiceRetryCount (Service.cfg Ex.a_running) < int_max)
    by (vm_compute; reflexivity).
  assert (Hmin : int_min ≤ Service.RetryCount Ex.a_running)
    by (vm_compute; discriminate).
  split; [exact Ex_os_ok|]. split; [exact Ex_a_up|]. split; [exact Hk|].
  exact (proj1 (monitor_bounded_restarts Ex.os Ex.a_running Ex.a_world 1 []
                  Ex_os_ok Ex_a_world_chans_ok Ex_a_up Hk Hmax Hmin)).
Defined.

(** X7 at the same backend. *)
Lemma Stop_undone_by_monitor_witness :
  Service.os_ok Ex.os ∧ Service.chans_ok Ex.a_world
  ∧ Service.up Ex.a_running Ex.a_world
  ∧ Service.monitorTurn Ex.os true Ex.a_running Ex.a_world
    = Service.onWaitError Ex.os Ex.a_running Ex.a_world.
Proof.
  split; [exact Ex_os_ok|]. split; [exact Ex_a_world_chans_ok|].
  split; [exact Ex_a_up|].
  exact (proj1 (Stop_undone_by_monitor Ex.os Ex.a_running Ex.a_world
                  Ex_os_ok Ex_a_world_chans_ok Ex_a_up)).
Defined.


Lemma Ex_manager3_due_s1 :
  Manager.due (Ex.t0 + 200000000) Ex.manager3 "s1"
    (Manager.mkRemoval "s1" (Some (Session.Close Ex.session_live).1)
                       (Session.Close Ex.session_live).2).
Proof. exists (Some Ex.session_live). split; vm_compute; reflexivity. Qed.

Lemma Ex_manager3_due_s2 :
  Manager.due (Ex.t0 + 200000000) Ex.manager3 "s2"
    (Manager.mkRemoval "s2"
       (Some (Session.Close (Session.NewSession "s2" Ex.t0)).1)
       (Session.Close (Session.NewSession "s2" Ex.t0)).2).
Proof.
  exists (Some (Session.NewSession "s2" Ex.t0)). split; vm_compute; reflexivity.
Qed.

(** X9 at a manager with three sessions of which two are due: the tick
    removes one of them and never returns. *)
Lemma gc_tick_one_removal_witness :
  map_to_list (Manager.proxySessions Ex.manager3)
    ≡ₚ map_to_list (Manager.proxySessions Ex.manager3)
  ∧ ∃ r pending,
      Manager.gcRange (Ex.t0 + 200000000)
        (map_to_list (Manager.proxySessions Ex.manager3))
        (Manager.mkGc Ex.manager3 [] false)
      = Manager.Blocked
          (Manager.set_proxySessions
             (Manager.stuckAt pending
                (delete (Manager.rm_id r) (Manager.proxySessions Ex.manager3)))
             Ex.manager3)
          [r] pending
      ∧ Manager.due (Ex.t0 + 200000000) Ex.manager3 (Manager.rm_id r) r
      ∧ Manager.due (Ex.t0 + 200000000) Ex.manager3
                    (Manager.rm_id pending) pending
      ∧ Manager.rm_id r ≠ Manager.rm_id pending.
Proof.
  assert (Hne : "s1" ≠ "s2") by discriminate.
  split; [exact (Permutation_refl _)|].
  exact (proj2 (proj2
           (gc_tick_one_removal (Ex.t0 + 200000000) Ex.manager3
              (map_to_list (Manager.proxySessions Ex.manager3))
              (Permutation_refl _)))
           "s1" _ "s2" _ Ex_manager3_due_s1 Ex_manager3_due_s2 Hne).
Defined.

(** X11 at the remote configuration, in a manager without backends. *)
Lemma DeployServer_url_only_rejected_witness :
  Command Ex.remote_config = "" ∧ URL Ex.remote_config ≠ ""
  ∧ Manager.servers Ex.manager1 !! "r" = None
  ∧ Router.DeployServer Ex.os "r" Ex.remote_config Ex.manager1
    = (Some (Router.ErrManager
               (Manager.ErrStart (Service.ErrNotCommand "r"))),
       Ex.manager1, None).
Proof.
  assert (Hc : Command Ex.remote_config = "") by reflexivity.
  assert (Hu : URL Ex.remote_config ≠ "") by discriminate.
  assert (Hn : Manager.servers Ex.manager1 !! "r" = None)
    by (vm_compute; reflexivity).
  split; [exact Hc|]. split; [exact Hu|]. split; [exact Hn|].
  exact (DeployServer_url_only_rejected Ex.os "r" Ex.remote_config Ex.manager1
           Hc Hu Hn).
Defined.

(** X12 at the echo configuration. *)
Lemma DeployServer_new_witness :
  Service.os_ok Ex.os
  ∧ Manager.servers Ex.manager1 !! "a" = None
  ∧ (Manager.DeployServer Ex.os "a" Ex.echo_config Ex.manager1).1.1 = None.
Proof.
  assert (Hn : Manager.servers Ex.manager1 !! "a" = None)
    by (vm_compute; reflexivity).
  split; [exact Ex_os_ok|]. split; [exact Hn|].
  exact (proj1 (DeployServer_new Ex.os "a" Ex.echo_config Ex.manager1
                  Ex_os_ok Ex_echo_command Hn)).
Defined.

(** X13 where the log file cannot be created. *)
Lemma DeployServer_failure_leaks_port_witness :
  Manager.servers Ex.manager1 !! "a" = None
  ∧ Service.CreateLogFile Ex.os_nolog (ConfigDirPath (Manager.cfg Ex.manager1))
                          ("a" +:+ ".log") = None
  ∧ Manager.servers
      (Manager.DeployServer Ex.os_nolog "a" Ex.echo_config Ex.manager1).1.2
    = Manager.servers Ex.manager1.
Proof.
  assert (Hn : Manager.servers Ex.manager1 !! "a" = None)
    by (vm_compute; reflexivity).
  assert (Hpos : 0 < PortManager.nextPort
                       (Service.ports (Manager.world Ex.manager1)))
    by (vm_compute; reflexivity).
  assert (Hhi : PortManager.nextPort (Service.ports (Manager.world Ex.manager1))
                + Z.of_nat (size (PortManager.usedPorts
                                    (Service.ports (Manager.world Ex.manager1))))
                ≤ int_max) by (vm_compute; discriminate).
  assert (Hlog : Service.CreateLogFile Ex.os_nolog
                   (ConfigDirPath (Manager.cfg Ex.manager1)) ("a" +:+ ".log")
                 = None) by reflexivity.
  split; [exact Hn|]. split; [exact Hlog|].
  exact (proj1 (proj2 (DeployServer_failure_leaks_port Ex.os_nolog "a"
                         Ex.echo_config Ex.manager1
                         Ex_echo_command Hn Hpos Hhi (or_introl Hlog)))).
Defined.

(** X14 at the backend [x], given the remote configuration. *)
Lemma DeployServer_existing_witness :
  Manager.servers Ex.manager_xy !! "x" = Some Ex.started_x.1.2
  ∧ (Manager.DeployServer Ex.os "x" Ex.remote_config Ex.manager_xy).1.1 = None.
Proof.
  assert (Hx : Manager.servers Ex.manager_xy !! "x" = Some Ex.started_x.1.2)
    by (vm_compute; reflexivity).
  split; [exact Hx|].
  exact (proj1 (DeployServer_existing Ex.os "x" Ex.remote_config Ex.manager_xy
                  Ex.started_x.1.2 Hx)).
Defined.

(** X15 at the echo configuration. *)
Lemma Deploy_Delete_round_trip_witness :
  Service.os_ok Ex.os
  ∧ Manager.servers Ex.manager1 !! "a" = None
  ∧ Manager.DeleteServer "a" Ex.manager1
    = (Some (Manager.ErrNoService "a"), Ex.manager1, None).
Proof.
  assert (Hn : Manager.servers Ex.manager1 !! "a" = None)
    by (vm_compute; reflexivity).
  assert (Hch : Service.chans_ok (Manager.world Ex.manager1)).
  { intros ch H. by apply not_elem_of_empty in H. }
  assert (Hpos : 0 < PortManager.nextPort
                       (Service.ports (Manager.world Ex.manager1)))
    by (vm_compute; reflexivity).
  assert (Hhi : PortManager.nextPort (Service.ports (Manager.world Ex.manager1))
                + Z.of_nat (size (PortManager.usedPorts
                                    (Service.ports (Manager.world Ex.manager1))))
                ≤ int_max) by (vm_compute; discriminate).
  split; [exact Ex_os_ok|]. split; [exact Hn|].
  exact (proj1 (Deploy_Delete_round_trip Ex.os "a" Ex.echo_config Ex.manager1
                  Ex_os_ok Hch Ex_echo_command Hn Hpos Hhi)).
Defined.

(** X16 in the manager of the backends [x] and [y], both running. *)
Lemma CreateProxySession_subscribes_witness :
  Z.of_nat (size (Manager.servers Ex.manager_xy)) < 2 ^ 31
  ∧ Manager.GetProxySession "s2"
      (Manager.CreateProxySession (λ s, s) "s2" Ex.t0 Ex.manager_xy).1.2
    = (Some (Manager.CreateProxySession (λ s, s) "s2" Ex.t0 Ex.manager_xy).1.1,
       true).
Proof.
  assert (Hsize : Z.of_nat (size (Manager.servers Ex.manager_xy)) < 2 ^ 31)
    by (vm_compute; reflexivity).
  split; [exact Hsize|].
  exact (proj1 (CreateProxySession_subscribes (λ s, s) "s2" Ex.t0 Ex.manager_xy
                  Hsize)).
Defined.

(** X19 at the session of the backends [x] and [y]. *)
Lemma reader_exit_unready_witness :
  Session.IsReady Ex.session_xy = true ∧ Session.sseCount Ex.session_xy < 2 ^ 31
  ∧ ∀ b scheme host lines ev,
      Session.IsReady
        (Session.readLoop Ex.json b scheme host lines
                          (ev, Session.readerExit "x" Ex.session_xy)).2
      = false.
Proof.
  assert (Hr : Session.IsReady Ex.session_xy = true) by (vm_compute; reflexivity).
  assert (Hc : Session.sseCount Ex.session_xy < 2 ^ 31)
    by (vm_compute; reflexivity).
  split; [exact Hr|]. split; [exact Hc|].
  exact (proj1 (reader_exit_unready Ex.json Ex.slow_clock "x" Ex.session_xy
                  Hr Hc)).
Defined.

(** X20 at the tool [t] of the backend [x]. *)
Lemma advertised_tool_routes_back_witness :
  has_char underscore "x" = false
  ∧ "x" ≠ ""
  ∧ Session.GetMcpTool "x" "t"
      (Session.onTools Ex.json "x" 7 [Ex.tool_t_raw] (Ex.tools_reply 7)
                       Ex.session_xy).1
    = (mkTool "x_t" "t" "" "", true)
  ∧ Session.IsReady
      (Session.onTools Ex.json "x" 7 [Ex.tool_t_raw] (Ex.tools_reply 7)
                       Ex.session_xy).1 = true
  ∧ ∃ p,
      posts (Session.SendMessage Ex.json Ex.slow_clock Ex.no_sleep
               (Ex.print_request Ex.call_x_t)
               (Session.onTools Ex.json "x" 7 [Ex.tool_t_raw] (Ex.tools_reply 7)
                                Ex.session_xy).1 Ex.net0).2
      = posts Ex.net0 ++ [p]
      ∧ p.1 = "http://localhost:10000/message"
      ∧ Session.carries Ex.json
          (mkRequest (req_Jsonrpc Ex.call_x_t) (req_Id Ex.call_x_t)
                     (req_Method Ex.call_x_t)
                     (AObj (<["name" := AStr "t"]> Ex.params_x_t))) p.
Proof.
  assert (Hx : has_char underscore "x" = false) by reflexivity.
  assert (Hne : "x" ≠ "") by discriminate.
  assert (Hget : Session.GetMcpTool "x" "t"
                   (Session.onTools Ex.json "x" 7 [Ex.tool_t_raw]
                      (Ex.tools_reply 7) Ex.session_xy).1
                 = (mkTool "x_t" "t" "" "", true)) by (vm_compute; reflexivity).
  assert (Hreq : Unmarshal_request Ex.json (Ex.print_request Ex.call_x_t)
                 = Some Ex.call_x_t) by (vm_compute; reflexivity).
  assert (Hm : req_Method Ex.call_x_t = "tools/call") by reflexivity.
  assert (Hp : req_Params Ex.call_x_t = AObj Ex.params_x_t) by reflexivity.
  assert (Hn : Ex.params_x_t !! "name"
               = Some (AStr (tool_Name (mkTool "x_t" "t" "" ""))))
    by (vm_compute; reflexivity).
  assert (Hready : Session.IsReady
                     (Session.onTools Ex.json "x" 7 [Ex.tool_t_raw]
                        (Ex.tools_reply 7) Ex.session_xy).1 = true)
    by (vm_compute; reflexivity).
  assert (Hurl : Session.mcpMessageUrl
                   (Session.onTools Ex.json "x" 7 [Ex.tool_t_raw]
                      (Ex.tools_reply 7) Ex.session_xy).1 !! "x"
                 = Some "http://localhost:10000/message")
    by (vm_compute; reflexivity).
  split; [exact Hx|]. split; [exact Hne|]. split; [exact Hget|].
  split; [exact Hready|].
  exact (proj1 (proj2 (proj2 (proj2 (proj2
           (advertised_tool_routes_back Ex.json Ex.slow_clock Ex.no_sleep
              "x" 7 [Ex.tool_t_raw] (Ex.tools_reply 7) Ex.session_xy "t"
              (mkTool "x_t" "t" "" "") (Ex.print_request Ex.call_x_t)
              Ex.call_x_t Ex.params_x_t Ex.net0
              Hx Hne Hget Hreq Hm Hp Hn Hready)))))
           "http://localhost:10000/message" Hurl).
Defined.

(** X21 at a session that becomes ready during the first sleep. *)
Lemma SendMessage_waits_witness :
  Unmarshal_request Ex.json (Ex.print_request Ex.tools_list) = Some Ex.tools_list
  ∧ Session.IsReady Ex.session_waiting = false
  ∧ Session.IsReady (Nat.iter 1 Ex.wake Ex.session_waiting) = true
  ∧ Session.SendMessage Ex.json Ex.slow_clock Ex.wake
      (Ex.print_request Ex.tools_list) Ex.session_waiting Ex.net0
    = Session.SendMessage Ex.json Ex.slow_clock Ex.wake
        (Ex.print_request Ex.tools_list)
        (Nat.iter 1 Ex.wake Ex.session_waiting) Ex.net0.
Proof.
  assert (Hreq : Unmarshal_request Ex.json (Ex.print_request Ex.tools_list)
                 = Some Ex.tools_list) by (vm_compute; reflexivity).
  assert (H0 : Session.IsReady Ex.session_waiting = false)
    by (vm_compute; reflexivity).
  assert (H1 : Session.IsReady (Nat.iter 1 Ex.wake Ex.session_waiting) = true)
    by (vm_compute; reflexivity).
  assert (Hk : (1 ≤ 4)%nat) by (repeat constructor).
  assert (Hnot : ∀ j, (j < 1)%nat →
                      Session.IsReady (Nat.iter j Ex.wake Ex.session_waiting)
                      = false).
  { intros [|j] Hj; [exact H0 | exfalso; lia]. }
  split; [exact Hreq|]. split; [exact H0|]. split; [exact H1|].
  exact (proj1 (SendMessage_waits Ex.json Ex.slow_clock Ex.wake
                  (Ex.print_request Ex.tools_list) Ex.tools_list
                  Ex.session_waiting Ex.net0 1 Hreq Hk Hnot) H1).
Defined.

Lemma Ex_manager1_only now id' r' :
  id' ≠ "s1" → ¬ Manager.due now Ex.manager1 id' r'.
Proof.
  intros Hne (v & Hv & _).
  change (Manager.proxySessions Ex.manager1)
    with (<["s1" := Some Ex.session_live]>
            (∅ : gmap string (option Session.t))) in Hv.
  rewrite lookup_insert_ne in Hv by done. by rewrite lookup_empty in Hv.
Qed.

(** X22 at a session that is 200 ms old under a timeout of 100 ms, the
    only one of its manager, after a POST /message for it. *)
Lemma busy_session_collected_witness :
  Manager.proxySessions Ex.manager1 !! "s1" = Some (Some Ex.session_live)
  ∧ time_Sub (Ex.t0 + 200000000) (Session.LastReceiveTime Ex.session_live)
    > ProxySessionTimeout (Manager.cfg Ex.manager1)
  ∧ ∃ r,
      Manager.gcRange (Ex.t0 + 200000000)
        (map_to_list
           (Manager.proxySessions
              (Router.handleGlobalMessage Ex.slow_clock
                 (Router.mkReq "s1" (Some "ping")) Ex.manager1 Ex.net0).1.2))
        (Manager.mkGc
           (Router.handleGlobalMessage Ex.slow_clock
              (Router.mkReq "s1" (Some "ping")) Ex.manager1 Ex.net0).1.2
           [] false)
      = Manager.Returned
          (Manager.set_proxySessions
             (delete "s1" (Manager.proxySessions Ex.manager1)) Ex.manager1)
          [r]
      ∧ Manager.rm_id r = "s1".
Proof.
  assert (Hs : Manager.proxySessions Ex.manager1 !! "s1"
               = Some (Some Ex.session_live)) by (vm_compute; reflexivity).
  assert (Hold : time_Sub (Ex.t0 + 200000000)
                          (Session.LastReceiveTime Ex.session_live)
                 > ProxySessionTimeout (Manager.cfg Ex.manager1))
    by (vm_compute; reflexivity).
  assert (Hne : "s1" ≠ "") by discriminate.
  split; [exact Hs|]. split; [exact Hold|].
  exact (proj2
           (proj2 (proj2 (proj2
              (busy_session_collected Ex.json Ex.slow_clock (Ex.t0 + 200000000)
                 Ex.manager1 "s1" Ex.session_live Hs Hold)))
              (Router.mkReq "s1" (Some "ping")) Ex.net0 "ping"
              (map_to_list
                 (Manager.proxySessions
                    (Router.handleGlobalMessage Ex.slow_clock
                       (Router.mkReq "s1" (Some "ping")) Ex.manager1
                       Ex.net0).1.2))
              eq_refl Hne eq_refl (Permutation_refl _))
           (Ex_manager1_only (Ex.t0 + 200000000))).
Defined.

(** X23 with backends that answer 202. *)
Lemma status_code_acceptance_witness :
  Session.mcpMessageUrl Ex.session_xy !! "x"
  = Some "http://localhost:10000/message"
  ∧ (∀ k u b, Post Ex.accepting k u b = Some 202)
  ∧ ((Session.sendToMcp Ex.json Ex.accepting "x" Ex.tools_list
                        Ex.session_xy Ex.net0).1.1 = None
     ↔ 200 ≤ 202 ≤ 299)
  ∧ ((Service.SendMessage Ex.accepting "ping" Ex.a_running Ex.net0).1 = None
     ↔ 202 = 200).
Proof.
  assert (Hurl : Session.mcpMessageUrl Ex.session_xy !! "x"
                 = Some "http://localhost:10000/message")
    by (vm_compute; reflexivity).
  assert (Hpost : ∀ k u b, Post Ex.accepting k u b = Some 202)
    by (intros; reflexivity).
  split; [exact Hurl|]. split; [exact Hpost|].
  split.
  - exact (proj1 (status_code_acceptance Ex.json Ex.accepting "ping"
                    Ex.tools_list "x" "http://localhost:10000/message"
                    Ex.a_running Ex.session_xy Ex.net0 202 Hurl Hpost)).
  - exact (proj1 (proj2 (status_code_acceptance Ex.json Ex.accepting "ping"
                    Ex.tools_list "x" "http://localhost:10000/message"
                    Ex.a_running Ex.session_xy Ex.net0 202 Hurl Hpost))).
Defined.

(** X24 at the tools/list request of the examples. *)
Lemma sendToMcp_outcomes_witness :
  req_Id Ex.tools_list = Some 7
  ∧ Session.messageIds
      (Session.sendToMcp Ex.json Ex.slow_clock "x" Ex.tools_list
                         Ex.session_xy Ex.net0).1.2
    = <[UnixMilli (Now Ex.slow_clock (clockReads Ex.net0)) := 7]>
        (Session.messageIds Ex.session_xy).
Proof.
  assert (Hid : req_Id Ex.tools_list = Some 7) by reflexivity.
  split; [exact Hid|].
  exact (proj1 (sendToMcp_outcomes Ex.json Ex.slow_clock "x" Ex.tools_list 7
                  Ex.session_xy Ex.net0 Hid)).
Defined.

(** X25 at a chunk that reports the exit. *)
Lemma Write_stops_on_exited_witness :
  ¬ (Command (Service.Config_ Ex.a_running) = ""
     ∧ URL (Service.Config_ Ex.a_running) ≠ "")
  ∧ (Service.Write "process exited" Ex.a_running Ex.a_world).1.1.1
    = Z.of_nat (String.length "process exited").
Proof.
  assert (Hl : ¬ (Command (Service.Config_ Ex.a_running) = ""
                  ∧ URL (Service.Config_ Ex.a_running) ≠ ""))
    by (exact (Service.up_command _ _ Ex_a_up)).
  split; [exact Hl|].
  exact (proj1 (Write_stops_on_exited "process exited" Ex.a_running Ex.a_world
                  Hl)).
Defined.

(** X26 at the backend [x]. *)
Lemma StopServer_stops_in_place_witness :
  Manager.servers Ex.manager_xy !! "x" = Some Ex.started_x.1.2
  ∧ Service.up Ex.started_x.1.2 (Manager.world Ex.manager_xy)
  ∧ Manager.proxySessions (Manager.StopServer "x" Ex.manager_xy)
    = Manager.proxySessions Ex.manager_xy.
Proof.
  assert (Hx : Manager.servers Ex.manager_xy !! "x" = Some Ex.started_x.1.2)
    by (vm_compute; reflexivity).
  assert (Hup : Service.up Ex.started_x.1.2 (Manager.world Ex.manager_xy)).
  { split.
    - intros [H _]. vm_compute in H. discriminate H.
    - vm_compute. reflexivity.
    - eexists. vm_compute. reflexivity.
    - exists 0%nat. split; [vm_compute; reflexivity|].
      split; [vm_compute; lia|]. apply not_elem_of_empty. }
  assert (Hch : Service.chans_ok (Manager.world Ex.manager_xy)).
  { intros ch H. by apply not_elem_of_empty in H. }
  split; [exact Hx|]. split; [exact Hup|].
  exact (proj1 (proj2 (proj2
           (StopServer_stops_in_place "x" Ex.manager_xy Ex.started_x.1.2
              Hx Hup Hch)))).
Defined.

(** X27 at the remote backend of the examples. *)
Lemma remote_backend_always_running_witness :
  Command (Service.Config_ Ex.backend_r) = ""
  ∧ URL (Service.Config_ Ex.backend_r) ≠ ""
  ∧ Service.Start Ex.os Ex.backend_r Ex.world0
    = (Some (Service.ErrNotCommand (Service.Name Ex.backend_r)),
       Service.set_Status "running" Ex.backend_r, Ex.world0).
Proof.
  assert (Hc : Command (Service.Config_ Ex.backend_r) = "") by reflexivity.
  assert (Hu : URL (Service.Config_ Ex.backend_r) ≠ "") by discriminate.
  split; [exact Hc|]. split; [exact Hu|].
  exact (proj1 (remote_backend_always_running Ex.os "" [] Ex.backend_r
                  Ex.world0 Hc Hu)).
Defined.

(** X28 at a tools/list request answered plainly by both backends. *)
Lemma broadcast_answers_multiply_witness :
  Ex.replies_xy.*1
  = Session.broadcastIds Ex.slow_clock (clockReads Ex.net0)
      (size (Session.mcpMessageUrl Ex.session_xy))
  ∧ NoDup Ex.replies_xy.*1
  ∧ ∀ g, g ∈ Ex.replies_xy.*1 →
         Session.messageIds
           (Session.SendMessage Ex.json Ex.slow_clock Ex.no_sleep
              (Ex.print_request Ex.tools_list) Ex.session_xy Ex.net0).1.2 !! g
         = Some 7.
Proof.
  assert (Hreq : Unmarshal_request Ex.json (Ex.print_request Ex.tools_list)
                 = Some Ex.tools_list) by (vm_compute; reflexivity).
  assert (Hid : req_Id Ex.tools_list = Some 7) by reflexivity.
  assert (Hm : req_Method Ex.tools_list ≠ "tools/call") by discriminate.
  assert (Hready : Session.IsReady Ex.session_xy = true)
    by (vm_compute; reflexivity).
  assert (Hpost : ∀ k u b, Post Ex.slow_clock k u b = Some 200)
    by (intros; reflexivity).
  assert (Hgs : Ex.replies_xy.*1
                = Session.broadcastIds Ex.slow_clock (clockReads Ex.net0)
                    (size (Session.mcpMessageUrl Ex.session_xy)))
    by (vm_compute; reflexivity).
  assert (Hnd : NoDup Ex.replies_xy.*1).
  { apply NoDup_cons. split; [|apply NoDup_singleton].
    intros H. apply list_elem_of_singleton in H. discriminate H. }
  assert (Hev : "message" ≠ "endpoint") by discriminate.
  assert (Hall : Forall (λ p : Z * (string * string),
                           gjson_id Ex.json p.2.2 = Some p.1
                           ∧ gjson_result_tools Ex.json
                               (Replace1 p.2.2 (Session.idField p.1)
                                         (Session.idField 7)) = [])
                        Ex.replies_xy).
  { repeat (apply Forall_cons; split; [split; vm_compute; reflexivity|]).
    apply Forall_nil_2. }
  assert (Hroom : (length (Session.eventChan Ex.session_xy)
                   + length Ex.replies_xy ≤ Session.eventChanCap)%nat)
    by (vm_compute; lia).
  split; [exact Hgs|]. split; [exact Hnd|].
  exact (proj1 (proj2 (proj2
           (broadcast_answers_multiply Ex.json Ex.slow_clock Ex.no_sleep
              (Ex.print_request Ex.tools_list) Ex.tools_list 7
              Ex.session_xy Ex.net0 "http" "localhost" "message"
              Ex.replies_xy
              Hreq Hid Hm Hready Hpost Hgs Hnd Hev Hall Hroom)))).
Defined.

End MoreExamples.
